(** * cn: lifecycle helpers of the Ceph Nano command line

    A shallow embedding of the package [cmd] (status, ls, purge and the
    helpers they share) and the properties of its state classifier,
    readiness polling, network selector, port allocator, image metadata
    resolution and purge command.

    The container engine, the network stack and the process environment are
    outside the package: they appear here as a record of oracles ([World]),
    and every function of the package runs in a small monad that threads the
    process state, records the calls it makes and can stop the process. *)

From Stdlib Require Import ZArith String Ascii List Lia DecimalString Permutation.
From stdpp Require Import base option list sorting strings gmap.

Local Open Scope string_scope.
Local Open Scope Z_scope.

(** ** The Go runtime and library functions the package relies on *)

Module Go.

(** [s[low:]] on a string: the bytes from [low] on; [None] is the run-time
    panic "slice bounds out of range". *)
Fixpoint sliceFrom (s : string) (low : nat) : option string :=
  match low, s with
  | O, _ => Some s
  | S k, String _ r => sliceFrom r k
  | S _, EmptyString => None
  end.

(** [b[low:]] on a byte slice. *)
Definition bytesFrom (b : list Byte.byte) (low : nat) : option (list Byte.byte) :=
  if (low <=? List.length b)%nat then Some (drop low b) else None.

(** [strings.HasPrefix]. *)
Fixpoint HasPrefix (s prefix : string) : bool :=
  match prefix, s with
  | EmptyString, _ => true
  | String a p, String b r => Ascii.eqb a b && HasPrefix r p
  | String _ _, EmptyString => false
  end.

(** [strings.Contains]. *)
Fixpoint Contains (s substr : string) : bool :=
  HasPrefix s substr ||
  match s with
  | EmptyString => false
  | String _ r => Contains r substr
  end.

(** [strings.Split] for a non-empty separator: [skip] counts the bytes of
    a separator still to be passed over, [cur] is the piece being read. *)
Fixpoint splitFrom (sep s : string) (skip : nat) (cur : string) : list string :=
  match s with
  | EmptyString => [cur]
  | String c r =>
      match skip with
      | S k => splitFrom sep r k cur
      | O =>
          if HasPrefix s sep
          then cur :: splitFrom sep r (String.length sep - 1) EmptyString
          else splitFrom sep r O (cur ++ String c EmptyString)
      end
  end.

Definition Split (s sep : string) : list string := splitFrom sep s O EmptyString.

(** [strings.Join]. *)
Definition Join (elems : list string) (sep : string) : string :=
  String.concat sep elems.

(** [fmt.Sprint] of an [int]. *)
Definition Sprint (i : Z) : string := NilZero.string_of_int (Z.to_int i).

(** [net.JoinHostPort] for a host without a colon. *)
Definition JoinHostPort (host port : string) : string := host ++ ":" ++ port.

Definition newline : string := String (ascii_of_nat 10) EmptyString.

(** A call that returns [(value, error)]. *)
Inductive Result (A : Type) : Type :=
| Ok (a : A)
| Err (e : string).
Arguments Ok {A} a.
Arguments Err {A} e.

(** *** net.IP *)

Definition IP : Type := list Byte.byte.

Definition IPv4len : nat := 4.
Definition IPv6len : nat := 16.

Definition isZeros (p : list Byte.byte) : bool :=
  forallb (fun b => Byte.eqb b Byte.x00) p.

(** [p[i] == b], false out of range. *)
Definition byteIs (p : list Byte.byte) (i : nat) (b : Byte.byte) : bool :=
  match p !! i with
  | Some x => Byte.eqb x b
  | None => false
  end.

(** [ip.To4()]: the 4-byte form of an IPv4 address, [None] for [nil]. *)
Definition To4 (ip : IP) : option IP :=
  if (List.length ip =? IPv4len)%nat then Some ip
  else if (List.length ip =? IPv6len)%nat
          && isZeros (take 10 ip)
          && byteIs ip 10 Byte.xff
          && byteIs ip 11 Byte.xff
       then Some (take 4 (drop 12 ip))
       else None.

(** [net.IPv4(a, b, c, d)]: the 16-byte form. *)
Definition IPv4 (a b c d : Byte.byte) : IP :=
  (replicate 10 Byte.x00 ++ [Byte.xff; Byte.xff; a; b; c; d])%list.

Definition octetString (b : Byte.byte) : string := Sprint (Z.of_N (Byte.to_N b)).

(** [ip.String()]; [other] stands for the forms of an address that is not
    IPv4 ("<nil>", the IPv6 text form, "?" and hexadecimal digits). *)
Definition IPString (other : IP -> string) (ip : IP) : string :=
  match To4 ip with
  | Some [a; b; c; d] =>
      octetString a ++ "." ++ octetString b ++ "." ++ octetString c ++ "." ++ octetString d
  | _ => other ip
  end.

(** *** Package sort *)

(** [sort.Interface] over a collection of type [T]; [None] is a panic of
    the method. *)
Record Interface (T : Type) : Type := {
  Len : T -> nat;
  Less : T -> nat -> nat -> option bool;
  Swap : T -> nat -> nat -> option T
}.
Arguments Len {T} _ _.
Arguments Less {T} _ _ _ _.
Arguments Swap {T} _ _ _ _.

(** [sort.Reverse]: the same collection with [Less] turned around. *)
Definition Reverse {T : Type} (data : Interface T) : Interface T :=
  {| Len := Len data;
     Less := fun d i j => Less data d j i;
     Swap := Swap data |}.

(** The inner loop of the library's insertion sort, from index [j] down:
    [for j := i; j > a && data.Less(j, j-1); j-- { data.Swap(j, j-1) }]
    with [a = 0]. *)
Fixpoint sink {T : Type} (data : Interface T) (d : T) (j : nat) : option T :=
  match j with
  | O => Some d
  | S j' =>
      lt ← Less data d j j';
      if lt : bool then d' ← Swap data d j j'; sink data d' j' else Some d
  end.

(** The outer loop, [for i := a + 1; i < b; i++], with [n] iterations to go. *)
Fixpoint insertionSortFrom {T : Type} (data : Interface T) (n i : nat) (d : T) : option T :=
  match n with
  | O => Some d
  | S n' => d' ← sink data d i; insertionSortFrom data n' (S i) d'
  end.

(** [sort.Sort], modelled by the insertion sort with which the library sorts
    short slices; it reaches the collection through [Len], [Less] and [Swap]
    only. *)
Definition Sort {T : Type} (data : Interface T) (d : T) : option T :=
  insertionSortFrom data (Len data d - 1) 1 d.

End Go.

(** ** The world outside the package *)

(** The engine's API types, as far as the package reads them. *)
Module types.

Record Container : Type := {
  Names : list string;
  State : string;
  ImageID : string
}.

(** [types.ContainerJSON]: [HostConfig.Binds], [Config.Env], [Config.Image]. *)
Record ContainerJSON : Type := {
  Binds : list string;
  Env : list string;
  Image : string
}.

(** [container.Config], as far as [inspectImage] reads it. *)
Record Config : Type := {
  Labels : gmap string string
}.

(** [types.ImageInspect].  [ContainerConfig] is a pointer, [*container.Config]:
    [None] is the nil pointer of an answer that carries no such object. *)
Record ImageInspect : Type := {
  RepoTags : list string;
  RepoDigests : list string;
  Created : string;
  ContainerConfig : option Config
}.

Record ContainerRemoveOptions : Type := {
  RemoveLinks : bool;
  RemoveVolumes : bool;
  Force : bool
}.

Record ImageRemoveOptions : Type := {
  ImageForce : bool;
  PruneChildren : bool
}.

End types.

Module net.

(** [net.Addr]: what [Network()] and [String()] answer. *)
Record Addr : Type := {
  Network : string;
  String_ : string
}.

(** [http.Response]: the status, and what reading the body to its end gives. *)
Record Response : Type := {
  StatusCode : Z;
  Body : Go.Result (list Byte.byte)
}.

End net.

(** A key pair of the JSON document [{"Keys": [{"Access_key", "Secret_key"}]}]. *)
Record s3Details : Type := {
  AccessKey : string;
  SecretKey : string
}.

(** Everything the package asks of its environment.  The answers to log and
    HTTP requests change while the package polls, so they depend on the number
    of earlier requests of the same kind. *)
Record World : Type := {
  ContainerList : bool -> Go.Result (list types.Container);
  ContainerInspect : string -> Go.Result types.ContainerJSON;
  ImageInspectWithRaw : string -> Go.Result types.ImageInspect;
  ContainerLogs : nat -> string -> Go.Result string;
  ContainerExecCreate : string -> list string -> Go.Result string;
  (** attaching, then [ioutil.ReadAll] on the connection's reader *)
  ContainerExecAttach : string -> Go.Result (Go.Result (list Byte.byte));
  ContainerRemove : string -> option string;
  ImageRemove : string -> option string;
  httpGet : nat -> string -> Go.Result net.Response;
  InterfaceAddrs : Go.Result (list net.Addr);
  DialTimeout : string -> string -> Z -> Go.Result unit;
  (** library functions that are not modelled further *)
  ParseCIDR : string -> Go.Result Go.IP;
  IPv6String : Go.IP -> string;
  TrimSpace : string -> string;
  regexpMatchString : string -> string -> bool;
  (** [json.Unmarshal] into [struct { Keys s3Details }] *)
  jsonKeys : list Byte.byte -> list s3Details;
  (** [termtables]: header and rows to text *)
  Render : list string -> list (list string) -> string
}.

(** What the process does that can be seen from outside. *)
Inductive Event : Type :=
| Stdout (s : string)
| Stderr (s : string)
| Sleep (seconds : Z)
| Help
| CallContainerList (all quiet : bool)
| CallContainerInspect (name : string)
| CallImageInspect (image : string)
| CallContainerLogs (name : string)
| CallExecCreate (name : string) (cmd : list string)
| CallExecAttach (id : string)
| CallContainerRemove (name : string) (options : types.ContainerRemoveOptions)
| CallImageRemove (image : string) (options : types.ImageRemoveOptions)
| HttpGet (url : string)
| CallInterfaceAddrs
| Dial (network address : string) (timeout : Z)
| ShowS3Logs (name : string).

(** The process: what it did so far, how many log and HTTP requests it made,
    and the package's global variables. *)
Record Proc : Type := {
  trace : list Event;
  logCalls : nat;
  getCalls : nat;
  IamSure : bool;
  DeleteAll : bool;
  ImageName : string
}.

(** How a function ends: it returns, the process exits with a status
    ([os.Exit], [log.Fatal]), or the run-time panics. *)
Inductive Outcome (A : Type) : Type :=
| Ret (a : A)
| Exit (code : Z)
| Panic (msg : string).
Arguments Ret {A} a.
Arguments Exit {A} code.
Arguments Panic {A} msg.

Definition M (A : Type) : Type := Proc -> Outcome A * Proc.

#[global] Instance M_ret : MRet M := fun A a s => (Ret a, s).

#[global] Instance M_bind : MBind M := fun A B f m s =>
  match m s with
  | (Ret a, s') => f a s'
  | (Exit code, s') => (Exit code, s')
  | (Panic msg, s') => (Panic msg, s')
  end.

Definition emit (e : Event) : M unit := fun s =>
  (Ret tt,
   {| trace := (trace s ++ [e])%list; logCalls := logCalls s; getCalls := getCalls s;
      IamSure := IamSure s; DeleteAll := DeleteAll s; ImageName := ImageName s |}).

Definition osExit {A : Type} (code : Z) : M A := fun s => (Exit code, s).

Definition panic {A : Type} (msg : string) : M A := fun s => (Panic msg, s).

Definition gets {A : Type} (f : Proc -> A) : M A := fun s => (Ret (f s), s).

Definition setImageName (v : string) : M unit := fun s =>
  (Ret tt,
   {| trace := trace s; logCalls := logCalls s; getCalls := getCalls s;
      IamSure := IamSure s; DeleteAll := DeleteAll s; ImageName := v |}).

Definition nextLogCall : M nat := fun s =>
  (Ret (logCalls s),
   {| trace := trace s; logCalls := S (logCalls s); getCalls := getCalls s;
      IamSure := IamSure s; DeleteAll := DeleteAll s; ImageName := ImageName s |}).

Definition nextGetCall : M nat := fun s =>
  (Ret (getCalls s),
   {| trace := trace s; logCalls := logCalls s; getCalls := S (getCalls s);
      IamSure := IamSure s; DeleteAll := DeleteAll s; ImageName := ImageName s |}).

(** [fmt.Println], and [fmt.Printf] of a text without verbs. *)
Definition Println (s : string) : M unit := emit (Stdout (s ++ Go.newline)).
Definition Printf (s : string) : M unit := emit (Stdout s).

(** [log.Fatal]: the message on standard error (the logger's time prefix is
    left out), then [os.Exit(1)]. *)
Definition logFatal {A : Type} (msg : string) : M A :=
  emit (Stderr (msg ++ Go.newline));; osExit 1.

(** [l[i]], with the run-time's bounds check. *)
Definition index {A : Type} (l : list A) (i : nat) : M A :=
  match l !! i with
  | Some x => mret x
  | None => panic "index out of range"
  end.

(** [s[low:]], with the run-time's bounds check. *)
Definition slice (s : string) (low : nat) : M string :=
  match Go.sliceFrom s low with
  | Some r => mret r
  | None => panic "slice bounds out of range"
  end.

(** [p.f] through a pointer [p], with the run-time's nil check. *)
Definition deref {A : Type} (p : option A) : M A :=
  match p with
  | Some x => mret x
  | None => panic "invalid memory address or nil pointer dereference"
  end.

Definition timeSleep (seconds : Z) : M unit := emit (Sleep seconds).

(** ** Package cmd *)

Section Cmd.

Import Go.

Variable W : World.

(** The namespace prefix of container names; its declaration is not part of
    the files embedded here. *)
Variable ContainerNamePrefix : string.

(** *** Calls out of the package *)

Definition callContainerList (all quiet : bool) : M (Result (list types.Container)) :=
  emit (CallContainerList all quiet);; mret (ContainerList W all).

Definition callContainerInspect (name : string) : M (Result types.ContainerJSON) :=
  emit (CallContainerInspect name);; mret (ContainerInspect W name).

Definition callImageInspect (image : string) : M (Result types.ImageInspect) :=
  emit (CallImageInspect image);; mret (ImageInspectWithRaw W image).

Definition callContainerLogs (name : string) : M (Result string) :=
  emit (CallContainerLogs name);; k ← nextLogCall; mret (ContainerLogs W k name).

Definition callExecCreate (name : string) (cmd : list string) : M (Result string) :=
  emit (CallExecCreate name cmd);; mret (ContainerExecCreate W name cmd).

Definition callExecAttach (id : string) : M (Result (Result (list Byte.byte))) :=
  emit (CallExecAttach id);; mret (ContainerExecAttach W id).

Definition callContainerRemove (name : string) (options : types.ContainerRemoveOptions)
  : M (option string) :=
  emit (CallContainerRemove name options);; mret (ContainerRemove W name).

Definition callImageRemove (image : string) (options : types.ImageRemoveOptions)
  : M (option string) :=
  emit (CallImageRemove image options);; mret (ImageRemove W image).

Definition callHttpGet (url : string) : M (Result net.Response) :=
  emit (HttpGet url);; k ← nextGetCall; mret (httpGet W k url).

Definition callInterfaceAddrs : M (Result (list net.Addr)) :=
  emit CallInterfaceAddrs;; mret (InterfaceAddrs W).

Definition callDialTimeout (network address : string) (timeout : Z) : M (Result unit) :=
  emit (Dial network address timeout);; mret (DialTimeout W network address timeout).

(** Modelled from the spec: [showS3Logs] is called by [cephNanoS3Health] but
    its body is not part of the files embedded here; the spec has it print
    the gateway-specific log stream, which is recorded as one event. *)
Definition showS3Logs (ContainerName : string) : M unit :=
  emit (ShowS3Logs ContainerName).

(** *** State classifier *)

(** [containerStatus]: whether the engine lists a container of that name in
    that state; [allList] is the listing's [All] option. *)
Definition containerStatus (ContainerName : string) (allList : bool) (containerState : string)
  : M bool :=
  r ← callContainerList allList true;
  match r with
  | Err err => logFatal err
  | Ok containers =>
      mret (existsb (fun container =>
              existsb (fun name =>
                String.eqb name ("/" ++ ContainerName)
                && String.eqb (types.State container) containerState)
                (types.Names container))
              containers)
  end.

Definition notExistCheck (ContainerName : string) : M unit :=
  ContainerNameToShow ← slice ContainerName (String.length ContainerNamePrefix);
  running ← containerStatus ContainerName false "running";
  if negb running then
    exited ← containerStatus ContainerName false "exited";
    if negb exited then
      Println ("Cluster " ++ ContainerNameToShow ++ " does not exist yet.");;
      osExit 0
    else mret tt
  else mret tt.

Definition notRunningCheck (ContainerName : string) : M unit :=
  ContainerNameToShow ← slice ContainerName (String.length ContainerNamePrefix);
  status ← containerStatus ContainerName true "exited";
  if status : bool then
    Println ("Cluster " ++ ContainerNameToShow ++ " is not running.");;
    osExit 0
  else mret tt.

(** *** Network selector *)

(** The last octet [[]byte(ip.To4())[3]]; [None] when indexing panics. *)
Definition lastOctet (ip : IP) : option Byte.byte :=
  match To4 ip with
  | Some p => p !! 3%nat
  | None => None
  end.

(** [byLastOctetValue]: [Len], [Less] and [Swap] on a slice of addresses. *)
Definition byLastOctetValue : Interface (list IP) :=
  {| Len := fun n => List.length n;
     Less := fun n i j =>
       x ← n !! i; y ← n !! j;
       a ← lastOctet x; b ← lastOctet y;
       Some (Byte.to_N a <? Byte.to_N b)%N;
     Swap := fun n i j =>
       x ← n !! i; y ← n !! j;
       Some (<[i := y]> (<[j := x]> n)) |}.

(** The loop of [getInterfaceIPv4s] over the addresses, [nips] being the
    addresses collected so far. *)
Fixpoint collectIPv4s (addrs : list net.Addr) (nips : list IP) : Result (list IP) :=
  match addrs with
  | [] => Ok nips
  | addr :: rest =>
      if String.eqb (net.Network addr) "ip+net" then
        match ParseCIDR W (net.String_ addr) with
        | Err err =>
            Err ("Unable to parse address " ++ net.String_ addr ++ ", error " ++ err)
        | Ok nip =>
            match To4 nip with
            | Some _ => collectIPv4s rest (nips ++ [nip])%list
            | None => collectIPv4s rest nips
            end
        end
      else collectIPv4s rest nips
  end.

(** [getInterfaceIPv4s] returns the addresses and the error ([None] is [nil]). *)
Definition getInterfaceIPv4s : M (list IP * option string) :=
  r ← callInterfaceAddrs;
  match r with
  | Err err => mret ([], Some ("Unable to determine network interface address. " ++ err))
  | Ok addrs =>
      match collectIPv4s addrs [] with
      | Err err => mret ([], Some err)
      | Ok nips =>
          match Sort (Reverse byLastOctetValue) nips with
          | Some sorted => mret (sorted, None)
          | None => panic "index out of range"
          end
      end
  end.

(** *** Running a command in the container *)

Definition execContainer (ContainerName : string) (cmd : list string) : M (list Byte.byte) :=
  response ← callExecCreate ContainerName cmd;
  match response with
  | Err err => logFatal err
  | Ok id =>
      connection ← callExecAttach id;
      match connection with
      | Err err => logFatal err
      | Ok reader =>
          match reader with
          | Err err => logFatal err
          | Ok output =>
              if (0 <? List.length output)%nat then
                match bytesFrom output 8 with
                | Some rest => mret rest
                | None => panic "slice bounds out of range"
                end
              else mret []
          end
      end
  end.

(** *** Readiness polling *)

Definition grepForSuccess (ContainerName : string) : M bool :=
  out ← callContainerLogs ContainerName;
  match out with
  | Err err => logFatal err
  | Ok newStr => if Contains newStr "SUCCESS" then mret true else mret false
  end.

(** The loop [for poll < timeout] of [cephNanoHealth] with [n = timeout - poll]
    rounds to go; [true] stands for the [return] inside the loop. *)
Fixpoint pollForSuccess (ContainerName : string) (n : nat) : M bool :=
  match n with
  | O => mret false
  | S n' =>
      found ← grepForSuccess ContainerName;
      if found : bool then mret true
      else timeSleep 1;; pollForSuccess ContainerName n'
  end.

Definition cephNanoHealth (ContainerName : string) : M unit :=
  let timeout := 60%nat in
  let poll := 0%nat in
  returned ← pollForSuccess ContainerName (timeout - poll);
  if returned : bool then mret tt
  else
    Println ("The container " ++ ContainerName
             ++ " never reached a clean state. Showing the container logs now:");;
    out ← callContainerLogs ContainerName;
    match out with
    | Err err => logFatal err
    | Ok newStr =>
        Println newStr;;
        logFatal "Please open an issue at: https://github.com/ceph/cn with the logs above."
    end.

Definition curlTestURL (url : string) : M bool :=
  response ← callHttpGet url;
  match response with
  | Err _ => mret false
  | Ok response =>
      match net.Body response with
      | Err _ => mret false
      | Ok _ => mret true
      end
  end.

(** The loop [for poll < timeout] of [cephNanoS3Health], as [pollForSuccess]. *)
Fixpoint pollURL (url : string) (n : nat) : M bool :=
  match n with
  | O => mret false
  | S n' =>
      up ← curlTestURL url;
      if up : bool then mret true
      else timeSleep 1;; pollURL url n'
  end.

Definition cephNanoS3Health (ContainerName RgwPort : string) : M unit :=
  let timeout := 30%nat in
  let poll := 0%nat in
  '(ips, _) ← getInterfaceIPv4s;
  ip0 ← index ips 0;
  let url := "http://" ++ IPString (IPv6String W) ip0 ++ ":" ++ RgwPort in
  returned ← pollURL url (timeout - poll);
  if returned : bool then mret tt
  else
    Println ("S3 gateway for cluster " ++ ContainerName
             ++ " is not responding. Showing S3 logs:");;
    showS3Logs ContainerName;;
    logFatal "Please open an issue at: https://github.com/ceph/cn.".

(** *** Identity resolver *)

Definition dockerInspect (ContainerName pattern : string) : M string :=
  r ← callContainerInspect ContainerName;
  match r with
  | Err err => logFatal err
  | Ok inspect =>
      if String.eqb pattern "Binds" then
        bind0 ← index (types.Binds inspect) 0;
        index (Split bind0 ":") 0
      else if String.eqb pattern "PortBindings" then
        env0 ← index (types.Env inspect) 0;
        index (Split env0 "=") 1
      else mret (types.Image inspect)
  end.

(** [m[key]] on a map of strings: the empty string for a missing key. *)
Definition label (m : gmap string string) (key : string) : string :=
  default "" (m !! key).

Definition inspectImage (ImageID dataType : string) : M string :=
  r ← callImageInspect ImageID;
  match r with
  | Err _ => mret "image is not present, did you remove it?"
  | Ok i =>
      if String.eqb dataType "tag" then
        if (List.length (types.RepoTags i) =? 0)%nat
        then mret (Join (types.RepoDigests i) "")
        else mret (Join (types.RepoTags i) "")
      else if String.eqb dataType "created" then mret (types.Created i)
      else
        config ← deref (types.ContainerConfig i);
        if (String.length (label (types.Labels config) "RELEASE") =? 0)%nat
        then mret "unknown image release, are you running an official image?"
        else
          config ← deref (types.ContainerConfig i);
          mret (label (types.Labels config) "RELEASE")
  end.

Definition getAwsKey (ContainerName : string) : M (string * string) :=
  let cmd := ["cat"; "/nano_user_details"] in
  output ← execContainer ContainerName cmd;
  let Keys := jsonKeys W output in
  key0 ← index Keys 0;
  mret (AccessKey key0, SecretKey key0).

Definition echoInfo (ContainerName : string) : M unit :=
  RgwPort ← dockerInspect ContainerName "PortBindings";
  cephNanoHealth ContainerName;;
  cephNanoS3Health ContainerName RgwPort;;
  '(CephNanoAccessKey, CephNanoSecretKey) ← getAwsKey ContainerName;
  let cmd := ["ceph"; "health"] in
  c ← execContainer ContainerName cmd;
  '(ips, _) ← getInterfaceIPv4s;
  dir ← dockerInspect ContainerName "Binds";
  ip0 ← index ips 0;
  let InfoLine :=
    newline ++ TrimSpace W (string_of_list_byte c) ++ " is the Ceph status " ++ newline
    ++ "S3 object server address is: http://" ++ IPString (IPv6String W) ip0
    ++ ":" ++ RgwPort ++ newline
    ++ "S3 user is: nano " ++ newline
    ++ "S3 access key is: " ++ CephNanoAccessKey ++ newline
    ++ "S3 secret key is: " ++ CephNanoSecretKey ++ newline
    ++ "Your working directory is: " ++ dir ++ newline in
  Println InfoLine.

(** *** Port allocator *)

Definition checkPortInUsed (portNum : string) : M bool :=
  let hostName := "0.0.0.0" in
  let seconds := 1 in
  r ← callDialTimeout "tcp" (JoinHostPort hostName portNum) seconds;
  match r with
  | Err _ => mret true
  | Ok _ => mret false
  end.

(** The loop [for i := 8000; i <= maxPort; i++] from [i] on, with
    [n = maxPort + 1 - i] ports to go. *)
Fixpoint scanPorts (n : nat) (i : Z) : M string :=
  match n with
  | O => mret "notfound"
  | S n' =>
      let portNumStr := Sprint i in
      status ← checkPortInUsed portNumStr;
      if status : bool then mret portNumStr
      else scanPorts n' (i + 1)
  end.

Definition generateRGWPortToUse : M string :=
  let maxPort := 8100 in
  scanPorts (Z.to_nat (maxPort + 1 - 8000)) 8000.

(** *** Lifecycle commands *)

Definition statusNano (args : list string) : M unit :=
  arg0 ← index args 0;
  let ContainerName := ContainerNamePrefix ++ arg0 in
  notExistCheck ContainerName;;
  notRunningCheck ContainerName;;
  echoInfo ContainerName.

Definition removeContainer (ContainerName : string) : M unit :=
  all ← gets DeleteAll;
  (if all : bool then
     image ← dockerInspect ContainerName "image";
     setImageName image
   else mret tt);;
  let options :=
    {| types.RemoveLinks := false; types.RemoveVolumes := true; types.Force := true |} in
  callContainerRemove ContainerName options;;
  all ← gets DeleteAll;
  if all : bool then
    let options := {| types.ImageForce := true; types.PruneChildren := true |} in
    image ← gets ImageName;
    Println ("Removing container image" ++ image ++ "...");;
    callImageRemove image options;;
    mret tt
  else mret tt.

Definition purgeNano (args : list string) : M unit :=
  arg0 ← index args 0;
  let ContainerName := ContainerNamePrefix ++ arg0 in
  ContainerNameToShow ← slice ContainerName (String.length ContainerNamePrefix);
  sure ← gets IamSure;
  (if negb sure then
     Printf ("Purge option is too dangerous please set the right flag. "
            ++ newline ++ " " ++ newline);;
     emit Help;;
     osExit 1
   else mret tt);;
  notExistCheck ContainerName;;
  Println ("Purging cluster " ++ ContainerNameToShow ++ "...");;
  removeContainer ContainerName.

(** The name [showNanoClusters] puts in a row for the engine's name of a
    container: [Names[i][len(ContainerNamePrefix):]], then [[1:]]. *)
Definition rowName (name : string) : M string :=
  ContainerNameToShow ← slice name (String.length ContainerNamePrefix);
  slice ContainerNameToShow 1.

(** The inner loop of [showNanoClusters], over the names of one container. *)
Fixpoint rowsOfNames (container : types.Container) (names : list string)
    (rows : list (list string)) : M (list (list string)) :=
  match names with
  | [] => mret rows
  | name :: rest =>
      if regexpMatchString W ContainerNamePrefix name then
        id ← slice (types.ImageID container) 7;
        containerImgTag ← inspectImage id "tag";
        id ← slice (types.ImageID container) 7;
        containerImgCreated ← inspectImage id "created";
        id ← slice (types.ImageID container) 7;
        containerImgRelease ← inspectImage id "release";
        shown ← rowName name;
        rowsOfNames container rest
          (rows ++ [[shown; types.State container; containerImgTag;
                     containerImgRelease; containerImgCreated]])%list
      else rowsOfNames container rest rows
  end.

(** The outer loop, over the containers. *)
Fixpoint rowsOfContainers (containers : list types.Container)
    (rows : list (list string)) : M (list (list string)) :=
  match containers with
  | [] => mret rows
  | container :: rest =>
      rows' ← rowsOfNames container (types.Names container) rows;
      rowsOfContainers rest rows'
  end.

Definition showNanoClusters : M unit :=
  r ← callContainerList true true;
  match r with
  | Err err => logFatal err
  | Ok containers =>
      let headers := ["NAME"; "STATUS"; "IMAGE"; "IMAGE RELEASE"; "IMAGE CREATION TIME"] in
      rows ← rowsOfContainers containers [];
      Println (Render W headers rows)
  end.

End Cmd.

(** ** Vocabulary of the statements *)

(** The process after more events, log requests and HTTP requests. *)
Definition advance (evs : list Event) (logs gets : nat) (s : Proc) : Proc :=
  {| trace := (trace s ++ evs)%list;
     logCalls := logs + logCalls s;
     getCalls := gets + getCalls s;
     IamSure := IamSure s; DeleteAll := DeleteAll s; ImageName := ImageName s |}.

(** A line on standard output ([fmt.Println]) and one on standard error. *)
Definition printed (s : string) : Event := Stdout (s ++ Go.newline).
Definition logged (s : string) : Event := Stderr (s ++ Go.newline).

(** A process that has done nothing yet, with its flags as parsed. *)
Definition startProc (sure all : bool) (image : string) : Proc :=
  {| trace := []; logCalls := 0; getCalls := 0;
     IamSure := sure; DeleteAll := all; ImageName := image |}.

(** [name] is what the specification calls the container name of the logical
    name: [ContainerNamePrefix + args[0]] in [statusNano] and [purgeNano]. *)
Definition resolveContainerName (ContainerNamePrefix logicalName : string) : string :=
  ContainerNamePrefix ++ logicalName.

(** The engine lists a container called [name] (with the engine's leading
    separator) in state [state]. *)
Definition listedIn (containers : list types.Container) (name state : string) : Prop :=
  exists container,
    In container containers
    /\ In ("/" ++ name) (types.Names container)
    /\ types.State container = state.

(** What the [k]-th log request shows: the marker, no marker, or nothing
    because the request failed. *)
Definition marker (W : World) (k : nat) (name : string) : option bool :=
  match ContainerLogs W k name with
  | Go.Ok newStr => Some (Go.Contains newStr "SUCCESS")
  | Go.Err _ => None
  end.

(** An HTTP request that delivers a status and a body that reads to its end. *)
Definition delivered (W : World) (k : nat) (url : string) : bool :=
  match httpGet W k url with
  | Go.Ok response =>
      match net.Body response with
      | Go.Ok _ => true
      | Go.Err _ => false
      end
  | Go.Err _ => false
  end.

(** The events of [rounds] unsuccessful polls: a request, then a second of sleep. *)
Fixpoint idlePolls (request : Event) (rounds : nat) : list Event :=
  match rounds with
  | O => []
  | S r => request :: Sleep 1 :: idlePolls request r
  end.

(** The [n] ports from [i] on, in ascending order. *)
Fixpoint ports (i : Z) (n : nat) : list Z :=
  match n with
  | O => []
  | S n' => i :: ports (i + 1) n'
  end.

(** A connection attempt of the port scan. *)
Definition dialOf (port : Z) : Event :=
  Dial "tcp" (Go.JoinHostPort "0.0.0.0" (Go.Sprint port)) 1.

(** The port accepts connections. *)
Definition occupied (W : World) (port : Z) : Prop :=
  DialTimeout W "tcp" (Go.JoinHostPort "0.0.0.0" (Go.Sprint port)) 1 = Go.Ok tt.

Definition free (W : World) (port : Z) : Prop :=
  exists err,
    DialTimeout W "tcp" (Go.JoinHostPort "0.0.0.0" (Go.Sprint port)) 1 = Go.Err err.

(** Every address has a last octet at least that of its successor. *)
Definition descending (ips : list Go.IP) : Prop :=
  forall (i : nat) (x y : Go.IP),
    ips !! i = Some x -> ips !! S i = Some y ->
    exists a b,
      lastOctet x = Some a /\ lastOctet y = Some b
      /\ (Byte.to_N b <= Byte.to_N a)%N.

(** An interface address that does not qualify as IPv4: it is not an
    [ip+net] address, or it parses to an address without a 4-byte form. *)
Definition notIPv4 (W : World) (addr : net.Addr) : Prop :=
  net.Network addr <> "ip+net"
  \/ exists ip, ParseCIDR W (net.String_ addr) = Go.Ok ip /\ Go.To4 ip = None.

Definition isRemoval (e : Event) : bool :=
  match e with
  | CallContainerRemove _ _ | CallImageRemove _ _ => true
  | _ => false
  end.

(** *** Worlds to run the package in *)

(** A world in which nothing is there and every request fails. *)
Definition emptyWorld : World :=
  {| ContainerList := fun _ => Go.Ok [];
     ContainerInspect := fun _ => Go.Err "No such container";
     ImageInspectWithRaw := fun _ => Go.Err "No such image";
     ContainerLogs := fun _ _ => Go.Err "No such container";
     ContainerExecCreate := fun _ _ => Go.Err "No such container";
     ContainerExecAttach := fun _ => Go.Err "No such exec instance";
     ContainerRemove := fun _ => Some "No such container";
     ImageRemove := fun _ => Some "No such image";
     httpGet := fun _ _ => Go.Err "connection refused";
     InterfaceAddrs := Go.Ok [];
     DialTimeout := fun _ _ _ => Go.Err "connection refused";
     ParseCIDR := fun _ => Go.Err "invalid CIDR address";
     IPv6String := fun _ => "?";
     TrimSpace := fun s => s;
     regexpMatchString := fun pattern s => Go.Contains s pattern;
     jsonKeys := fun _ => [];
     Render := fun _ _ => "" |}.

(** The states in which the engine counts a container as running. *)
Definition engineRunning (state : string) : bool :=
  String.eqb state "running" || String.eqb state "paused" || String.eqb state "restarting".

(** The engine's answer to a listing when it holds [containers]: all of them
    with the option [All], and without it the running ones only, which leaves
    out those in state [exited]. *)
Definition engineList (containers : list types.Container) (all : bool)
  : Go.Result (list types.Container) :=
  Go.Ok (if all then containers
         else List.filter (fun c => engineRunning (types.State c)) containers).

(** A world with one of its answers replaced. *)

Definition withContainerList (v : bool -> Go.Result (list types.Container)) (w : World) : World :=
  {| ContainerList := v; ContainerInspect := ContainerInspect w;
     ImageInspectWithRaw := ImageInspectWithRaw w; ContainerLogs := ContainerLogs w;
     ContainerExecCreate := ContainerExecCreate w;
     ContainerExecAttach := ContainerExecAttach w;
     ContainerRemove := ContainerRemove w; ImageRemove := ImageRemove w;
     httpGet := httpGet w; InterfaceAddrs := InterfaceAddrs w;
     DialTimeout := DialTimeout w; ParseCIDR := ParseCIDR w;
     IPv6String := IPv6String w; TrimSpace := TrimSpace w;
     regexpMatchString := regexpMatchString w; jsonKeys := jsonKeys w;
     Render := Render w |}.

Definition withContainerInspect (v : string -> Go.Result types.ContainerJSON) (w : World) : World :=
  {| ContainerList := ContainerList w; ContainerInspect := v;
     ImageInspectWithRaw := ImageInspectWithRaw w; ContainerLogs := ContainerLogs w;
     ContainerExecCreate := ContainerExecCreate w;
     ContainerExecAttach := ContainerExecAttach w;
     ContainerRemove := ContainerRemove w; ImageRemove := ImageRemove w;
     httpGet := httpGet w; InterfaceAddrs := InterfaceAddrs w;
     DialTimeout := DialTimeout w; ParseCIDR := ParseCIDR w;
     IPv6String := IPv6String w; TrimSpace := TrimSpace w;
     regexpMatchString := regexpMatchString w; jsonKeys := jsonKeys w;
     Render := Render w |}.

Definition withImageInspectWithRaw (v : string -> Go.Result types.ImageInspect) (w : World) : World :=
  {| ContainerList := ContainerList w; ContainerInspect := ContainerInspect w;
     ImageInspectWithRaw := v; ContainerLogs := ContainerLogs w;
     ContainerExecCreate := ContainerExecCreate w;
     ContainerExecAttach := ContainerExecAttach w;
     ContainerRemove := ContainerRemove w; ImageRemove := ImageRemove w;
     httpGet := httpGet w; InterfaceAddrs := InterfaceAddrs w;
     DialTimeout := DialTimeout w; ParseCIDR := ParseCIDR w;
     IPv6String := IPv6String w; TrimSpace := TrimSpace w;
     regexpMatchString := regexpMatchString w; jsonKeys := jsonKeys w;
     Render := Render w |}.

Definition withContainerLogs (v : nat -> string -> Go.Result string) (w : World) : World :=
  {| ContainerList := ContainerList w; ContainerInspect := ContainerInspect w;
     ImageInspectWithRaw := ImageInspectWithRaw w; ContainerLogs := v;
     ContainerExecCreate := ContainerExecCreate w;
     ContainerExecAttach := ContainerExecAttach w;
     ContainerRemove := ContainerRemove w; ImageRemove := ImageRemove w;
     httpGet := httpGet w; InterfaceAddrs := InterfaceAddrs w;
     DialTimeout := DialTimeout w; ParseCIDR := ParseCIDR w;
     IPv6String := IPv6String w; TrimSpace := TrimSpace w;
     regexpMatchString := regexpMatchString w; jsonKeys := jsonKeys w;
     Render := Render w |}.

Definition withContainerExecCreate (v : string -> list string -> Go.Result string) (w : World) : World :=
  {| ContainerList := ContainerList w; ContainerInspect := ContainerInspect w;
     ImageInspectWithRaw := ImageInspectWithRaw w; ContainerLogs := ContainerLogs w;
     ContainerExecCreate := v; ContainerExecAttach := ContainerExecAttach w;
     ContainerRemove := ContainerRemove w; ImageRemove := ImageRemove w;
     httpGet := httpGet w; InterfaceAddrs := InterfaceAddrs w;
     DialTimeout := DialTimeout w; ParseCIDR := ParseCIDR w;
     IPv6String := IPv6String w; TrimSpace := TrimSpace w;
     regexpMatchString := regexpMatchString w; jsonKeys := jsonKeys w;
     Render := Render w |}.

Definition withContainerExecAttach (v : string -> Go.Result (Go.Result (list Byte.byte))) (w : World) : World :=
  {| ContainerList := ContainerList w; ContainerInspect := ContainerInspect w;
     ImageInspectWithRaw := ImageInspectWithRaw w; ContainerLogs := ContainerLogs w;
     ContainerExecCreate := ContainerExecCreate w; ContainerExecAttach := v;
     ContainerRemove := ContainerRemove w; ImageRemove := ImageRemove w;
     httpGet := httpGet w; InterfaceAddrs := InterfaceAddrs w;
     DialTimeout := DialTimeout w; ParseCIDR := ParseCIDR w;
     IPv6String := IPv6String w; TrimSpace := TrimSpace w;
     regexpMatchString := regexpMatchString w; jsonKeys := jsonKeys w;
     Render := Render w |}.

Definition withHttpGet (v : nat -> string -> Go.Result net.Response) (w : World) : World :=
  {| ContainerList := ContainerList w; ContainerInspect := ContainerInspect w;
     ImageInspectWithRaw := ImageInspectWithRaw w; ContainerLogs := ContainerLogs w;
     ContainerExecCreate := ContainerExecCreate w;
     ContainerExecAttach := ContainerExecAttach w;
     ContainerRemove := ContainerRemove w; ImageRemove := ImageRemove w; httpGet := v;
     InterfaceAddrs := InterfaceAddrs w; DialTimeout := DialTimeout w;
     ParseCIDR := ParseCIDR w; IPv6String := IPv6String w; TrimSpace := TrimSpace w;
     regexpMatchString := regexpMatchString w; jsonKeys := jsonKeys w;
     Render := Render w |}.

Definition withInterfaceAddrs (v : Go.Result (list net.Addr)) (w : World) : World :=
  {| ContainerList := ContainerList w; ContainerInspect := ContainerInspect w;
     ImageInspectWithRaw := ImageInspectWithRaw w; ContainerLogs := ContainerLogs w;
     ContainerExecCreate := ContainerExecCreate w;
     ContainerExecAttach := ContainerExecAttach w;
     ContainerRemove := ContainerRemove w; ImageRemove := ImageRemove w;
     httpGet := httpGet w; InterfaceAddrs := v; DialTimeout := DialTimeout w;
     ParseCIDR := ParseCIDR w; IPv6String := IPv6String w; TrimSpace := TrimSpace w;
     regexpMatchString := regexpMatchString w; jsonKeys := jsonKeys w;
     Render := Render w |}.

Definition withDialTimeout (v : string -> string -> Z -> Go.Result unit) (w : World) : World :=
  {| ContainerList := ContainerList w; ContainerInspect := ContainerInspect w;
     ImageInspectWithRaw := ImageInspectWithRaw w; ContainerLogs := ContainerLogs w;
     ContainerExecCreate := ContainerExecCreate w;
     ContainerExecAttach := ContainerExecAttach w;
     ContainerRemove := ContainerRemove w; ImageRemove := ImageRemove w;
     httpGet := httpGet w; InterfaceAddrs := InterfaceAddrs w; DialTimeout := v;
     ParseCIDR := ParseCIDR w; IPv6String := IPv6String w; TrimSpace := TrimSpace w;
     regexpMatchString := regexpMatchString w; jsonKeys := jsonKeys w;
     Render := Render w |}.

Definition withParseCIDR (v : string -> Go.Result Go.IP) (w : World) : World :=
  {| ContainerList := ContainerList w; ContainerInspect := ContainerInspect w;
     ImageInspectWithRaw := ImageInspectWithRaw w; ContainerLogs := ContainerLogs w;
     ContainerExecCreate := ContainerExecCreate w;
     ContainerExecAttach := ContainerExecAttach w;
     ContainerRemove := ContainerRemove w; ImageRemove := ImageRemove w;
     httpGet := httpGet w; InterfaceAddrs := InterfaceAddrs w;
     DialTimeout := DialTimeout w; ParseCIDR := v; IPv6String := IPv6String w;
     TrimSpace := TrimSpace w; regexpMatchString := regexpMatchString w;
     jsonKeys := jsonKeys w; Render := Render w |}.

(** A world in which the two removal calls answer with the given errors. *)
Definition withRemovals (containerErr imageErr : option string) (w : World) : World :=
  {| ContainerList := ContainerList w; ContainerInspect := ContainerInspect w;
     ImageInspectWithRaw := ImageInspectWithRaw w; ContainerLogs := ContainerLogs w;
     ContainerExecCreate := ContainerExecCreate w;
     ContainerExecAttach := ContainerExecAttach w;
     ContainerRemove := fun _ => containerErr; ImageRemove := fun _ => imageErr;
     httpGet := httpGet w; InterfaceAddrs := InterfaceAddrs w;
     DialTimeout := DialTimeout w; ParseCIDR := ParseCIDR w; IPv6String := IPv6String w;
     TrimSpace := TrimSpace w; regexpMatchString := regexpMatchString w;
     jsonKeys := jsonKeys w; Render := Render w |}.

(** *** Orders on addresses and frames of actions *)

(** The value the sort compares, where [lastOctet] is defined. *)
Definition octetN (ip : Go.IP) : N :=
  match lastOctet ip with
  | Some b => Byte.to_N b
  | None => 0%N
  end.

(** [x] may stand before [y] in a descending list. *)
Definition notBelow (x y : Go.IP) : Prop := (octetN y <= octetN x)%N.

Definition hasOctet (ip : Go.IP) : Prop := is_Some (lastOctet ip).

(** An action that sends no HTTP request. *)
Definition sameGets {A : Type} (m : M A) : Prop :=
  forall s, getCalls (snd (m s)) = getCalls s.

(** An event of the gateway phase: reading the interfaces, an HTTP request,
    the dump of the gateway's logs. *)
Definition isGatewayEvent (e : Event) : bool :=
  match e with
  | HttpGet _ | CallInterfaceAddrs | ShowS3Logs _ => true
  | _ => false
  end.

(** An action whose events all satisfy [Q]. *)
Definition emitsOnly (Q : Event -> Prop) {A : Type} (m : M A) : Prop :=
  forall s, exists evs, trace (snd (m s)) = (trace s ++ evs)%list /\ Forall Q evs.

(** Not an event of the gateway phase. *)
Definition beforeGateway (e : Event) : Prop := isGatewayEvent e = false.

(** *** Sample worlds *)

(** An exec whose output is the engine's 8-byte frame header and a line of
    text, one whose output is three stray bytes, and one without output. *)
Definition frameHeader : list Byte.byte :=
  [Byte.x01; Byte.x00; Byte.x00; Byte.x00; Byte.x00; Byte.x00; Byte.x00; Byte.x09].

Definition execWorld : World :=
  withContainerExecCreate
    (fun _ cmd => Go.Ok (Go.Join cmd " "))
    (withContainerExecAttach
       (fun id =>
          if String.eqb id "ceph health"
          then Go.Ok (Go.Ok (frameHeader ++ list_byte_of_string "HEALTH_OK"))%list
          else if String.eqb id "true" then Go.Ok (Go.Ok [])
          else Go.Ok (Go.Ok [Byte.x01; Byte.x00; Byte.x00]))
       emptyWorld).

(** An image whose tag was taken over by a newer one, without labels. *)
Definition untaggedImage : types.ImageInspect :=
  {| types.RepoTags := []; types.RepoDigests := ["d1"];
     types.Created := "2018-03-01T10:00:00Z";
     types.ContainerConfig := Some {| types.Labels := ∅ |} |}.

Definition untaggedWorld : World :=
  withImageInspectWithRaw
    (fun image => if String.eqb image "0a1b" then Go.Ok untaggedImage
                  else Go.Err "No such image")
    emptyWorld.

(** An image for which the engine's answer carries no container config. *)
Definition configlessImage : types.ImageInspect :=
  {| types.RepoTags := ["ceph/daemon:latest"]; types.RepoDigests := [];
     types.Created := "2024-05-01T10:00:00Z";
     types.ContainerConfig := None |}.

Definition configlessWorld : World :=
  withImageInspectWithRaw
    (fun image => if String.eqb image "0a1b" then Go.Ok configlessImage
                  else Go.Err "No such image")
    emptyWorld.

(** A host on which the ports 8000 to 8002 are taken and every other port is
    free. *)
Definition busyWorld : World :=
  withDialTimeout
    (fun _ address _ =>
       if String.eqb address "0.0.0.0:8000" || String.eqb address "0.0.0.0:8001"
          || String.eqb address "0.0.0.0:8002"
       then Go.Ok tt else Go.Err "connection refused")
    emptyWorld.

(** A host on which every port accepts connections. *)
Definition fullWorld : World := withDialTimeout (fun _ _ _ => Go.Ok tt) emptyWorld.

(** A cluster whose logs show the marker from the third request on. *)
Definition slowStartWorld : World :=
  withContainerLogs
    (fun k _ => if (k <? 2)%nat then Go.Ok "starting monitor"
                else Go.Ok "starting monitor; SUCCESS")
    emptyWorld.

(** A cluster whose logs never show the marker. *)
Definition stuckWorld : World :=
  withContainerLogs (fun _ _ => Go.Ok "starting monitor") emptyWorld.

(** A host with the loopback interface, two LAN addresses and the IPv6
    loopback address: the last octets of its IPv4 addresses are 1, 200, 50. *)
Definition loopback : Go.IP := Go.IPv4 Byte.x7f Byte.x00 Byte.x00 Byte.x01.
Definition lanHigh : Go.IP := Go.IPv4 Byte.xc0 Byte.xa8 Byte.x01 Byte.xc8.
Definition lanMid : Go.IP := Go.IPv4 Byte.x0a Byte.x00 Byte.x00 Byte.x32.
Definition loopback6 : Go.IP := (replicate 15 Byte.x00 ++ [Byte.x01])%list.

Definition parseKnownCIDR (s : string) : Go.Result Go.IP :=
  if String.eqb s "127.0.0.1/8" then Go.Ok loopback
  else if String.eqb s "192.168.1.200/24" then Go.Ok lanHigh
  else if String.eqb s "10.0.0.50/8" then Go.Ok lanMid
  else if String.eqb s "::1/128" then Go.Ok loopback6
  else Go.Err "invalid CIDR address".

Definition ipNet (s : string) : net.Addr := {| net.Network := "ip+net"; net.String_ := s |}.

Definition lanWorld : World :=
  withInterfaceAddrs
    (Go.Ok [ipNet "127.0.0.1/8"; ipNet "192.168.1.200/24"; ipNet "10.0.0.50/8";
            ipNet "::1/128"])
    (withParseCIDR parseKnownCIDR emptyWorld).

(** A host that only has the IPv6 loopback address. *)
Definition v6World : World :=
  withInterfaceAddrs (Go.Ok [ipNet "::1/128"]) (withParseCIDR parseKnownCIDR emptyWorld).

(** A host with addresses on which the gateway answers the third request. *)
Definition gatewayWorld : World :=
  withHttpGet
    (fun k _ => if (k <? 2)%nat then Go.Err "connection refused"
                else Go.Ok {| net.StatusCode := 200; net.Body := Go.Ok [] |})
    lanWorld.

(** An engine with one running cluster whose image is ["img:v1"], and on
    which both removal calls fail. *)
Definition demoCluster : types.Container :=
  {| types.Names := ["/ceph-nano-demo"]; types.State := "running";
     types.ImageID := "sha256:0a1b" |}.

Definition demoWorld : World :=
  withContainerList (engineList [demoCluster])
    (withContainerInspect
       (fun name =>
          if String.eqb name "ceph-nano-demo"
          then Go.Ok {| types.Binds := ["/tmp/demo:/tmp"]; types.Env := ["RGW_PORT=8000"];
                        types.Image := "img:v1" |}
          else Go.Err "No such container")
       emptyWorld).

(** The demo engine after the cluster was stopped: the container is held in
    state [exited], and can be inspected as before. *)
Definition stoppedDemoWorld : World :=
  withContainerList
    (engineList [{| types.Names := ["/ceph-nano-demo"]; types.State := "exited";
                    types.ImageID := "sha256:0a1b" |}])
    demoWorld.

(** ** More of package cmd: registry lookup and file types *)

(** What [os.Stat] answers: the mode of the file ([Stat_t.Mode], a [uint32]),
    an error for which [os.IsNotExist] holds, or another error. *)
Inductive StatResult : Type :=
| StatOk (mode : Z)
| StatNotExist (err : string)
| StatErr (err : string).

(** File type bits of a mode, as package syscall has them on Linux. *)
Definition S_IFMT : Z := 0xf000.
Definition S_IFSOCK : Z := 0xc000.
Definition S_IFLNK : Z := 0xa000.
Definition S_IFREG : Z := 0x8000.
Definition S_IFBLK : Z := 0x6000.
Definition S_IFDIR : Z := 0x4000.
Definition S_IFCHR : Z := 0x2000.
Definition S_IFIFO : Z := 0x1000.

Section CmdMore.

Import Go.

Variable W : World.

(** [jq.Int("count")] on the decoded document; its error is dropped by
    [countTags], which then has 0. *)
Variable jsonCount : list Byte.byte -> Z.

(** [os.Stat], which follows symbolic links, and the verb [%q] of package fmt. *)
Variable osStat : string -> StatResult.
Variable quote : string -> string.

Definition curlURL (url : string) : M (list Byte.byte) :=
  response ← callHttpGet W url;
  match response with
  | Err err =>
      Println ("URL " ++ url ++ " is unreachable.");;
      logFatal err
  | Ok response =>
      match net.Body response with
      | Err err => logFatal err
      | Ok content => mret content
      end
  end.

Definition countTags : M Z :=
  let url := "https://registry.hub.docker.com/v2/repositories/ceph/daemon/tags/" in
  output ← curlURL url;
  let tagCount := jsonCount output in
  mret tagCount.

(** [tagCount / 10] on [int]: the quotient truncated toward zero. *)
Definition pageCount : M Z :=
  tagCount ← countTags;
  let pageCount := Z.quot tagCount 10 in
  mret pageCount.

Definition GetFileType (pathname : string) : string * option string :=
  match osStat pathname with
  | StatNotExist _ => ("notfound", Some ("path " ++ quote pathname ++ " does not exist"))
  | StatErr err => ("error", Some err)
  | StatOk mode =>
      let type := Z.land mode S_IFMT in
      if type =? S_IFSOCK then ("socket", None)
      else if type =? S_IFBLK then ("blockdev", None)
      else if type =? S_IFCHR then ("chardev", None)
      else if type =? S_IFDIR then ("directory", None)
      else if type =? S_IFREG then ("file", None)
      else ("error",
            Some "only recognize file, directory, socket, block device and character device")
  end.

(** [ImagePull]: the progress stream of the pull, as the bytes that can be
    read from it, or the error of the call.  The call itself is not among
    the recorded events; what [pullImage] prints and returns is. *)
Variable ImagePull : string -> Result string.

(** The loop of [pullImage] over the progress stream: [ReadBytes] returns at
    each newline, and each line read prints a dot; the bytes after the last
    newline come with the error that ends the loop. *)
Fixpoint readLines (stream : string) : M unit :=
  match stream with
  | EmptyString => mret tt
  | String c rest =>
      if Ascii.eqb c (ascii_of_nat 10)
      then Printf ".";; readLines rest
      else readLines rest
  end.

Definition pullImage : M bool :=
  image ← gets ImageName;
  r ← callImageInspect W image;
  match r with
  | Err _ =>
      Printf ("The container image is not present, pulling it. " ++ newline
              ++ "This operation can take a few minutes.");;
      image ← gets ImageName;
      match ImagePull image with
      | Err err =>
          emit (Stderr newline);;
          logFatal err
      | Ok out =>
          readLines out;;
          Println "";;
          mret true
      end
  | Ok _ => mret false
  end.

(** [ListDevPartitions] and [SearchCephFiles] are constants in this version. *)
Definition ListDevPartitions : Z := 1.
Definition SearchCephFiles : bool := true.

End CmdMore.

(** *** Vocabulary of the further statements *)

(** The number of newline bytes in [s]. *)
Fixpoint countLines (s : string) : nat :=
  match s with
  | EmptyString => O
  | String c rest =>
      if Ascii.eqb c (ascii_of_nat 10) then S (countLines rest) else countLines rest
  end.

Definition pullBanner : string :=
  "The container image is not present, pulling it. " ++ Go.newline
  ++ "This operation can take a few minutes.".

(** The byte [c] occurs in [s]. *)
Fixpoint hasByte (c : ascii) (s : string) : bool :=
  match s with
  | EmptyString => false
  | String x r => Ascii.eqb c x || hasByte c r
  end.

(** The part of [s] before its first byte [c]; all of [s] when it has none. *)
Fixpoint upTo (c : ascii) (s : string) : string :=
  match s with
  | EmptyString => EmptyString
  | String x r => if Ascii.eqb c x then EmptyString else String x (upTo c r)
  end.

(** What [inspectImage] returns for the engine's answer, as a function of it;
    [None] where it does not return: the release of an answer that carries no
    container config. *)
Definition imageField (r : Go.Result types.ImageInspect) (dataType : string)
  : option string :=
  match r with
  | Go.Err _ => Some "image is not present, did you remove it?"
  | Go.Ok i =>
      if String.eqb dataType "tag" then
        if (List.length (types.RepoTags i) =? 0)%nat
        then Some (Go.Join (types.RepoDigests i) "")
        else Some (Go.Join (types.RepoTags i) "")
      else if String.eqb dataType "created" then Some (types.Created i)
      else
        config ← types.ContainerConfig i;
        if (String.length (label (types.Labels config) "RELEASE") =? 0)%nat
        then Some "unknown image release, are you running an official image?"
        else Some (label (types.Labels config) "RELEASE")
  end.

(** [s[low:]] where it is in range, the empty string otherwise. *)
Definition dropBytes (low : nat) (s : string) : string :=
  default "" (Go.sliceFrom s low).

(** The name the listing shows for an engine name: without its first
    [len(ContainerNamePrefix)] bytes and one more. *)
Definition displayName (ContainerNamePrefix name : string) : string :=
  dropBytes 1 (dropBytes (String.length ContainerNamePrefix) name).

(** The row the listing makes for one matching name of a container; [None]
    when one of its three image fields is not returned. *)
Definition clusterRow (W : World) (ContainerNamePrefix : string)
    (container : types.Container) (name : string) : option (list string) :=
  let image := ImageInspectWithRaw W (dropBytes 7 (types.ImageID container)) in
  tag ← imageField image "tag";
  created ← imageField image "created";
  release ← imageField image "release";
  Some [displayName ContainerNamePrefix name; types.State container;
        tag; release; created].

(** The rows of a container, one for each of its names that matches. *)
Fixpoint rowsOf (W : World) (ContainerNamePrefix : string)
    (container : types.Container) (names : list string) : option (list (list string)) :=
  match names with
  | [] => Some []
  | name :: rest =>
      if regexpMatchString W ContainerNamePrefix name then
        row ← clusterRow W ContainerNamePrefix container name;
        rows ← rowsOf W ContainerNamePrefix container rest;
        Some (row :: rows)
      else rowsOf W ContainerNamePrefix container rest
  end.

(** The rows of the table, container by container. *)
Fixpoint tableOf (W : World) (ContainerNamePrefix : string)
    (containers : list types.Container) : option (list (list string)) :=
  match containers with
  | [] => Some []
  | container :: rest =>
      rows ← rowsOf W ContainerNamePrefix container (types.Names container);
      more ← tableOf W ContainerNamePrefix rest;
      Some (rows ++ more)%list
  end.

(** The shown name and the state of each matching name, in the engine's order. *)
Definition shownClusters (W : World) (ContainerNamePrefix : string)
    (containers : list types.Container) : list (list string) :=
  flat_map (fun container =>
      flat_map (fun name =>
          if regexpMatchString W ContainerNamePrefix name
          then [[displayName ContainerNamePrefix name; types.State container]] else [])
        (types.Names container))
    containers.

(** The image lookups for those rows: three for each matching name. *)
Definition lookupsOf (W : World) (ContainerNamePrefix : string)
    (container : types.Container) (names : list string) : list Event :=
  flat_map (fun name =>
      if regexpMatchString W ContainerNamePrefix name
      then replicate 3 (CallImageInspect (dropBytes 7 (types.ImageID container))) else [])
    names.

(** A container the listing can show: its image ID has the 7 bytes of
    ["sha256:"] to drop, and each matching name has the prefix and one byte. *)
Definition showable (W : World) (ContainerNamePrefix : string)
    (container : types.Container) : Prop :=
  (7 <= String.length (types.ImageID container))%nat
  /\ Forall (fun name =>
        regexpMatchString W ContainerNamePrefix name = true ->
        (String.length ContainerNamePrefix + 1 <= String.length name)%nat)
      (types.Names container).

Definition listingHeaders : list string :=
  ["NAME"; "STATUS"; "IMAGE"; "IMAGE RELEASE"; "IMAGE CREATION TIME"].

(** An event that reaches into a cluster or changes the engine: everything
    but output, sleeping and listing the containers. *)
Definition touchesCluster (e : Event) : bool :=
  match e with
  | Stdout _ | Stderr _ | Sleep _ | Help | CallContainerList _ _ => false
  | _ => true
  end.

(** The types [GetFileType] recognises, by their type bits. *)
Definition fileTypes : list (Z * string) :=
  [(S_IFSOCK, "socket"); (S_IFBLK, "blockdev"); (S_IFCHR, "chardev");
   (S_IFDIR, "directory"); (S_IFREG, "file")].

Definition tagsURL : string :=
  "https://registry.hub.docker.com/v2/repositories/ceph/daemon/tags/".

(** *** Further sample worlds *)

(** An engine with a created, never started container beside the demo cluster. *)
Definition createdCluster : types.Container :=
  {| types.Names := ["/ceph-nano-fresh"]; types.State := "created";
     types.ImageID := "sha256:0a1b" |}.

Definition stoppedCluster : types.Container :=
  {| types.Names := ["/ceph-nano-old"]; types.State := "exited";
     types.ImageID := "sha256:0a1b" |}.

Definition mixedWorld : World :=
  withContainerList (engineList [demoCluster; createdCluster; stoppedCluster]) emptyWorld.

(** An engine that cannot be reached. *)
Definition downWorld : World :=
  withContainerList (fun _ => Go.Err "Cannot connect to the Docker daemon") emptyWorld.

(** The demo engine when it lists the cluster but fails to inspect it. *)
Definition brokenInspectWorld : World :=
  withContainerInspect (fun _ => Go.Err "No such container") demoWorld.

(** A cluster whose first environment entry has a value with ["="] in it. *)
Definition optionsWorld : World :=
  withContainerInspect
    (fun _ => Go.Ok {| types.Binds := ["/tmp/demo:/tmp"];
                       types.Env := ["CEPH_DAEMON_OPTS=debug=1"];
                       types.Image := "img:v1" |})
    emptyWorld.

(** A cluster started without environment and without a bind, and one whose
    first environment entry is a bare word. *)
Definition bareWorld : World :=
  withContainerInspect
    (fun name =>
       if String.eqb name "ceph-nano-bare"
       then Go.Ok {| types.Binds := []; types.Env := []; types.Image := "img:v1" |}
       else Go.Ok {| types.Binds := ["/tmp/demo"]; types.Env := ["DEBUG"];
                     types.Image := "img:v1" |})
    emptyWorld.

(** A cluster whose user file holds two key pairs, and one whose [cat] prints
    nothing. *)
Definition keysWorld : World :=
  {| ContainerList := ContainerList emptyWorld;
     ContainerInspect := ContainerInspect emptyWorld;
     ImageInspectWithRaw := ImageInspectWithRaw emptyWorld;
     ContainerLogs := ContainerLogs emptyWorld;
     ContainerExecCreate := fun name _ => Go.Ok name;
     ContainerExecAttach := fun id =>
       if String.eqb id "ceph-nano-demo"
       then Go.Ok (Go.Ok (frameHeader ++ list_byte_of_string "{...}")%list)
       else Go.Ok (Go.Ok []);
     ContainerRemove := ContainerRemove emptyWorld; ImageRemove := ImageRemove emptyWorld;
     httpGet := httpGet emptyWorld; InterfaceAddrs := InterfaceAddrs emptyWorld;
     DialTimeout := DialTimeout emptyWorld; ParseCIDR := ParseCIDR emptyWorld;
     IPv6String := IPv6String emptyWorld; TrimSpace := TrimSpace emptyWorld;
     regexpMatchString := regexpMatchString emptyWorld;
     jsonKeys := fun document =>
       match document with
       | [] => []
       | _ => [{| AccessKey := "AK1"; SecretKey := "SK1" |};
               {| AccessKey := "AK2"; SecretKey := "SK2" |}]
       end;
     Render := Render emptyWorld |}.

(** An engine with the cluster [a] of the namespace [ns-], whose image has
    lost its tag, and a container of another namespace. *)
Definition nsCluster : types.Container :=
  {| types.Names := ["/ns-a"]; types.State := "running";
     types.ImageID := "sha256:0a1b" |}.

Definition otherContainer : types.Container :=
  {| types.Names := ["/other-b"]; types.State := "exited";
     types.ImageID := "sha256:ffff" |}.

Definition nsWorld : World :=
  withContainerList (engineList [nsCluster; otherContainer]) untaggedWorld.

(** The same engine when its answers on images carry no container config. *)
Definition nsConfiglessWorld : World :=
  withContainerList (engineList [nsCluster; otherContainer]) configlessWorld.

(** An engine that reports a cluster with a truncated image ID. *)
Definition truncatedWorld : World :=
  withContainerList
    (engineList [{| types.Names := ["/ns-a"]; types.State := "running";
                    types.ImageID := "0a1b" |}])
    emptyWorld.

(** A cluster whose logs can be read twice and then no more. *)
Definition vanishingWorld : World :=
  withContainerLogs
    (fun k _ => if (k <? 2)%nat then Go.Ok "starting monitor"
                else Go.Err "No such container")
    emptyWorld.

(** A cluster whose logs never show the marker and cannot be read after the
    60 polls. *)
Definition lateFailureWorld : World :=
  withContainerLogs
    (fun k _ => if (k <? 60)%nat then Go.Ok "starting monitor"
                else Go.Err "No such container")
    emptyWorld.

(** A host whose second address cannot be parsed, and one whose interfaces
    cannot be read. *)
Definition oddMaskWorld : World :=
  withInterfaceAddrs (Go.Ok [ipNet "192.168.1.200/24"; ipNet "10.0.0.1/ff00ff00"])
    (withParseCIDR parseKnownCIDR emptyWorld).

Definition noInterfacesWorld : World :=
  withInterfaceAddrs (Go.Err "route ip+net: netlinkrib: too many open files") emptyWorld.

(** A file system with a directory of mode 0755 (octal), a set-uid regular file,
    a FIFO and nothing else. *)
Definition sampleStat (pathname : string) : StatResult :=
  if String.eqb pathname "/var/lib/ceph" then StatOk 0x41ed
  else if String.eqb pathname "/usr/bin/sudo" then StatOk 0x89ed
  else if String.eqb pathname "/run/fifo" then StatOk 0x11a4
  else StatNotExist "no such file or directory".

(** A registry that answers with a document counting 25 tags. *)
Definition registryWorld : World :=
  withHttpGet
    (fun _ _ => Go.Ok {| net.StatusCode := 200;
                         net.Body := Go.Ok (list_byte_of_string "{count: 25}") |})
    emptyWorld.

(** The demo cluster, healthy at the second poll and reachable at the third
    request, on the LAN host. *)
Definition healthyWorld : World :=
  {| ContainerList := ContainerList demoWorld;
     ContainerInspect := ContainerInspect demoWorld;
     ImageInspectWithRaw := ImageInspectWithRaw demoWorld;
     ContainerLogs := fun k _ =>
       if (k <? 1)%nat then Go.Ok "starting monitor"
       else Go.Ok "starting monitor; SUCCESS";
     ContainerExecCreate := fun _ cmd => Go.Ok (Go.Join cmd " ");
     ContainerExecAttach := fun id =>
       if String.eqb id "ceph health"
       then Go.Ok (Go.Ok (frameHeader ++ list_byte_of_string "HEALTH_OK")%list)
       else Go.Ok (Go.Ok (frameHeader ++ list_byte_of_string "{...}")%list);
     ContainerRemove := ContainerRemove demoWorld; ImageRemove := ImageRemove demoWorld;
     httpGet := httpGet gatewayWorld; InterfaceAddrs := InterfaceAddrs lanWorld;
     DialTimeout := DialTimeout demoWorld; ParseCIDR := ParseCIDR lanWorld;
     IPv6String := IPv6String demoWorld; TrimSpace := TrimSpace demoWorld;
     regexpMatchString := regexpMatchString demoWorld;
     jsonKeys := fun _ => [{| AccessKey := "AK1"; SecretKey := "SK1" |}];
     Render := Render demoWorld |}.

(** A registry whose progress stream has two complete lines and a rest. *)
Definition twoLinePull (image : string) : Go.Result string :=
  if String.eqb image "ceph/daemon"
  then Go.Ok ("layer 1" ++ Go.newline ++ "layer 2" ++ Go.newline ++ "rest")
  else Go.Err "pull access denied".

(** * Properties *)

(** ** Running the monad *)

Ltac unfold_monad :=
  unfold mbind, mret, M_bind, M_ret, logFatal, Println, Printf, timeSleep, index, slice,
    emit, osExit, panic, gets, setImageName, nextLogCall, nextGetCall in *.

Ltac unfold_calls :=
  unfold callContainerList, callContainerInspect, callImageInspect, callContainerLogs,
    callExecCreate, callExecAttach, callContainerRemove, callImageRemove, callHttpGet,
    callInterfaceAddrs, callDialTimeout, showS3Logs in *.

Ltac run := unfold_calls; unfold_monad; cbn.

(** Two descriptions of the same process state. *)
Ltac same_proc :=
  unfold advance, printed, logged; cbn; repeat rewrite <- app_assoc; cbn;
  first [ reflexivity | f_equal; first [ reflexivity | lia ] ].

Lemma advance_advance (e1 e2 : list Event) (l1 l2 g1 g2 : nat) (s : Proc) :
  advance e2 l2 g2 (advance e1 l1 g1 s) = advance (e1 ++ e2) (l2 + l1) (g2 + g1) s.
Proof.
  unfold advance; cbn. f_equal; [ by rewrite <- app_assoc | lia | lia ].
Qed.

Lemma advance_nil (s : Proc) : advance [] 0 0 s = s.
Proof. destruct s; unfold advance; cbn. by rewrite app_nil_r. Qed.

Lemma logCalls_advance (evs : list Event) (l g : nat) (s : Proc) :
  logCalls (advance evs l g s) = (l + logCalls s)%nat.
Proof. reflexivity. Qed.

Lemma getCalls_advance (evs : list Event) (l g : nat) (s : Proc) :
  getCalls (advance evs l g s) = (g + getCalls s)%nat.
Proof. reflexivity. Qed.

Lemma bind_run {A B : Type} (m : M A) (f : A -> M B) (s : Proc) :
  (m ≫= f) s
  = match m s with
    | (Ret a, s') => f a s'
    | (Exit code, s') => (Exit code, s')
    | (Panic msg, s') => (Panic msg, s')
    end.
Proof. reflexivity. Qed.

Lemma run_emit (e : Event) (s : Proc) : emit e s = (Ret tt, advance [e] 0 0 s).
Proof. reflexivity. Qed.

Lemma run_Println (str : string) (s : Proc) :
  Println str s = (Ret tt, advance [printed str] 0 0 s).
Proof. reflexivity. Qed.

Lemma run_logFatal {A : Type} (msg : string) (s : Proc) :
  @logFatal A msg s = (Exit 1, advance [logged msg] 0 0 s).
Proof. reflexivity. Qed.

Lemma run_callContainerLogs (W : World) (name : string) (s : Proc) :
  callContainerLogs W name s
  = (Ret (ContainerLogs W (logCalls s) name), advance [CallContainerLogs name] 1 0 s).
Proof. reflexivity. Qed.

Lemma run_callHttpGet (W : World) (url : string) (s : Proc) :
  callHttpGet W url s = (Ret (httpGet W (getCalls s) url), advance [HttpGet url] 0 1 s).
Proof. reflexivity. Qed.

(** One step of a run: the first action of a sequence, by its equation. *)
Ltac step lem := rewrite bind_run, lem; cbv beta iota.

(** ** Names *)

Lemma sliceFrom_app (p n : string) : Go.sliceFrom (p ++ n) (String.length p) = Some n.
Proof. induction p as [| c p IH]; cbn; [ by destruct n | done ]. Qed.

Lemma sliceFrom_add (s : string) (k j : nat) :
  Go.sliceFrom s (k + j) = Go.sliceFrom s k ≫= (fun r => Go.sliceFrom r j).
Proof.
  revert s; induction k as [| k IH]; intros s; cbn.
  - by destruct j, s.
  - destruct s as [| c r]; [ done | apply IH ].
Qed.

Lemma slice_prefixed (p n : string) (s : Proc) :
  slice (p ++ n) (String.length p) s = (Ret n, s).
Proof. unfold slice. by rewrite sliceFrom_app. Qed.

Lemma slice_resolved (p n : string) (s : Proc) :
  slice (resolveContainerName p n) (String.length p) s = (Ret n, s).
Proof. apply slice_prefixed. Qed.

(** C8: resolving a logical name and stripping the result for display gives
    the logical name back.  The lifecycle commands strip in two ways: purge
    and the precondition checks drop the prefix from the container name they
    built, and the listing drops the prefix and one more byte from the name
    the engine reports, which carries the leading separator ["/"]. *)
Theorem display_name_inverts_resolve (ContainerNamePrefix logicalName : string) (s : Proc) :
  slice (resolveContainerName ContainerNamePrefix logicalName)
        (String.length ContainerNamePrefix) s
  = (Ret logicalName, s)
  /\ rowName ContainerNamePrefix
       ("/" ++ resolveContainerName ContainerNamePrefix logicalName) s
     = (Ret logicalName, s).
Proof.
  split; [ apply slice_resolved | ].
  unfold rowName, slice, resolveContainerName.
  pose proof (sliceFrom_add ("/" ++ ContainerNamePrefix ++ logicalName)
                (String.length ContainerNamePrefix) 1) as Hadd.
  replace (String.length ContainerNamePrefix + 1)%nat
    with (S (String.length ContainerNamePrefix)) in Hadd by lia.
  assert (Hone : Go.sliceFrom ("/" ++ ContainerNamePrefix ++ logicalName)
                  (S (String.length ContainerNamePrefix)) = Some logicalName)
    by exact (sliceFrom_app ContainerNamePrefix logicalName).
  rewrite Hone in Hadd.
  unfold_monad.
  destruct (Go.sliceFrom ("/" ++ ContainerNamePrefix ++ logicalName)
              (String.length ContainerNamePrefix)) as [r |]; cbn in Hadd; [ | done ].
  by rewrite <- Hadd.
Qed.

(** ** Running a command in the container *)

(** C10: when the exec is created, attached and read, [execContainer]
    returns [nil] for an empty output and the output without its first 8
    bytes for an output of at least 8 bytes; its guard lets an output of 1 to
    7 bytes through to [output[8:]], which is out of range and panics. *)
Theorem execContainer_strips_or_panics (W : World) (ContainerName : string)
    (cmd : list string) (s : Proc) (id : string) (output : list Byte.byte) :
  ContainerExecCreate W ContainerName cmd = Go.Ok id ->
  ContainerExecAttach W id = Go.Ok (Go.Ok output) ->
  let s' := advance [CallExecCreate ContainerName cmd; CallExecAttach id] 0 0 s in
  (output = [] -> execContainer W ContainerName cmd s = (Ret [], s'))
  /\ ((8 <= List.length output)%nat ->
      execContainer W ContainerName cmd s = (Ret (drop 8 output), s')
      /\ (List.length (drop 8 output) + 8 = List.length output)%nat)
  /\ ((1 <= List.length output <= 7)%nat ->
      Go.bytesFrom output 8 = None
      /\ execContainer W ContainerName cmd s = (Panic "slice bounds out of range", s')).
Proof.
  intros Hc Ha s'. unfold execContainer. run. rewrite Hc. cbn. rewrite Ha. cbn.
  unfold Go.bytesFrom. repeat split.
  - intros ->. cbn. f_equal. subst s'. same_proc.
  - destruct (Nat.leb_spec 8 (List.length output)) as [_ | Hlt]; [ | lia ].
    destruct output; cbn in *; [ lia | ]. f_equal. subst s'. same_proc.
  - rewrite length_drop. lia.
  - destruct (Nat.leb_spec 8 (List.length output)); [ lia | done ].
  - destruct (Nat.leb_spec 8 (List.length output)); [ lia | ].
    destruct output; cbn in *; [ lia | ]. f_equal. subst s'. same_proc.
Qed.

Lemma execContainer_strips_or_panics_witness :
  fst (execContainer execWorld "ceph-nano-demo" ["ceph"; "health"] (startProc false false ""))
  = Ret (list_byte_of_string "HEALTH_OK")
  /\ fst (execContainer execWorld "ceph-nano-demo" ["true"] (startProc false false ""))
     = Ret []
  /\ fst (execContainer execWorld "ceph-nano-demo" ["id"] (startProc false false ""))
     = Panic "slice bounds out of range".
Proof.
  split; [ | split ].
  - destruct (execContainer_strips_or_panics execWorld "ceph-nano-demo" ["ceph"; "health"]
                (startProc false false "") "ceph health"
                (frameHeader ++ list_byte_of_string "HEALTH_OK")%list eq_refl eq_refl)
      as (_ & Hlong & _).
    destruct Hlong as [-> _]; [ cbn; lia | reflexivity ].
  - destruct (execContainer_strips_or_panics execWorld "ceph-nano-demo" ["true"]
                (startProc false false "") "true" [] eq_refl eq_refl)
      as (Hempty & _).
    by rewrite Hempty.
  - destruct (execContainer_strips_or_panics execWorld "ceph-nano-demo" ["id"]
                (startProc false false "") "id" [Byte.x01; Byte.x00; Byte.x00]
                eq_refl eq_refl)
      as (_ & _ & Hshort).
    destruct Hshort as [_ ->]; [ cbn; lia | reflexivity ].
Defined.

(** ** Image metadata *)

(** C6: [inspectImage] makes one lookup of the image.  When the lookup fails
    it returns the not-present sentinel, whatever was asked for.  For an image
    without tags whose digests are ["d1"] the tag is "d1".  When the answer
    carries a container config without a RELEASE label, the release lookup
    returns the unknown-release sentinel.  When the answer carries no
    container config, [i.ContainerConfig] is nil: such an image has no RELEASE
    label either, and the release lookup does not return the sentinel but
    panics on the nil pointer, after the lookup. *)
Theorem inspectImage_release_without_config (W : World) (ImageID : string) (s : Proc) :
  let s' := advance [CallImageInspect ImageID] 0 0 s in
  (forall dataType err,
      ImageInspectWithRaw W ImageID = Go.Err err ->
      inspectImage W ImageID dataType s
      = (Ret "image is not present, did you remove it?", s'))
  /\ (forall i,
        ImageInspectWithRaw W ImageID = Go.Ok i ->
        types.RepoTags i = [] -> types.RepoDigests i = ["d1"] ->
        inspectImage W ImageID "tag" s = (Ret "d1", s'))
  /\ (forall i config dataType,
        ImageInspectWithRaw W ImageID = Go.Ok i ->
        types.ContainerConfig i = Some config ->
        types.Labels config !! "RELEASE" = None ->
        dataType <> "tag" -> dataType <> "created" ->
        inspectImage W ImageID dataType s
        = (Ret "unknown image release, are you running an official image?", s'))
  /\ (forall i dataType,
        ImageInspectWithRaw W ImageID = Go.Ok i ->
        types.ContainerConfig i = None ->
        dataType <> "tag" -> dataType <> "created" ->
        inspectImage W ImageID dataType s
        = (Panic "invalid memory address or nil pointer dereference", s')).
Proof.
  intros s'.
  assert (Hs : advance [CallImageInspect ImageID] 0 0 s = s') by done.
  clearbody s'.
  split; [ | split; [ | split ] ].
  - intros dataType err Herr. unfold inspectImage. run. by rewrite Herr, <- Hs.
  - intros i Hi Htags Hdigests. unfold inspectImage. run.
    by rewrite Hi, Htags, Hdigests, <- Hs.
  - intros i config dataType Hi Hconfig Hlabel Htag Hcreated. unfold inspectImage. run.
    apply String.eqb_neq in Htag, Hcreated.
    rewrite Hi, Htag, Hcreated, Hconfig. cbn.
    unfold label. by rewrite Hlabel, <- Hs.
  - intros i dataType Hi Hconfig Htag Hcreated. unfold inspectImage. run.
    apply String.eqb_neq in Htag, Hcreated.
    by rewrite Hi, Htag, Hcreated, Hconfig, <- Hs.
Qed.

Lemma inspectImage_release_without_config_witness :
  inspectImage untaggedWorld "gone" "created" (startProc false false "")
  = (Ret "image is not present, did you remove it?",
     advance [CallImageInspect "gone"] 0 0 (startProc false false ""))
  /\ inspectImage untaggedWorld "0a1b" "tag" (startProc false false "")
     = (Ret "d1", advance [CallImageInspect "0a1b"] 0 0 (startProc false false ""))
  /\ inspectImage untaggedWorld "0a1b" "release" (startProc false false "")
     = (Ret "unknown image release, are you running an official image?",
        advance [CallImageInspect "0a1b"] 0 0 (startProc false false ""))
  /\ inspectImage configlessWorld "0a1b" "release" (startProc false false "")
     = (Panic "invalid memory address or nil pointer dereference",
        advance [CallImageInspect "0a1b"] 0 0 (startProc false false "")).
Proof.
  pose proof (inspectImage_release_without_config untaggedWorld "gone"
                (startProc false false "")) as Hgone.
  pose proof (inspectImage_release_without_config untaggedWorld "0a1b"
                (startProc false false "")) as Himg.
  pose proof (inspectImage_release_without_config configlessWorld "0a1b"
                (startProc false false "")) as Hnil.
  cbv zeta in Hgone, Himg, Hnil.
  destruct Hgone as (Hfailed & _). destruct Himg as (_ & Htag & Hrelease & _).
  destruct Hnil as (_ & _ & _ & Hpanic).
  split; [ | split; [ | split ] ].
  - apply (Hfailed "created" "No such image"). reflexivity.
  - apply (Htag untaggedImage); reflexivity.
  - apply (Hrelease untaggedImage {| types.Labels := ∅ |} "release");
      [ reflexivity | reflexivity | reflexivity | | ]; discriminate.
  - apply (Hpanic configlessImage "release"); [ reflexivity | reflexivity | | ];
      discriminate.
Defined.

(** ** State classifier *)

Lemma existsb_listedIn (containers : list types.Container) (name state : string) :
  existsb (fun container =>
     existsb (fun n => String.eqb n ("/" ++ name)
                       && String.eqb (types.State container) state)
       (types.Names container)) containers = true
  <-> listedIn containers name state.
Proof.
  unfold listedIn. rewrite existsb_exists. split.
  - intros (c & Hc & Hn). apply existsb_exists in Hn as (x & Hx & Heq).
    apply andb_true_iff in Heq as [Hname Hstate].
    apply String.eqb_eq in Hname, Hstate. subst x. by exists c.
  - intros (c & Hc & Hn & Hstate). exists c. split; [ done | ].
    apply existsb_exists. exists ("/" ++ name). split; [ done | ].
    apply andb_true_iff. by rewrite !String.eqb_eq.
Qed.

Lemma containerStatus_listed (W : World) (name state : string) (all : bool) (s : Proc)
    (containers : list types.Container) :
  ContainerList W all = Go.Ok containers ->
  exists b,
    containerStatus W name all state s
    = (Ret b, advance [CallContainerList all true] 0 0 s)
    /\ (b = true <-> listedIn containers name state).
Proof.
  intros Hlist. unfold containerStatus. run. rewrite Hlist.
  eexists. split; [ reflexivity | apply existsb_listedIn ].
Qed.

(** The existence check of [notExistCheck] passes exactly when the listing it
    asks for, the one without [All], has the container as running or exited. *)
Lemma notExistCheck_listed (W : World) (p n : string) (s : Proc)
    (containers : list types.Container) :
  ContainerList W false = Go.Ok containers ->
  listedIn containers (p ++ n) "running" \/ listedIn containers (p ++ n) "exited" ->
  exists evs,
    notExistCheck W p (p ++ n) s = (Ret tt, advance evs 0 0 s)
    /\ Forall (fun e => e = CallContainerList false true) evs.
Proof.
  intros Hlist Hin. unfold notExistCheck.
  pose proof (slice_prefixed p n s) as Hslice.
  unfold mbind at 1, M_bind at 1. rewrite Hslice.
  destruct (containerStatus_listed W (p ++ n) "running" false s containers Hlist)
    as (b1 & Hrun1 & Hb1).
  unfold mbind at 1, M_bind at 1. rewrite Hrun1.
  destruct b1; cbn.
  - eexists. split; [ reflexivity | by repeat constructor ].
  - destruct (containerStatus_listed W (p ++ n) "exited" false
                (advance [CallContainerList false true] 0 0 s) containers Hlist)
      as (b2 & Hrun2 & Hb2).
    unfold mbind at 1, M_bind at 1. rewrite Hrun2.
    destruct b2; cbn.
    + rewrite advance_advance. eexists. split; [ reflexivity | by repeat constructor ].
    + destruct Hin as [Hin | Hin]; [ apply Hb1 in Hin | apply Hb2 in Hin ]; done.
Qed.

Lemma notExistCheck_unlisted (W : World) (p n : string) (s : Proc)
    (containers : list types.Container) :
  ContainerList W false = Go.Ok containers ->
  ~ listedIn containers (p ++ n) "running" ->
  ~ listedIn containers (p ++ n) "exited" ->
  notExistCheck W p (p ++ n) s
  = (Exit 0,
     advance [CallContainerList false true; CallContainerList false true;
              printed ("Cluster " ++ n ++ " does not exist yet.")] 0 0 s).
Proof.
  intros Hlist Hrun Hex. unfold notExistCheck.
  pose proof (slice_prefixed p n s) as Hslice.
  unfold mbind at 1, M_bind at 1. rewrite Hslice.
  destruct (containerStatus_listed W (p ++ n) "running" false s containers Hlist)
    as (b1 & Hrun1 & Hb1).
  unfold mbind at 1, M_bind at 1. rewrite Hrun1.
  destruct b1; [ by destruct Hrun; apply Hb1 | cbn ].
  destruct (containerStatus_listed W (p ++ n) "exited" false
              (advance [CallContainerList false true] 0 0 s) containers Hlist)
    as (b2 & Hrun2 & Hb2).
  unfold mbind at 1, M_bind at 1. rewrite Hrun2.
  destruct b2; [ by destruct Hex; apply Hb2 | cbn ].
  run. f_equal. same_proc.
Qed.

Lemma eqb_slash_name (name : string) : String.eqb ("/" ++ name) ("/" ++ name) = true.
Proof. apply String.eqb_refl. Qed.

(** C1: a cluster that the engine holds in state [exited].  The listing with
    [All], which [notRunningCheck] asks for, shows it; the listing without
    [All], which [notExistCheck] asks for in both of its tests, leaves it out,
    so the existence check fails and the command ends with "does not exist
    yet" and status 0. *)
Theorem notExistCheck_exited_cluster (p n image : string) (s : Proc) :
  let cluster := {| types.Names := ["/" ++ p ++ n]; types.State := "exited";
                    types.ImageID := image |} in
  let W := withContainerList (engineList [cluster]) emptyWorld in
  listedIn [cluster] (p ++ n) "exited"
  /\ notRunningCheck W p (p ++ n) s
     = (Exit 0,
        advance [CallContainerList true true;
                 printed ("Cluster " ++ n ++ " is not running.")] 0 0 s)
  /\ notExistCheck W p (p ++ n) s
     = (Exit 0,
        advance [CallContainerList false true; CallContainerList false true;
                 printed ("Cluster " ++ n ++ " does not exist yet.")] 0 0 s).
Proof.
  intros cluster W. split; [ | split ].
  - exists cluster. repeat split; by left.
  - unfold notRunningCheck.
    pose proof (slice_prefixed p n s) as Hslice.
    unfold mbind at 1, M_bind at 1. rewrite Hslice.
    unfold containerStatus. run. rewrite (eqb_slash_name (p ++ n)). cbn.
    f_equal. same_proc.
  - apply (notExistCheck_unlisted W p n s []); [ done | | ];
      intros (c & Hc & _); inversion Hc.
Qed.

(** ** Port allocator *)

Lemma checkPortInUsed_occupied (W : World) (port : Z) (s : Proc) :
  occupied W port ->
  checkPortInUsed W (Go.Sprint port) s = (Ret false, advance [dialOf port] 0 0 s).
Proof.
  intros Hocc. unfold checkPortInUsed. unfold_calls. unfold_monad.
  unfold occupied in Hocc. by rewrite Hocc.
Qed.

Lemma checkPortInUsed_free (W : World) (port : Z) (s : Proc) :
  free W port ->
  checkPortInUsed W (Go.Sprint port) s = (Ret true, advance [dialOf port] 0 0 s).
Proof.
  intros [err Hfree]. unfold checkPortInUsed. unfold_calls. unfold_monad.
  by rewrite Hfree.
Qed.

Lemma scanPorts_found (W : World) (n : nat) :
  forall (i : Z) (j : nat) (s : Proc),
    (j < n)%nat ->
    (forall m, i <= m < i + Z.of_nat j -> occupied W m) ->
    free W (i + Z.of_nat j) ->
    scanPorts W n i s
    = (Ret (Go.Sprint (i + Z.of_nat j)), advance (map dialOf (ports i (S j))) 0 0 s).
Proof.
  induction n as [| n IH]; intros i j s Hj Hocc Hfree; [ lia | ].
  cbn [scanPorts]. unfold mbind, M_bind. destruct j as [| j].
  - replace (i + Z.of_nat 0) with i in * by lia.
    by rewrite checkPortInUsed_free.
  - rewrite checkPortInUsed_occupied by (apply Hocc; lia).
    replace (i + Z.of_nat (S j)) with (i + 1 + Z.of_nat j) in * by lia.
    rewrite (IH (i + 1) j); [ | lia | intros m Hm; apply Hocc; lia | done ].
    by rewrite advance_advance.
Qed.

Lemma scanPorts_none (W : World) (n : nat) :
  forall (i : Z) (s : Proc),
    (forall m, i <= m < i + Z.of_nat n -> occupied W m) ->
    scanPorts W n i s = (Ret "notfound", advance (map dialOf (ports i n)) 0 0 s).
Proof.
  induction n as [| n IH]; intros i s Hocc; cbn [scanPorts].
  - by rewrite advance_nil.
  - unfold mbind, M_bind. rewrite checkPortInUsed_occupied by (apply Hocc; lia).
    rewrite IH by (intros m Hm; apply Hocc; lia).
    by rewrite advance_advance.
Qed.

(** C4: the scan tries the ports 8000 to 8100 in ascending order, one
    connection attempt of one second to [0.0.0.0:port] each, and returns the
    first port whose attempt fails, trying no port after it; when every
    attempt succeeds it returns ["notfound"].  So when [k] is the only free
    port of the range, the answer is [k]. *)
Theorem generateRGWPortToUse_first_free (W : World) (s : Proc) :
  (forall k,
      8000 <= k <= 8100 ->
      (forall i, 8000 <= i < k -> occupied W i) ->
      free W k ->
      generateRGWPortToUse W s
      = (Ret (Go.Sprint k),
         advance (map dialOf (ports 8000 (Z.to_nat (k - 8000 + 1)))) 0 0 s))
  /\ ((forall i, 8000 <= i <= 8100 -> occupied W i) ->
      generateRGWPortToUse W s
      = (Ret "notfound", advance (map dialOf (ports 8000 101)) 0 0 s))
  /\ (forall k,
        8000 <= k <= 8100 ->
        (forall i, 8000 <= i <= 8100 -> i <> k -> occupied W i) ->
        free W k ->
        fst (generateRGWPortToUse W s) = Ret (Go.Sprint k)).
Proof.
  assert (Hfound : forall k,
      8000 <= k <= 8100 ->
      (forall i, 8000 <= i < k -> occupied W i) ->
      free W k ->
      generateRGWPortToUse W s
      = (Ret (Go.Sprint k),
         advance (map dialOf (ports 8000 (Z.to_nat (k - 8000 + 1)))) 0 0 s)).
  { intros k Hk Hocc Hfree. unfold generateRGWPortToUse.
    pose proof (scanPorts_found W (Z.to_nat (8100 + 1 - 8000)) 8000
                  (Z.to_nat (k - 8000)) s) as Hscan.
    replace (8000 + Z.of_nat (Z.to_nat (k - 8000))) with k in Hscan by lia.
    replace (S (Z.to_nat (k - 8000))) with (Z.to_nat (k - 8000 + 1)) in Hscan by lia.
    apply Hscan; [ lia | | done ]. intros m Hm. apply Hocc. lia. }
  split; [ exact Hfound | split ].
  - intros Hocc. unfold generateRGWPortToUse.
    apply (scanPorts_none W 101 8000 s). intros m Hm. apply Hocc. lia.
  - intros k Hk Hocc Hfree. rewrite (Hfound k); [ done | done | | done ].
    intros i Hi. apply Hocc; lia.
Qed.

Lemma generateRGWPortToUse_first_free_witness :
  generateRGWPortToUse busyWorld (startProc false false "")
  = (Ret "8003",
     advance [dialOf 8000; dialOf 8001; dialOf 8002; dialOf 8003] 0 0
       (startProc false false ""))
  /\ fst (generateRGWPortToUse fullWorld (startProc false false "")) = Ret "notfound".
Proof.
  split.
  - apply (proj1 (generateRGWPortToUse_first_free busyWorld (startProc false false "")) 8003).
    + lia.
    + intros i Hi. assert (i = 8000 \/ i = 8001 \/ i = 8002) as [-> | [-> | ->]] by lia;
        reflexivity.
    + by exists "connection refused".
  - rewrite (proj1 (proj2 (generateRGWPortToUse_first_free fullWorld
                             (startProc false false "")))); [ done | ].
    intros i Hi. reflexivity.
Defined.

(** ** Readiness polling: the container's logs *)

Lemma grepForSuccess_marker (W : World) (name : string) (s : Proc) (b : bool) :
  marker W (logCalls s) name = Some b ->
  grepForSuccess W name s = (Ret b, advance [CallContainerLogs name] 1 0 s).
Proof.
  unfold marker, grepForSuccess. unfold_calls. unfold_monad. cbn.
  destruct (ContainerLogs W (logCalls s) name) as [newStr | err]; [ | done ].
  intros [= <-]. by destruct (Go.Contains newStr "SUCCESS").
Qed.

Lemma pollForSuccess_found (W : World) (name : string) (n : nat) :
  forall (j : nat) (s : Proc),
    (j < n)%nat ->
    (forall k, (k < j)%nat -> marker W (logCalls s + k) name = Some false) ->
    marker W (logCalls s + j) name = Some true ->
    pollForSuccess W name n s
    = (Ret true,
       advance (idlePolls (CallContainerLogs name) j ++ [CallContainerLogs name])
         (S j) 0 s).
Proof.
  induction n as [| n IH]; intros j s Hj Hbefore Hat; [ lia | ].
  cbn [pollForSuccess]. unfold mbind at 1, M_bind at 1. destruct j as [| j].
  - rewrite Nat.add_0_r in Hat. by rewrite (grepForSuccess_marker W name s true).
  - rewrite (grepForSuccess_marker W name s false)
      by (rewrite <- (Nat.add_0_r (logCalls s)); apply Hbefore; lia).
    unfold timeSleep, mbind, M_bind, emit. cbn [fst snd].
    rewrite (IH j); cbn [logCalls advance trace getCalls].
    + f_equal. same_proc.
    + lia.
    + intros k Hk. replace (1 + logCalls s + k)%nat with (logCalls s + S k)%nat by lia.
      apply Hbefore. lia.
    + by replace (1 + logCalls s + j)%nat with (logCalls s + S j)%nat by lia.
Qed.

Lemma pollForSuccess_never (W : World) (name : string) (n : nat) :
  forall (s : Proc),
    (forall k, (k < n)%nat -> marker W (logCalls s + k) name = Some false) ->
    pollForSuccess W name n s
    = (Ret false, advance (idlePolls (CallContainerLogs name) n) n 0 s).
Proof.
  induction n as [| n IH]; intros s Hnever; cbn [pollForSuccess].
  - by rewrite advance_nil.
  - unfold mbind at 1, M_bind at 1.
    rewrite (grepForSuccess_marker W name s false)
      by (rewrite <- (Nat.add_0_r (logCalls s)); apply Hnever; lia).
    unfold timeSleep, mbind, M_bind, emit. cbn [fst snd].
    rewrite IH; cbn [logCalls advance trace getCalls].
    + f_equal. same_proc.
    + intros k Hk. replace (1 + logCalls s + k)%nat with (logCalls s + S k)%nat by lia.
      apply Hnever. lia.
Qed.

(** C2: when the marker is in the logs at the [j]-th poll, [j <= 60], and in
    none before, [cephNanoHealth] returns at that poll: it has asked for the
    logs [j] times and slept [j - 1] times, and does nothing after.  When
    none of the 60 polls shows the marker, it prints the logs it fetches then
    and ends the process through [log.Fatal], with exit status 1. *)
Theorem cephNanoHealth_polls (W : World) (ContainerName : string) (s : Proc) :
  (forall j,
      (1 <= j <= 60)%nat ->
      (forall k, (k < j - 1)%nat -> marker W (logCalls s + k) ContainerName = Some false) ->
      marker W (logCalls s + (j - 1)) ContainerName = Some true ->
      cephNanoHealth W ContainerName s
      = (Ret tt,
         advance (idlePolls (CallContainerLogs ContainerName) (j - 1)
                  ++ [CallContainerLogs ContainerName]) j 0 s))
  /\ ((forall k, (k < 60)%nat -> marker W (logCalls s + k) ContainerName = Some false) ->
      forall newStr,
        ContainerLogs W (logCalls s + 60) ContainerName = Go.Ok newStr ->
        cephNanoHealth W ContainerName s
        = (Exit 1,
           advance (idlePolls (CallContainerLogs ContainerName) 60
                    ++ [printed ("The container " ++ ContainerName
                           ++ " never reached a clean state. Showing the container logs now:");
                        CallContainerLogs ContainerName;
                        printed newStr;
                        logged "Please open an issue at: https://github.com/ceph/cn with the logs above."])
             61 0 s)).
Proof.
  split.
  - intros j Hj Hbefore Hat. unfold cephNanoHealth.
    unfold mbind at 1, M_bind at 1.
    rewrite (pollForSuccess_found W ContainerName (60 - 0) (j - 1) s); [ | lia | done | done ].
    unfold mret, M_ret. by replace (S (j - 1)) with j by lia.
  - intros Hnever newStr Hlogs. unfold cephNanoHealth.
    unfold mbind at 1, M_bind at 1.
    rewrite (pollForSuccess_never W ContainerName (60 - 0) s) by done.
    cbv beta iota. step @run_Println. step run_callContainerLogs.
    rewrite !advance_advance, logCalls_advance.
    replace (0 + (60 - 0) + logCalls s)%nat with (logCalls s + 60)%nat by lia.
    rewrite Hlogs. step @run_Println. rewrite run_logFatal, !advance_advance.
    reflexivity.
Qed.

Lemma cephNanoHealth_polls_witness :
  cephNanoHealth slowStartWorld "ceph-nano-demo" (startProc false false "")
  = (Ret tt,
     advance [CallContainerLogs "ceph-nano-demo"; Sleep 1;
              CallContainerLogs "ceph-nano-demo"; Sleep 1;
              CallContainerLogs "ceph-nano-demo"] 3 0 (startProc false false ""))
  /\ fst (cephNanoHealth stuckWorld "ceph-nano-demo" (startProc false false "")) = Exit 1.
Proof.
  split.
  - apply (proj1 (cephNanoHealth_polls slowStartWorld "ceph-nano-demo"
                    (startProc false false "")) 3%nat).
    + lia.
    + intros k Hk. destruct k as [| [| k]]; [ reflexivity | reflexivity | cbn in Hk; lia ].
    + reflexivity.
  - rewrite (proj2 (cephNanoHealth_polls stuckWorld "ceph-nano-demo"
                      (startProc false false "")) (fun _ _ => eq_refl) "starting monitor");
      reflexivity.
Defined.

(** ** Network selector *)

Local Open Scope list_scope.

Lemma To4_length (ip p : Go.IP) : Go.To4 ip = Some p -> List.length p = 4%nat.
Proof.
  unfold Go.To4, Go.IPv4len, Go.IPv6len.
  destruct (Nat.eqb_spec (List.length ip) 4) as [H4 | _]; [ by intros [= <-] | ].
  destruct (Nat.eqb_spec (List.length ip) 16) as [H16 | _]; cbn [andb]; [ | done ].
  destruct (Go.isZeros (take 10 ip) && Go.byteIs ip 10 Byte.xff && Go.byteIs ip 11 Byte.xff);
    [ | done ].
  intros [= <-]. rewrite length_take, length_drop. lia.
Qed.

Lemma To4_hasOctet (ip p : Go.IP) : Go.To4 ip = Some p -> hasOctet ip.
Proof.
  intros Hto4. unfold hasOctet, lastOctet. rewrite Hto4.
  apply lookup_lt_is_Some. rewrite (To4_length ip p Hto4). lia.
Qed.

Lemma Less_reverse_middle (pre post : list Go.IP) (y x : Go.IP) :
  hasOctet y -> hasOctet x ->
  Go.Less (Go.Reverse byLastOctetValue) (pre ++ y :: x :: post)
    (S (List.length pre)) (List.length pre)
  = Some (octetN y <? octetN x)%N.
Proof.
  intros [a Ha] [b Hb]. cbn [Go.Less Go.Reverse byLastOctetValue].
  rewrite (list_lookup_middle pre (x :: post) y (List.length pre) eq_refl).
  rewrite (lookup_app_r pre) by lia.
  replace (S (List.length pre) - List.length pre)%nat with 1%nat by lia.
  cbn. unfold octetN. by rewrite Ha, Hb.
Qed.

Lemma Swap_reverse_middle (pre post : list Go.IP) (y x : Go.IP) :
  Go.Swap (Go.Reverse byLastOctetValue) (pre ++ y :: x :: post)
    (S (List.length pre)) (List.length pre)
  = Some (pre ++ x :: y :: post).
Proof.
  cbn [Go.Swap Go.Reverse byLastOctetValue].
  rewrite (list_lookup_middle pre (x :: post) y (List.length pre) eq_refl).
  rewrite (lookup_app_r pre) by lia.
  replace (S (List.length pre) - List.length pre)%nat with 1%nat by lia.
  cbn. f_equal.
  rewrite (insert_app_r_alt pre _ (List.length pre)) by lia.
  rewrite Nat.sub_diag. cbn.
  rewrite (insert_app_r_alt pre _ (S (List.length pre))) by lia.
  replace (S (List.length pre) - List.length pre)%nat with 1%nat by lia.
  reflexivity.
Qed.

(** The inner loop puts the element behind a descending prefix into it. *)
Lemma sink_inserts (pre : list Go.IP) :
  forall (x : Go.IP) (post : list Go.IP),
    StronglySorted notBelow pre ->
    Forall hasOctet pre -> hasOctet x ->
    exists pre',
      Go.sink (Go.Reverse byLastOctetValue) (pre ++ x :: post) (List.length pre)
      = Some (pre' ++ post)
      /\ StronglySorted notBelow pre'
      /\ pre' ≡ₚ pre ++ [x].
Proof.
  induction pre as [| y pre IH] using rev_ind; intros x post Hsorted Hoct Hx.
  - exists [x]. cbn. repeat split; [ | done ].
    by repeat constructor.
  - apply Forall_app in Hoct as [Hpre Hy]. rewrite Forall_singleton in Hy.
    rewrite length_app, Nat.add_comm. cbn [List.length Nat.add Go.sink].
    rewrite <- app_assoc. cbn [app].
    rewrite Less_reverse_middle by done. cbn [mbind option_bind].
    apply StronglySorted_app in Hsorted as (Hall & Hsorted & _).
    destruct (N.ltb_spec (octetN y) (octetN x)) as [Hlt | Hge].
    + rewrite Swap_reverse_middle. cbn [mbind option_bind].
      destruct (IH x (y :: post) Hsorted Hpre Hx) as (pre' & Hsink & Hsorted' & Hperm).
      exists (pre' ++ [y]). rewrite Hsink, <- app_assoc. repeat split.
      * apply StronglySorted_app. repeat split; [ | done | by repeat constructor ].
        intros z1 z2 Hz1 Hz2. apply list_elem_of_singleton in Hz2 as ->.
        rewrite Hperm in Hz1. apply elem_of_app in Hz1 as [Hz1 | Hz1].
        -- apply Hall; [ done | by apply list_elem_of_singleton ].
        -- apply list_elem_of_singleton in Hz1 as ->. unfold notBelow. lia.
      * rewrite Hperm, <- !app_assoc. cbn. apply Permutation_app_head. constructor.
    + exists ((pre ++ [y]) ++ [x]).
      split; [ by rewrite <- !app_assoc | split; [ | done ] ].
      apply StronglySorted_app. split; [ | split ].
      * intros z1 z2 Hz1 Hz2. apply list_elem_of_singleton in Hz2 as ->.
        apply elem_of_app in Hz1 as [Hz1 | Hz1].
        -- assert (notBelow z1 y) by (apply Hall; [ done | by apply list_elem_of_singleton ]).
           unfold notBelow in *. lia.
        -- apply list_elem_of_singleton in Hz1 as ->. unfold notBelow. lia.
      * apply StronglySorted_app. split; [ done | split; [ done | by repeat constructor ] ].
      * by repeat constructor.
Qed.

(** The outer loop extends the descending prefix over the whole slice. *)
Lemma insertionSortFrom_sorts (rest : list Go.IP) :
  forall (pre : list Go.IP),
    StronglySorted notBelow pre ->
    Forall hasOctet (pre ++ rest) ->
    exists sorted,
      Go.insertionSortFrom (Go.Reverse byLastOctetValue) (List.length rest)
        (List.length pre) (pre ++ rest)
      = Some sorted
      /\ StronglySorted notBelow sorted
      /\ sorted ≡ₚ pre ++ rest.
Proof.
  induction rest as [| x rest IH]; intros pre Hsorted Hoct.
  - exists pre. cbn. by rewrite app_nil_r.
  - cbn [List.length Go.insertionSortFrom].
    pose proof Hoct as Hoct'.
    apply Forall_app in Hoct' as [Hpre Hrest]. apply Forall_cons in Hrest as [Hx Hrest].
    destruct (sink_inserts pre x rest Hsorted Hpre Hx) as (pre' & Hsink & Hsorted' & Hperm).
    rewrite Hsink. cbn [mbind option_bind].
    assert (Hlen : S (List.length pre) = List.length pre').
    { rewrite Hperm, length_app. cbn. lia. }
    rewrite Hlen.
    destruct (IH pre' Hsorted') as (sorted & Hrun & Hss & Hp).
    { apply Forall_app. split; [ | done ].
      rewrite Hperm. apply Forall_app. split; [ done | by apply Forall_singleton ]. }
    exists sorted. repeat split; [ done | done | ].
    by rewrite Hp, Hperm, <- app_assoc.
Qed.

Lemma Sort_reverse_byLastOctetValue (nips : list Go.IP) :
  Forall hasOctet nips ->
  exists sorted,
    Go.Sort (Go.Reverse byLastOctetValue) nips = Some sorted
    /\ StronglySorted notBelow sorted
    /\ sorted ≡ₚ nips.
Proof.
  intros Hoct. unfold Go.Sort. destruct nips as [| x rest].
  - exists []. repeat split; [ constructor | done ].
  - change (Go.Len (Go.Reverse byLastOctetValue) (x :: rest)) with (S (List.length rest)).
    replace (S (List.length rest) - 1)%nat with (List.length rest) by lia.
    apply (insertionSortFrom_sorts rest [x]); [ by repeat constructor | done ].
Qed.

Lemma sorted_descending (ips : list Go.IP) :
  StronglySorted notBelow ips -> Forall hasOctet ips -> descending ips.
Proof.
  intros Hsorted Hoct i x y Hx Hy.
  assert (Hox : hasOctet x) by (eapply Forall_lookup_1; eauto).
  assert (Hoy : hasOctet y) by (eapply Forall_lookup_1; eauto).
  rewrite <- (take_drop_middle ips i x Hx) in Hsorted.
  apply StronglySorted_app_1_r in Hsorted.
  apply StronglySorted_cons in Hsorted as [Hall _].
  assert (Hin : y ∈ drop (S i) ips).
  { apply list_elem_of_lookup. exists 0%nat. rewrite lookup_drop.
    by rewrite Nat.add_0_r. }
  rewrite Forall_forall in Hall. specialize (Hall y Hin).
  destruct Hox as [a Ha], Hoy as [b Hb]. exists a, b. repeat split; [ done | done | ].
  unfold notBelow, octetN in Hall. by rewrite Ha, Hb in Hall.
Qed.

Lemma collectIPv4s_hasOctet (W : World) (addrs : list net.Addr) :
  forall (nips res : list Go.IP),
    Forall hasOctet nips ->
    collectIPv4s W addrs nips = Go.Ok res ->
    Forall hasOctet res.
Proof.
  induction addrs as [| addr rest IH]; intros nips res Hoct; cbn [collectIPv4s].
  - by intros [= <-].
  - destruct (String.eqb (net.Network addr) "ip+net"); [ | by apply IH ].
    destruct (ParseCIDR W (net.String_ addr)) as [nip | err]; [ | done ].
    destruct (Go.To4 nip) as [p |] eqn:Hto4; [ | by apply IH ].
    apply IH. apply Forall_app. split; [ done | ].
    apply Forall_singleton. by apply (To4_hasOctet nip p).
Qed.

Lemma collectIPv4s_none (W : World) (addrs : list net.Addr) :
  forall (nips : list Go.IP),
    Forall (notIPv4 W) addrs ->
    collectIPv4s W addrs nips = Go.Ok nips.
Proof.
  induction addrs as [| addr rest IH]; intros nips Hnone; cbn [collectIPv4s]; [ done | ].
  apply Forall_cons in Hnone as [Haddr Hrest].
  destruct Haddr as [Hnet | (ip & Hparse & Hto4)].
  - apply String.eqb_neq in Hnet. rewrite Hnet. by apply IH.
  - rewrite Hparse, Hto4. destruct (String.eqb (net.Network addr) "ip+net"); by apply IH.
Qed.

Local Open Scope string_scope.

Lemma run_callInterfaceAddrs (W : World) (s : Proc) :
  callInterfaceAddrs W s = (Ret (InterfaceAddrs W), advance [CallInterfaceAddrs] 0 0 s).
Proof. reflexivity. Qed.

Lemma descending_nil : descending [].
Proof. intros i x y Hx. by rewrite lookup_nil in Hx. Qed.

Lemma getInterfaceIPv4s_returns (W : World) (s : Proc) :
  exists ips err,
    getInterfaceIPv4s W s = (Ret (ips, err), advance [CallInterfaceAddrs] 0 0 s).
Proof.
  unfold getInterfaceIPv4s. rewrite bind_run, run_callInterfaceAddrs. cbv beta iota.
  destruct (InterfaceAddrs W) as [addrs | err]; [ | by eexists _, _ ].
  destruct (collectIPv4s W addrs []) as [nips | err] eqn:Hcollect; [ | by eexists _, _ ].
  assert (Hoct : Forall hasOctet nips)
    by (eapply collectIPv4s_hasOctet; [ | exact Hcollect ]; constructor).
  destruct (Sort_reverse_byLastOctetValue nips Hoct) as (sorted & Hsort & _).
  rewrite Hsort. by eexists _, _.
Qed.

(** C5: [getInterfaceIPv4s] always returns, and the addresses it returns are
    in descending order of their last octet: each one's last octet is at
    least its successor's.  When the interfaces are read and parsed, the
    result holds exactly the IPv4 addresses collected.  On a host whose IPv4
    addresses end in 1, 200 and 50, in that order, the result is the
    addresses ending in 200, 50 and 1. *)
Theorem getInterfaceIPv4s_descending (W : World) (s : Proc) :
  (exists ips err,
      getInterfaceIPv4s W s = (Ret (ips, err), advance [CallInterfaceAddrs] 0 0 s)
      /\ descending ips
      /\ match InterfaceAddrs W with
         | Go.Ok addrs =>
             match collectIPv4s W addrs [] with
             | Go.Ok nips => err = None /\ ips ≡ₚ nips
             | Go.Err _ => err <> None /\ ips = []
             end
         | Go.Err _ => err <> None /\ ips = []
         end)
  /\ List.map lastOctet [loopback; lanHigh; lanMid]
     = [Some Byte.x01; Some Byte.xc8; Some Byte.x32]
  /\ collectIPv4s lanWorld
       [ipNet "127.0.0.1/8"; ipNet "192.168.1.200/24"; ipNet "10.0.0.50/8"; ipNet "::1/128"] []
     = Go.Ok [loopback; lanHigh; lanMid]
  /\ getInterfaceIPv4s lanWorld s
     = (Ret ([lanHigh; lanMid; loopback], None), advance [CallInterfaceAddrs] 0 0 s).
Proof.
  split; [ | repeat split ].
  unfold getInterfaceIPv4s. rewrite bind_run, run_callInterfaceAddrs. cbv beta iota.
  destruct (InterfaceAddrs W) as [addrs | err].
  - destruct (collectIPv4s W addrs []) as [nips | err] eqn:Hcollect.
    + assert (Hoct : Forall hasOctet nips)
        by (eapply collectIPv4s_hasOctet; [ | exact Hcollect ]; constructor).
      destruct (Sort_reverse_byLastOctetValue nips Hoct) as (sorted & Hsort & Hss & Hperm).
      rewrite Hsort. exists sorted, None. repeat split; [ | done ].
      apply sorted_descending; [ done | by rewrite Hperm ].
    + eexists [], (Some _). repeat split; [ apply descending_nil | done ].
  - eexists [], (Some _). repeat split; [ apply descending_nil | done ].
Qed.

(** C9: when the interface addresses are read and none of them qualifies as
    IPv4, [getInterfaceIPv4s] returns the empty slice and no error; element 0
    of that slice does not exist, and [cephNanoS3Health], which takes it
    without a test, panics before it sends any request. *)
Theorem cephNanoS3Health_panics_without_IPv4 (W : World) (s : Proc)
    (addrs : list net.Addr) :
  InterfaceAddrs W = Go.Ok addrs ->
  Forall (notIPv4 W) addrs ->
  getInterfaceIPv4s W s = (Ret ([], None), advance [CallInterfaceAddrs] 0 0 s)
  /\ ([] : list Go.IP) !! 0%nat = None
  /\ forall ContainerName RgwPort,
       cephNanoS3Health W ContainerName RgwPort s
       = (Panic "index out of range", advance [CallInterfaceAddrs] 0 0 s).
Proof.
  intros Haddrs Hnone.
  assert (Hget : getInterfaceIPv4s W s
                 = (Ret ([], None), advance [CallInterfaceAddrs] 0 0 s)).
  { unfold getInterfaceIPv4s. rewrite bind_run, run_callInterfaceAddrs. cbv beta iota.
    by rewrite Haddrs, (collectIPv4s_none W addrs [] Hnone). }
  split; [ done | split; [ done | ] ].
  intros ContainerName RgwPort. unfold cephNanoS3Health.
  by rewrite bind_run, Hget.
Qed.

Lemma cephNanoS3Health_panics_without_IPv4_witness :
  getInterfaceIPv4s v6World (startProc false false "")
  = (Ret ([], None), advance [CallInterfaceAddrs] 0 0 (startProc false false ""))
  /\ cephNanoS3Health v6World "ceph-nano-demo" "8000" (startProc false false "")
     = (Panic "index out of range",
        advance [CallInterfaceAddrs] 0 0 (startProc false false "")).
Proof.
  assert (Hnone : Forall (notIPv4 v6World) [ipNet "::1/128"]).
  { constructor; [ | constructor ]. right. by exists loopback6. }
  destruct (cephNanoS3Health_panics_without_IPv4 v6World (startProc false false "")
              [ipNet "::1/128"] eq_refl Hnone) as (Hget & _ & Hpanic).
  split; [ exact Hget | apply Hpanic ].
Defined.

(** ** Readiness polling: the gateway *)

Lemma sameGets_bind {A B : Type} (m : M A) (f : A -> M B) :
  sameGets m -> (forall a, sameGets (f a)) -> sameGets (m ≫= f).
Proof.
  intros Hm Hf s. rewrite bind_run. specialize (Hm s).
  destruct (m s) as [[a | code | msg] s']; cbn [snd] in *; [ | done | done ].
  by rewrite (Hf a s').
Qed.

Lemma sameGets_ret {A : Type} (a : A) : sameGets (mret a).
Proof. by intros s. Qed.

Lemma sameGets_emit (e : Event) : sameGets (emit e).
Proof. by intros s. Qed.

Lemma sameGets_logFatal {A : Type} (msg : string) : sameGets (@logFatal A msg).
Proof. by intros s. Qed.

Lemma sameGets_index {A : Type} (l : list A) (i : nat) : sameGets (index l i).
Proof. intros s. unfold index. by destruct (l !! i). Qed.

Lemma sameGets_callContainerLogs (W : World) (name : string) :
  sameGets (callContainerLogs W name).
Proof. by intros s. Qed.

Lemma sameGets_dockerInspect (W : World) (name pattern : string) :
  sameGets (dockerInspect W name pattern).
Proof.
  unfold dockerInspect. apply sameGets_bind; [ by intros s | ].
  intros [inspect | err]; [ | apply sameGets_logFatal ].
  destruct (String.eqb pattern "Binds");
    [ apply sameGets_bind; [ apply sameGets_index | intros; apply sameGets_index ] | ].
  destruct (String.eqb pattern "PortBindings");
    [ apply sameGets_bind; [ apply sameGets_index | intros; apply sameGets_index ] | ].
  apply sameGets_ret.
Qed.

Lemma sameGets_grepForSuccess (W : World) (name : string) :
  sameGets (grepForSuccess W name).
Proof.
  unfold grepForSuccess. apply sameGets_bind; [ apply sameGets_callContainerLogs | ].
  intros [newStr | err]; [ | apply sameGets_logFatal ].
  destruct (Go.Contains newStr "SUCCESS"); apply sameGets_ret.
Qed.

Lemma sameGets_pollForSuccess (W : World) (name : string) (n : nat) :
  sameGets (pollForSuccess W name n).
Proof.
  induction n as [| n IH]; cbn [pollForSuccess]; [ apply sameGets_ret | ].
  apply sameGets_bind; [ apply sameGets_grepForSuccess | ].
  intros [|]; [ apply sameGets_ret | ].
  apply sameGets_bind; [ apply sameGets_emit | by intros ].
Qed.

Lemma sameGets_cephNanoHealth (W : World) (name : string) :
  sameGets (cephNanoHealth W name).
Proof.
  unfold cephNanoHealth. apply sameGets_bind; [ apply sameGets_pollForSuccess | ].
  intros [|]; [ apply sameGets_ret | ].
  apply sameGets_bind; [ apply sameGets_emit | intros _ ].
  apply sameGets_bind; [ apply sameGets_callContainerLogs | ].
  intros [newStr | err]; [ | apply sameGets_logFatal ].
  apply sameGets_bind; [ apply sameGets_emit | intros _; apply sameGets_logFatal ].
Qed.

Lemma emitsOnly_bind (Q : Event -> Prop) {A B : Type} (m : M A) (f : A -> M B) :
  emitsOnly Q m -> (forall a, emitsOnly Q (f a)) -> emitsOnly Q (m ≫= f).
Proof.
  intros Hm Hf s. rewrite bind_run. destruct (Hm s) as (evs1 & Htrace1 & Hevs1).
  destruct (m s) as [[a | code | msg] s']; cbn [snd] in *; [ | by eexists | by eexists ].
  destruct (Hf a s') as (evs2 & Htrace2 & Hevs2).
  exists (evs1 ++ evs2)%list. split; [ | by apply Forall_app ].
  by rewrite Htrace2, Htrace1, <- app_assoc.
Qed.

Lemma emitsOnly_ret (Q : Event -> Prop) {A : Type} (a : A) : emitsOnly Q (mret a).
Proof. intros s. exists []. split; [ by rewrite app_nil_r | constructor ]. Qed.

Lemma emitsOnly_emit (Q : Event -> Prop) (e : Event) : Q e -> emitsOnly Q (emit e).
Proof. intros He s. exists [e]. split; [ done | by constructor ]. Qed.

Lemma emitsOnly_logFatal (Q : Event -> Prop) {A : Type} (msg : string) :
  Q (logged msg) -> emitsOnly Q (@logFatal A msg).
Proof. intros He s. exists [logged msg]. split; [ done | by constructor ]. Qed.

Lemma emitsOnly_index (Q : Event -> Prop) {A : Type} (l : list A) (i : nat) :
  emitsOnly Q (index l i).
Proof.
  intros s. exists []. unfold index.
  split; [ destruct (l !! i); cbn; by rewrite app_nil_r | constructor ].
Qed.

Lemma emitsOnly_callContainerLogs (Q : Event -> Prop) (W : World) (name : string) :
  Q (CallContainerLogs name) -> emitsOnly Q (callContainerLogs W name).
Proof. intros He s. exists [CallContainerLogs name]. split; [ done | by constructor ]. Qed.

Lemma beforeGateway_dockerInspect (W : World) (name pattern : string) :
  emitsOnly beforeGateway (dockerInspect W name pattern).
Proof.
  unfold dockerInspect. apply emitsOnly_bind.
  { intros s. exists [CallContainerInspect name]. split; [ done | by constructor ]. }
  intros [inspect | err]; [ | by apply emitsOnly_logFatal ].
  destruct (String.eqb pattern "Binds");
    [ apply emitsOnly_bind; [ apply emitsOnly_index | intros; apply emitsOnly_index ] | ].
  destruct (String.eqb pattern "PortBindings");
    [ apply emitsOnly_bind; [ apply emitsOnly_index | intros; apply emitsOnly_index ] | ].
  apply emitsOnly_ret.
Qed.

Lemma beforeGateway_pollForSuccess (W : World) (name : string) (n : nat) :
  emitsOnly beforeGateway (pollForSuccess W name n).
Proof.
  induction n as [| n IH]; cbn [pollForSuccess]; [ apply emitsOnly_ret | ].
  apply emitsOnly_bind.
  - unfold grepForSuccess. apply emitsOnly_bind; [ by apply emitsOnly_callContainerLogs | ].
    intros [newStr | err]; [ | by apply emitsOnly_logFatal ].
    destruct (Go.Contains newStr "SUCCESS"); apply emitsOnly_ret.
  - intros [|]; [ apply emitsOnly_ret | ].
    apply emitsOnly_bind; [ by apply emitsOnly_emit | by intros ].
Qed.

Lemma beforeGateway_cephNanoHealth (W : World) (name : string) :
  emitsOnly beforeGateway (cephNanoHealth W name).
Proof.
  unfold cephNanoHealth. apply emitsOnly_bind; [ apply beforeGateway_pollForSuccess | ].
  intros [|]; [ apply emitsOnly_ret | ].
  apply emitsOnly_bind; [ by apply emitsOnly_emit | intros _ ].
  apply emitsOnly_bind; [ by apply emitsOnly_callContainerLogs | ].
  intros [newStr | err]; [ | by apply emitsOnly_logFatal ].
  apply emitsOnly_bind; [ by apply emitsOnly_emit | intros _; by apply emitsOnly_logFatal ].
Qed.

Lemma beforeGateway_none (evs : list Event) :
  Forall beforeGateway evs -> existsb isGatewayEvent evs = false.
Proof.
  induction 1 as [| e evs He _ IH]; [ done | ]. cbn. by rewrite He, IH.
Qed.

Lemma curlTestURL_delivered (W : World) (url : string) (s : Proc) :
  curlTestURL W url s
  = (Ret (delivered W (getCalls s) url), advance [HttpGet url] 0 1 s).
Proof.
  unfold curlTestURL, delivered. rewrite bind_run, run_callHttpGet. cbv beta iota.
  destruct (httpGet W (getCalls s) url) as [response | err]; [ | done ].
  by destruct (net.Body response).
Qed.

Lemma pollURL_found (W : World) (url : string) (n : nat) :
  forall (j : nat) (s : Proc),
    (j < n)%nat ->
    (forall k, (k < j)%nat -> delivered W (getCalls s + k) url = false) ->
    delivered W (getCalls s + j) url = true ->
    pollURL W url n s
    = (Ret true, advance (idlePolls (HttpGet url) j ++ [HttpGet url])%list 0 (S j) s).
Proof.
  induction n as [| n IH]; intros j s Hj Hbefore Hat; [ lia | ].
  cbn [pollURL]. rewrite bind_run, curlTestURL_delivered. cbv beta iota.
  destruct j as [| j].
  - rewrite Nat.add_0_r in Hat. by rewrite Hat.
  - rewrite <- (Nat.add_0_r (getCalls s)), Hbefore by lia.
    unfold timeSleep. rewrite bind_run, run_emit. cbv beta iota.
    rewrite (IH j); rewrite ?advance_advance, ?getCalls_advance.
    + f_equal. same_proc.
    + lia.
    + intros k Hk. replace (0 + 1 + getCalls s + k)%nat with (getCalls s + S k)%nat by lia.
      apply Hbefore. lia.
    + by replace (0 + 1 + getCalls s + j)%nat with (getCalls s + S j)%nat by lia.
Qed.

Lemma pollURL_never (W : World) (url : string) (n : nat) :
  forall (s : Proc),
    (forall k, (k < n)%nat -> delivered W (getCalls s + k) url = false) ->
    pollURL W url n s = (Ret false, advance (idlePolls (HttpGet url) n) 0 n s).
Proof.
  induction n as [| n IH]; intros s Hnever; cbn [pollURL].
  - by rewrite advance_nil.
  - rewrite bind_run, curlTestURL_delivered. cbv beta iota.
    rewrite <- (Nat.add_0_r (getCalls s)), Hnever by lia.
    unfold timeSleep. rewrite bind_run, run_emit. cbv beta iota.
    rewrite IH; rewrite ?advance_advance, ?getCalls_advance.
    + f_equal. same_proc.
    + intros k Hk. replace (0 + 1 + getCalls s + k)%nat with (getCalls s + S k)%nat by lia.
      apply Hnever. lia.
Qed.

Lemma pollURL_bound (W : World) (url : string) (n : nat) :
  forall (s : Proc), (getCalls (snd (pollURL W url n s)) <= n + getCalls s)%nat.
Proof.
  induction n as [| n IH]; intros s; cbn [pollURL]; [ cbn; lia | ].
  rewrite bind_run, curlTestURL_delivered. cbv beta iota.
  destruct (delivered W (getCalls s) url); [ cbn; lia | ].
  unfold timeSleep. rewrite bind_run, run_emit. cbv beta iota.
  etransitivity; [ apply IH | ]. rewrite advance_advance, getCalls_advance. lia.
Qed.

(** C3: when a run of [echoInfo] shows an event of the gateway phase (the
    interfaces read, an HTTP request, the gateway's logs), [cephNanoHealth]
    has returned before it, and up to that return there was no such event
    and no HTTP request.  [cephNanoS3Health] sends
    at most 30 requests.  With an address to advertise, all of them go to
    [http://<address>:<port>]: it returns at the first request that delivers
    a status and a readable body, and after 30 requests without one it prints
    the gateway's logs and ends the process through [log.Fatal], with exit
    status 1. *)
Theorem echoInfo_gateway_after_health (W : World) (ContainerName : string) (s : Proc) :
  (forall outcome s' evs,
      echoInfo W ContainerName s = (outcome, s') ->
      trace s' = (trace s ++ evs)%list ->
      existsb isGatewayEvent evs = true ->
      exists RgwPort s0 s1 evs1,
        dockerInspect W ContainerName "PortBindings" s = (Ret RgwPort, s0)
        /\ cephNanoHealth W ContainerName s0 = (Ret tt, s1)
        /\ trace s1 = (trace s ++ evs1)%list
        /\ existsb isGatewayEvent evs1 = false
        /\ getCalls s1 = getCalls s)
  /\ (forall RgwPort,
        (getCalls (snd (cephNanoS3Health W ContainerName RgwPort s))
         <= 30 + getCalls s)%nat)
  /\ (forall RgwPort ip ips err,
        fst (getInterfaceIPv4s W s) = Ret (ip :: ips, err) ->
        let url := "http://" ++ Go.IPString (IPv6String W) ip ++ ":" ++ RgwPort in
        (forall j,
            (1 <= j <= 30)%nat ->
            (forall k, (k < j - 1)%nat -> delivered W (getCalls s + k) url = false) ->
            delivered W (getCalls s + (j - 1)) url = true ->
            cephNanoS3Health W ContainerName RgwPort s
            = (Ret tt,
               advance (CallInterfaceAddrs :: idlePolls (HttpGet url) (j - 1)
                        ++ [HttpGet url])%list 0 j s))
        /\ ((forall k, (k < 30)%nat -> delivered W (getCalls s + k) url = false) ->
            cephNanoS3Health W ContainerName RgwPort s
            = (Exit 1,
               advance (CallInterfaceAddrs :: idlePolls (HttpGet url) 30
                        ++ [printed ("S3 gateway for cluster " ++ ContainerName
                                     ++ " is not responding. Showing S3 logs:");
                            ShowS3Logs ContainerName;
                            logged "Please open an issue at: https://github.com/ceph/cn."])%list
                 0 30 s))).
Proof.
  split; [ | split ].
  - intros outcome s' evs Hrun Htrace Hgateway. unfold echoInfo in Hrun.
    rewrite bind_run in Hrun.
    pose proof (sameGets_dockerInspect W ContainerName "PortBindings" s) as Hd.
    destruct (beforeGateway_dockerInspect W ContainerName "PortBindings" s)
      as (evs0 & Htrace0 & Hevs0).
    destruct (dockerInspect W ContainerName "PortBindings" s)
      as [[RgwPort | code | msg] s0] eqn:Hinspect; cbn [snd] in Hd, Htrace0.
    2, 3: injection Hrun as <- <-; rewrite Htrace0 in Htrace;
          apply app_inv_head in Htrace as <-;
          by rewrite (beforeGateway_none evs0 Hevs0) in Hgateway.
    rewrite bind_run in Hrun.
    pose proof (sameGets_cephNanoHealth W ContainerName s0) as Hh.
    destruct (beforeGateway_cephNanoHealth W ContainerName s0)
      as (evs1 & Htrace1 & Hevs1).
    destruct (cephNanoHealth W ContainerName s0) as [[[] | code | msg] s1] eqn:Hhealth;
      cbn [snd] in Hh, Htrace1.
    2, 3: injection Hrun as <- <-; rewrite Htrace1, Htrace0, <- app_assoc in Htrace;
          apply app_inv_head in Htrace as <-;
          by rewrite (beforeGateway_none (evs0 ++ evs1)) in Hgateway
            by (by apply Forall_app).
    exists RgwPort, s0, s1, (evs0 ++ evs1)%list.
    split; [ done | split; [ done | split; [ | split ] ] ].
    + by rewrite Htrace1, Htrace0, <- app_assoc.
    + apply beforeGateway_none. by apply Forall_app.
    + lia.
  - intros RgwPort. unfold cephNanoS3Health. rewrite bind_run.
    destruct (getInterfaceIPv4s_returns W s) as (ips & err & Hget). rewrite Hget.
    rewrite bind_run. unfold index. destruct ips as [| ip ips]; [ cbn; lia | ].
    cbn [lookup list_lookup]. unfold mret at 1, M_ret at 1. cbv beta iota.
    rewrite bind_run.
    pose proof (pollURL_bound W ("http://" ++ Go.IPString (IPv6String W) ip ++ ":" ++ RgwPort)
                  (30 - 0) (advance [CallInterfaceAddrs] 0 0 s)) as Hbound.
    rewrite getCalls_advance in Hbound.
    destruct (pollURL W _ (30 - 0) (advance [CallInterfaceAddrs] 0 0 s))
      as [[[|] | code | msg] s1]; cbn [snd] in Hbound; cbv beta iota.
    + cbn. lia.
    + step @run_Println. unfold showS3Logs. step run_emit.
      rewrite run_logFatal. cbn [snd]. rewrite !getCalls_advance. lia.
    + cbn. lia.
    + cbn. lia.
  - intros RgwPort ip ips err Hfst url.
    destruct (getInterfaceIPv4s_returns W s) as (ips' & err' & Hget).
    rewrite Hget in Hfst. cbn [fst] in Hfst. injection Hfst as -> ->.
    split.
    + intros j Hj Hbefore Hat. unfold cephNanoS3Health. rewrite bind_run, Hget.
      rewrite bind_run. unfold index. cbn [lookup list_lookup].
      unfold mret at 1, M_ret at 1. cbv beta iota. fold url.
      rewrite bind_run.
      rewrite (pollURL_found W url (30 - 0) (j - 1)); [ | lia | done | done ].
      cbv beta iota. unfold mret, M_ret. rewrite advance_advance.
      f_equal. f_equal. lia.
    + intros Hnever. unfold cephNanoS3Health. rewrite bind_run, Hget.
      rewrite bind_run. unfold index. cbn [lookup list_lookup].
      unfold mret at 1, M_ret at 1. cbv beta iota. fold url.
      rewrite bind_run.
      rewrite (pollURL_never W url (30 - 0)) by done.
      cbv beta iota. step @run_Println. unfold showS3Logs. step run_emit.
      rewrite run_logFatal, !advance_advance. reflexivity.
Qed.

Lemma echoInfo_gateway_after_health_witness :
  cephNanoS3Health gatewayWorld "ceph-nano-demo" "8000" (startProc false false "")
  = (Ret tt,
     advance [CallInterfaceAddrs;
              HttpGet "http://192.168.1.200:8000"; Sleep 1;
              HttpGet "http://192.168.1.200:8000"; Sleep 1;
              HttpGet "http://192.168.1.200:8000"] 0 3 (startProc false false ""))
  /\ fst (cephNanoS3Health lanWorld "ceph-nano-demo" "8000" (startProc false false ""))
     = Exit 1.
Proof.
  split.
  - apply (proj1 (proj2 (proj2 (echoInfo_gateway_after_health gatewayWorld "ceph-nano-demo"
                                  (startProc false false "")))
                    "8000" lanHigh [lanMid; loopback] None eq_refl) 3%nat).
    + lia.
    + intros k Hk. destruct k as [| [| k]]; [ reflexivity | reflexivity | cbn in Hk; lia ].
    + reflexivity.
  - rewrite (proj2 (proj2 (proj2 (echoInfo_gateway_after_health lanWorld "ceph-nano-demo"
                                    (startProc false false "")))
                      "8000" lanHigh [lanMid; loopback] None eq_refl) (fun _ _ => eq_refl)).
    reflexivity.
Defined.

(** ** Purge *)

Lemma listing_is_no_removal (evs : list Event) :
  Forall (fun e => e = CallContainerList false true) evs ->
  List.filter isRemoval evs = [].
Proof.
  induction 1 as [| e evs -> _ IH]; [ done | ]. cbn. exact IH.
Qed.

Lemma dockerInspect_image (W : World) (name : string) (s : Proc)
    (inspect : types.ContainerJSON) :
  ContainerInspect W name = Go.Ok inspect ->
  dockerInspect W name "image" s
  = (Ret (types.Image inspect), advance [CallContainerInspect name] 0 0 s).
Proof. intros Hinspect. unfold dockerInspect. run. by rewrite Hinspect. Qed.

(** C7: without the confirmation flag [purgeNano] prints its guidance and
    the help and exits with status 1, making no removal call; and what the
    removal calls answer never changes how [purgeNano] ends.  With the
    confirmation and delete-all flags it removes the container and the image
    the inspection names when the listing without [All] shows the cluster.
    For a cluster that was stopped, which the engine holds in state [exited]
    and leaves out of that listing, it does not: with the confirmation flag,
    with or without delete-all, [purgeNano] ends at the existence check with
    "does not exist yet" and status 0, and removes neither the container nor
    the image. *)
Theorem purgeNano_keeps_stopped_cluster (W : World)
    (ContainerNamePrefix logicalName : string) (rest : list string) (s : Proc) :
  let ContainerName := ContainerNamePrefix ++ logicalName in
  let guidance :=
    [Stdout ("Purge option is too dangerous please set the right flag. "
             ++ Go.newline ++ " " ++ Go.newline); Help] in
  (IamSure s = false ->
   purgeNano W ContainerNamePrefix (logicalName :: rest) s = (Exit 1, advance guidance 0 0 s)
   /\ List.filter isRemoval guidance = [])
  /\ (forall containerErr imageErr,
        purgeNano (withRemovals containerErr imageErr W) ContainerNamePrefix
          (logicalName :: rest) s
        = purgeNano W ContainerNamePrefix (logicalName :: rest) s)
  /\ (IamSure s = true -> DeleteAll s = true ->
      forall containers inspect,
        ContainerList W false = Go.Ok containers ->
        listedIn containers ContainerName "running"
        \/ listedIn containers ContainerName "exited" ->
        ContainerInspect W ContainerName = Go.Ok inspect ->
        exists evs s',
          purgeNano W ContainerNamePrefix (logicalName :: rest) s = (Ret tt, s')
          /\ trace s' = (trace s ++ evs)%list
          /\ List.filter isRemoval evs
             = [CallContainerRemove ContainerName
                  {| types.RemoveLinks := false; types.RemoveVolumes := true;
                     types.Force := true |};
                CallImageRemove (types.Image inspect)
                  {| types.ImageForce := true; types.PruneChildren := true |}])
  /\ (IamSure s = true ->
      forall image,
        let stopped := {| types.Names := ["/" ++ ContainerName]; types.State := "exited";
                          types.ImageID := image |} in
        let skipped :=
          [CallContainerList false true; CallContainerList false true;
           printed ("Cluster " ++ logicalName ++ " does not exist yet.")] in
        listedIn [stopped] ContainerName "exited"
        /\ purgeNano (withContainerList (engineList [stopped]) W) ContainerNamePrefix
             (logicalName :: rest) s
           = (Exit 0, advance skipped 0 0 s)
        /\ List.filter isRemoval skipped = []).
Proof.
  intros ContainerName guidance.
  assert (Hstart : forall W',
            purgeNano W' ContainerNamePrefix (logicalName :: rest) s
            = ((if negb (IamSure s)
                then Printf ("Purge option is too dangerous please set the right flag. "
                             ++ Go.newline ++ " " ++ Go.newline) ≫= fun _ =>
                     emit Help ≫= fun _ => osExit 1
                else mret tt) ≫= fun _ : unit =>
               notExistCheck W' ContainerNamePrefix ContainerName ≫= fun _ =>
               Println ("Purging cluster " ++ logicalName ++ "...") ≫= fun _ =>
               removeContainer W' ContainerName) s).
  { intros W'. unfold purgeNano. rewrite bind_run. unfold index at 1.
    cbn [lookup list_lookup]. unfold mret at 1, M_ret at 1. cbv beta iota.
    rewrite bind_run, (slice_prefixed ContainerNamePrefix logicalName s). cbv beta iota.
    rewrite bind_run. unfold gets at 1. cbv beta iota. reflexivity. }
  split; [ | split; [ | split ] ].
  - intros Hsure. split; [ | done ].
    rewrite Hstart, Hsure. cbn [negb].
    rewrite bind_run. unfold Printf. step run_emit. step run_emit.
    unfold osExit. by rewrite advance_advance.
  - intros containerErr imageErr. reflexivity.
  - intros Hsure Hall containers inspect Hlist Hlisted Hinspect.
    destruct (notExistCheck_listed W ContainerNamePrefix logicalName s containers
                Hlist Hlisted) as (evs & Hcheck & Hevs).
    rewrite Hstart, Hsure. cbn [negb].
    rewrite bind_run. unfold mret at 1, M_ret at 1. cbv beta iota.
    rewrite bind_run. fold ContainerName in Hcheck. rewrite Hcheck. cbv beta iota.
    step @run_Println. rewrite advance_advance.
    unfold removeContainer. rewrite bind_run. unfold gets at 1. cbv beta iota.
    change (DeleteAll (advance _ _ _ s)) with (DeleteAll s). rewrite Hall.
    rewrite !bind_run.
    rewrite (dockerInspect_image W ContainerName _ inspect Hinspect). cbv beta iota.
    rewrite advance_advance.
    unfold setImageName, callContainerRemove, callImageRemove, gets, Println, emit,
      mbind, M_bind, mret, M_ret.
    cbn [DeleteAll ImageName trace advance]. rewrite Hall.
    eexists _, _. split; [ reflexivity | ]. cbn [trace].
    split; [ by rewrite <- !app_assoc | ].
    rewrite !List.filter_app, (listing_is_no_removal evs Hevs). reflexivity.
  - intros Hsure image stopped skipped. split; [ | split; [ | done ] ].
    + exists stopped. repeat split; by left.
    + rewrite Hstart, Hsure. cbn [negb].
      rewrite bind_run. unfold mret at 1, M_ret at 1. cbv beta iota.
      pose proof (notExistCheck_unlisted (withContainerList (engineList [stopped]) W)
                    ContainerNamePrefix logicalName s [] eq_refl
                    ltac:(intros (c & [] & _)) ltac:(intros (c & [] & _))) as Hcheck.
      fold ContainerName in Hcheck. by rewrite bind_run, Hcheck.
Qed.

Lemma purgeNano_keeps_stopped_cluster_witness :
  fst (purgeNano demoWorld "ceph-nano-" ["demo"] (startProc false true "ceph/daemon"))
  = Exit 1
  /\ ContainerRemove demoWorld "ceph-nano-demo" = Some "No such container"
  /\ (exists evs s',
        purgeNano demoWorld "ceph-nano-" ["demo"] (startProc true true "ceph/daemon")
        = (Ret tt, s')
        /\ trace s' = evs
        /\ List.filter isRemoval evs
           = [CallContainerRemove "ceph-nano-demo"
                {| types.RemoveLinks := false; types.RemoveVolumes := true;
                   types.Force := true |};
              CallImageRemove "img:v1"
                {| types.ImageForce := true; types.PruneChildren := true |}])
  /\ ContainerInspect stoppedDemoWorld "ceph-nano-demo"
     = Go.Ok {| types.Binds := ["/tmp/demo:/tmp"]; types.Env := ["RGW_PORT=8000"];
                types.Image := "img:v1" |}
  /\ purgeNano stoppedDemoWorld "ceph-nano-" ["demo"] (startProc true true "ceph/daemon")
     = (Exit 0,
        advance [CallContainerList false true; CallContainerList false true;
                 printed "Cluster demo does not exist yet."] 0 0
          (startProc true true "ceph/daemon")).
Proof.
  pose proof (purgeNano_keeps_stopped_cluster demoWorld "ceph-nano-" "demo" []
                (startProc false true "ceph/daemon")) as Hrefused.
  pose proof (purgeNano_keeps_stopped_cluster demoWorld "ceph-nano-" "demo" []
                (startProc true true "ceph/daemon")) as Hpurged.
  cbv zeta in Hrefused, Hpurged.
  destruct Hrefused as (Hrefused & _). destruct Hpurged as (_ & _ & Hpurged & Hstopped).
  split; [ | split; [ reflexivity | split; [ | split; [ reflexivity | ] ] ] ].
  - destruct (Hrefused eq_refl) as [-> _]. reflexivity.
  - apply (Hpurged eq_refl eq_refl [demoCluster]
             {| types.Binds := ["/tmp/demo:/tmp"]; types.Env := ["RGW_PORT=8000"];
                types.Image := "img:v1" |}).
    + reflexivity.
    + left. exists demoCluster. repeat split; by left.
    + reflexivity.
  - exact (proj1 (proj2 (Hstopped eq_refl "sha256:0a1b"))).
Defined.

(** * Further properties *)

(** ** State classifier and the commands' preconditions *)

Lemma run_callContainerList (W : World) (all quiet : bool) (s : Proc) :
  callContainerList W all quiet s
  = (Ret (ContainerList W all), advance [CallContainerList all quiet] 0 0 s).
Proof. reflexivity. Qed.

Lemma containerStatus_unreadable (W : World) (name state err : string) (all : bool)
    (s : Proc) :
  ContainerList W all = Go.Err err ->
  forall A (k : bool -> M A),
    (containerStatus W name all state ≫= k) s
    = (Exit 1, advance [CallContainerList all true; logged err] 0 0 s).
Proof.
  intros Hlist A k. rewrite bind_run. unfold containerStatus. run. rewrite Hlist. cbn.
  f_equal. same_proc.
Qed.

(** X1: relative to the listing it asks for, the one without [All],
    [notExistCheck] returns exactly when the name is listed as running or as
    exited.  A name listed as running is accepted after one listing, and a
    name listed as neither ends the command with status 0, not with a
    failure. *)
Theorem notExistCheck_returns_iff_listed (W : World) (p n : string) (s : Proc)
    (containers : list types.Container) :
  ContainerList W false = Go.Ok containers ->
  (fst (notExistCheck W p (p ++ n) s) = Ret tt
   <-> listedIn containers (p ++ n) "running" \/ listedIn containers (p ++ n) "exited")
  /\ (listedIn containers (p ++ n) "running" ->
      notExistCheck W p (p ++ n) s = (Ret tt, advance [CallContainerList false true] 0 0 s))
  /\ (fst (notExistCheck W p (p ++ n) s) <> Ret tt ->
      notExistCheck W p (p ++ n) s
      = (Exit 0,
         advance [CallContainerList false true; CallContainerList false true;
                  printed ("Cluster " ++ n ++ " does not exist yet.")] 0 0 s)).
Proof.
  intros Hlist.
  destruct (containerStatus_listed W (p ++ n) "running" false s containers Hlist)
    as (b1 & Hrun1 & Hb1).
  destruct (containerStatus_listed W (p ++ n) "exited" false
              (advance [CallContainerList false true] 0 0 s) containers Hlist)
    as (b2 & Hrun2 & Hb2).
  assert (Hstart : notExistCheck W p (p ++ n) s
                   = (if b1 then (Ret tt, advance [CallContainerList false true] 0 0 s)
                      else if b2
                           then (Ret tt, advance [CallContainerList false true;
                                                  CallContainerList false true] 0 0 s)
                           else (Exit 0,
                                 advance [CallContainerList false true;
                                          CallContainerList false true;
                                          printed ("Cluster " ++ n ++ " does not exist yet.")]
                                   0 0 s))).
  { unfold notExistCheck. rewrite bind_run, slice_prefixed. cbv beta iota.
    rewrite bind_run, Hrun1. cbv beta iota. destruct b1; cbn [negb]; [ done | ].
    rewrite bind_run, Hrun2. cbv beta iota. destruct b2; cbn [negb].
    - by rewrite advance_advance.
    - step @run_Println. unfold osExit. by rewrite !advance_advance. }
  rewrite Hstart. split; [ | split ].
  - destruct b1, b2; cbn [fst]; split; try done; intros H.
    + left. by apply Hb1.
    + left. by apply Hb1.
    + right. by apply Hb2.
    + destruct H as [H | H]; [ apply Hb1 in H | apply Hb2 in H ]; done.
  - intros Hin. apply Hb1 in Hin as ->. done.
  - destruct b1, b2; cbn [fst]; done.
Qed.

Lemma notExistCheck_returns_iff_listed_witness :
  notExistCheck demoWorld "ceph-nano-" "ceph-nano-demo" (startProc false false "")
  = (Ret tt, advance [CallContainerList false true] 0 0 (startProc false false ""))
  /\ fst (notExistCheck demoWorld "ceph-nano-" "ceph-nano-other" (startProc false false ""))
     = Exit 0.
Proof.
  pose proof (notExistCheck_returns_iff_listed demoWorld "ceph-nano-" "demo"
                (startProc false false "") [demoCluster] eq_refl) as (_ & Hdemo & _).
  pose proof (notExistCheck_returns_iff_listed demoWorld "ceph-nano-" "other"
                (startProc false false "") [demoCluster] eq_refl) as (_ & _ & Hother).
  split.
  - apply Hdemo. exists demoCluster. repeat split; by left.
  - change (fst (notExistCheck demoWorld "ceph-nano-" ("ceph-nano-" ++ "other")
                   (startProc false false "")) = Exit 0).
    rewrite Hother; [ reflexivity | ]. discriminate.
Defined.

Lemma notRunningCheck_passes (W : World) (p n : string) (s : Proc)
    (containers : list types.Container) :
  ContainerList W true = Go.Ok containers ->
  ~ listedIn containers (p ++ n) "exited" ->
  notRunningCheck W p (p ++ n) s = (Ret tt, advance [CallContainerList true true] 0 0 s).
Proof.
  intros Hlist Hin.
  destruct (containerStatus_listed W (p ++ n) "exited" true s containers Hlist)
    as (b & Hrun & Hb).
  unfold notRunningCheck.
  rewrite bind_run, slice_prefixed; cbv beta iota; rewrite bind_run, Hrun; cbv beta iota.
  destruct b; [ destruct Hin; by apply Hb | done ].
Qed.

(** X2: [notRunningCheck] reads the listing with [All].  When it shows the
    name in state [exited] the command ends with "is not running" and status
    0; in every other case, a container in any other state or no container of
    that name, the check returns without a word. *)
Theorem notRunningCheck_exits_iff_exited (W : World) (p n : string) (s : Proc)
    (containers : list types.Container) :
  ContainerList W true = Go.Ok containers ->
  (listedIn containers (p ++ n) "exited" ->
   notRunningCheck W p (p ++ n) s
   = (Exit 0,
      advance [CallContainerList true true;
               printed ("Cluster " ++ n ++ " is not running.")] 0 0 s))
  /\ (~ listedIn containers (p ++ n) "exited" ->
      notRunningCheck W p (p ++ n) s
      = (Ret tt, advance [CallContainerList true true] 0 0 s)).
Proof.
  intros Hlist. split; [ | by apply notRunningCheck_passes ].
  destruct (containerStatus_listed W (p ++ n) "exited" true s containers Hlist)
    as (b & Hrun & Hb).
  intros Hin. unfold notRunningCheck.
  rewrite bind_run, slice_prefixed. cbv beta iota. rewrite bind_run, Hrun. cbv beta iota.
  apply Hb in Hin as ->. step @run_Println. unfold osExit. by rewrite advance_advance.
Qed.

Lemma notRunningCheck_exits_iff_exited_witness :
  fst (notRunningCheck mixedWorld "ceph-nano-" "ceph-nano-old" (startProc false false ""))
  = Exit 0
  /\ fst (notRunningCheck mixedWorld "ceph-nano-" "ceph-nano-fresh" (startProc false false ""))
     = Ret tt.
Proof.
  pose proof (notRunningCheck_exits_iff_exited mixedWorld "ceph-nano-" "old"
                (startProc false false "") [demoCluster; createdCluster; stoppedCluster]
                eq_refl) as (Hold & _).
  pose proof (notRunningCheck_exits_iff_exited mixedWorld "ceph-nano-" "fresh"
                (startProc false false "") [demoCluster; createdCluster; stoppedCluster]
                eq_refl) as (_ & Hfresh).
  split.
  - change (fst (notRunningCheck mixedWorld "ceph-nano-" ("ceph-nano-" ++ "old")
                   (startProc false false "")) = Exit 0).
    rewrite Hold; [ reflexivity | ].
    exists stoppedCluster. repeat split; [ right; right; by left | by left ].
  - change (fst (notRunningCheck mixedWorld "ceph-nano-" ("ceph-nano-" ++ "fresh")
                   (startProc false false "")) = Ret tt).
    rewrite Hfresh; [ reflexivity | ].
    intros (c & Hc & Hname & Hstate).
    destruct Hc as [<- | [<- | [<- | []]]]; cbn in Hname, Hstate;
      [ discriminate | discriminate | ].
    destruct Hname as [Hname | []]. discriminate.
Defined.

(** X3: when the engine cannot list its containers, every command that
    starts with a listing ends there: the engine's error goes to standard
    error, the status is 1, and nothing else has been asked of the engine. *)
Theorem listing_failure_is_fatal (W : World) (p n err : string) (rest : list string)
    (s : Proc) :
  (ContainerList W false = Go.Err err ->
   let fatal := (Exit 1, advance [CallContainerList false true; logged err] 0 0 s) in
   notExistCheck W p (p ++ n) s = fatal
   /\ statusNano W p (n :: rest) s = fatal
   /\ (IamSure s = true -> purgeNano W p (n :: rest) s = fatal))
  /\ (ContainerList W true = Go.Err err ->
      let fatal := (Exit 1, advance [CallContainerList true true; logged err] 0 0 s) in
      notRunningCheck W p (p ++ n) s = fatal
      /\ showNanoClusters W p s = fatal).
Proof.
  split; intros Hlist fatal; subst fatal.
  - assert (Hcheck : forall A (k : unit -> M A),
              (notExistCheck W p (p ++ n) ≫= k) s
              = (Exit 1, advance [CallContainerList false true; logged err] 0 0 s)).
    { intros A k. rewrite bind_run. unfold notExistCheck.
      rewrite bind_run, slice_prefixed. cbv beta iota.
      by rewrite (containerStatus_unreadable W (p ++ n) "running" err false s Hlist). }
    split; [ | split ].
    + unfold notExistCheck. rewrite bind_run, slice_prefixed. cbv beta iota.
      apply (containerStatus_unreadable W (p ++ n) "running" err false s Hlist).
    + unfold statusNano. rewrite bind_run. unfold index at 1. cbn [lookup list_lookup].
      unfold mret at 1, M_ret at 1. cbv beta iota. apply Hcheck.
    + intros Hsure. unfold purgeNano. rewrite bind_run. unfold index at 1.
      cbn [lookup list_lookup]. unfold mret at 1, M_ret at 1. cbv beta iota.
      rewrite bind_run, slice_prefixed. cbv beta iota.
      rewrite bind_run. unfold gets at 1. cbv beta iota. rewrite Hsure. cbn [negb].
      rewrite bind_run. unfold mret at 1, M_ret at 1. cbv beta iota. apply Hcheck.
  - split.
    + unfold notRunningCheck. rewrite bind_run, slice_prefixed. cbv beta iota.
      apply (containerStatus_unreadable W (p ++ n) "exited" err true s Hlist).
    + unfold showNanoClusters. rewrite bind_run, run_callContainerList, Hlist.
      cbv beta iota. by rewrite run_logFatal, advance_advance.
Qed.

Lemma listing_failure_is_fatal_witness :
  statusNano downWorld "ceph-nano-" ["demo"] (startProc false false "")
  = (Exit 1,
     advance [CallContainerList false true; logged "Cannot connect to the Docker daemon"]
       0 0 (startProc false false ""))
  /\ fst (showNanoClusters downWorld "ceph-nano-" (startProc false false "")) = Exit 1.
Proof.
  destruct (listing_failure_is_fatal downWorld "ceph-nano-" "demo"
              "Cannot connect to the Docker daemon" [] (startProc false false ""))
    as (Hfalse & Htrue).
  destruct (Hfalse eq_refl) as (_ & Hstatus & _).
  destruct (Htrue eq_refl) as (_ & Hshow).
  split; [ exact Hstatus | by rewrite Hshow ].
Defined.

(** ** Status and purge as compositions *)

Lemma run_index_head {A : Type} (x : A) (l : list A) (s : Proc) :
  index (x :: l) 0 s = (Ret x, s).
Proof. reflexivity. Qed.

Lemma run_gets {A : Type} (f : Proc -> A) (s : Proc) : gets f s = (Ret (f s), s).
Proof. reflexivity. Qed.

Lemma run_callContainerInspect (W : World) (name : string) (s : Proc) :
  callContainerInspect W name s
  = (Ret (ContainerInspect W name), advance [CallContainerInspect name] 0 0 s).
Proof. reflexivity. Qed.

Lemma listing_touches_nothing (evs : list Event) :
  Forall (fun e => e = CallContainerList false true) evs ->
  List.filter touchesCluster evs = [].
Proof.
  induction 1 as [| e evs -> _ IH]; [ done | ]. cbn. exact IH.
Qed.

(** [purgeNano] with the confirmation flag, up to the existence check. *)
Lemma purgeNano_confirmed (W : World) (p n : string) (rest : list string) (s : Proc) :
  IamSure s = true ->
  purgeNano W p (n :: rest) s
  = (notExistCheck W p (p ++ n) ≫= fun _ =>
     Println ("Purging cluster " ++ n ++ "...") ≫= fun _ =>
     removeContainer W (p ++ n)) s.
Proof.
  intros Hsure. unfold purgeNano. rewrite bind_run, run_index_head. cbv beta iota.
  rewrite bind_run, slice_prefixed. cbv beta iota.
  rewrite bind_run, run_gets. cbv beta iota. rewrite Hsure. cbn [negb].
  rewrite bind_run. unfold mret at 1, M_ret at 1. cbv beta iota. reflexivity.
Qed.

(** X4: [statusNano] on a name that the listing without [All] shows neither
    as running nor as exited ends with status 0 after the two listings.  On a
    name that passes both checks it has asked for nothing but two listings
    when it enters [echoInfo]. *)
Theorem statusNano_checks_first (W : World) (p n : string) (rest : list string)
    (s : Proc) (containers : list types.Container) :
  ContainerList W false = Go.Ok containers ->
  (~ listedIn containers (p ++ n) "running" ->
   ~ listedIn containers (p ++ n) "exited" ->
   statusNano W p (n :: rest) s
   = (Exit 0,
      advance [CallContainerList false true; CallContainerList false true;
               printed ("Cluster " ++ n ++ " does not exist yet.")] 0 0 s))
  /\ (forall everything,
        listedIn containers (p ++ n) "running" ->
        ContainerList W true = Go.Ok everything ->
        ~ listedIn everything (p ++ n) "exited" ->
        statusNano W p (n :: rest) s
        = echoInfo W (p ++ n)
            (advance [CallContainerList false true; CallContainerList true true] 0 0 s)).
Proof.
  intros Hlist. split.
  - intros Hrun Hex. unfold statusNano. rewrite bind_run, run_index_head. cbv beta iota.
    by rewrite bind_run, (notExistCheck_unlisted W p n s containers Hlist Hrun Hex).
  - intros everything Hrun Hall Hex. unfold statusNano.
    rewrite bind_run, run_index_head. cbv beta iota.
    destruct (containerStatus_listed W (p ++ n) "running" false s containers Hlist)
      as (b & Hstatus & Hb).
    apply Hb in Hrun as ->.
    rewrite bind_run. unfold notExistCheck at 1.
    rewrite bind_run, slice_prefixed. cbv beta iota.
    rewrite bind_run, Hstatus. cbv beta iota. cbn [negb].
    unfold mret at 1, M_ret at 1. cbv beta iota.
    rewrite bind_run.
    rewrite (notRunningCheck_passes W p n
               (advance [CallContainerList false true] 0 0 s) everything Hall Hex).
    cbv beta iota. by rewrite advance_advance.
Qed.

Lemma statusNano_checks_first_witness :
  statusNano demoWorld "ceph-nano-" ["other"] (startProc false false "")
  = (Exit 0,
     advance [CallContainerList false true; CallContainerList false true;
              printed "Cluster other does not exist yet."] 0 0 (startProc false false ""))
  /\ statusNano demoWorld "ceph-nano-" ["demo"] (startProc false false "")
     = echoInfo demoWorld "ceph-nano-demo"
         (advance [CallContainerList false true; CallContainerList true true] 0 0
            (startProc false false "")).
Proof.
  destruct (statusNano_checks_first demoWorld "ceph-nano-" "other" []
              (startProc false false "") [demoCluster] eq_refl) as (Hother & _).
  destruct (statusNano_checks_first demoWorld "ceph-nano-" "demo" []
              (startProc false false "") [demoCluster] eq_refl) as (_ & Hdemo).
  split.
  - apply Hother; intros (c & [<- | []] & [Hname | []] & _); discriminate.
  - apply (Hdemo [demoCluster]).
    + exists demoCluster. repeat split; by left.
    + reflexivity.
    + intros (c & [<- | []] & _ & Hstate). discriminate.
Defined.

(** X5: [purgeNano] with the confirmation flag on a name that is not listed
    ends with status 0 after the two listings: with or without the
    delete-all flag it inspects nothing and removes nothing. *)
Theorem purgeNano_absent_cluster (W : World) (p n : string) (rest : list string)
    (s : Proc) (containers : list types.Container) :
  IamSure s = true ->
  ContainerList W false = Go.Ok containers ->
  ~ listedIn containers (p ++ n) "running" ->
  ~ listedIn containers (p ++ n) "exited" ->
  purgeNano W p (n :: rest) s
  = (Exit 0,
     advance [CallContainerList false true; CallContainerList false true;
              printed ("Cluster " ++ n ++ " does not exist yet.")] 0 0 s).
Proof.
  intros Hsure Hlist Hrun Hex. rewrite (purgeNano_confirmed W p n rest s Hsure).
  by rewrite bind_run, (notExistCheck_unlisted W p n s containers Hlist Hrun Hex).
Qed.

Lemma purgeNano_absent_cluster_witness :
  purgeNano demoWorld "ceph-nano-" ["other"] (startProc true true "ceph/daemon")
  = (Exit 0,
     advance [CallContainerList false true; CallContainerList false true;
              printed "Cluster other does not exist yet."] 0 0
       (startProc true true "ceph/daemon")).
Proof.
  apply (purgeNano_absent_cluster demoWorld "ceph-nano-" "other" []
           (startProc true true "ceph/daemon") [demoCluster] eq_refl eq_refl);
    intros (c & [<- | []] & [Hname | []] & _); discriminate.
Defined.

(** X6: [purgeNano] with the confirmation flag and without the delete-all
    flag, on a listed cluster, returns after one call that touches the
    cluster, the removal of the container with its volumes, forced.  It does
    not inspect the container, removes no image and leaves the global
    [ImageName] as it was. *)
Theorem purgeNano_container_only (W : World) (p n : string) (rest : list string)
    (s : Proc) (containers : list types.Container) :
  IamSure s = true -> DeleteAll s = false ->
  ContainerList W false = Go.Ok containers ->
  listedIn containers (p ++ n) "running" \/ listedIn containers (p ++ n) "exited" ->
  exists evs s',
    purgeNano W p (n :: rest) s = (Ret tt, s')
    /\ trace s' = (trace s ++ evs)%list
    /\ List.filter touchesCluster evs
       = [CallContainerRemove (p ++ n)
            {| types.RemoveLinks := false; types.RemoveVolumes := true;
               types.Force := true |}]
    /\ ImageName s' = ImageName s.
Proof.
  intros Hsure Hall Hlist Hlisted. rewrite (purgeNano_confirmed W p n rest s Hsure).
  destruct (notExistCheck_listed W p n s containers Hlist Hlisted) as (evs & Hcheck & Hevs).
  rewrite bind_run, Hcheck. cbv beta iota. step @run_Println. rewrite advance_advance.
  unfold removeContainer. rewrite bind_run, run_gets. cbv beta iota.
  change (DeleteAll (advance _ _ _ s)) with (DeleteAll s). rewrite Hall.
  unfold callContainerRemove, gets, emit, mbind, M_bind, mret, M_ret.
  cbn [DeleteAll ImageName trace advance]. rewrite Hall.
  eexists _, _. split; [ reflexivity | ]. cbn [trace ImageName].
  split; [ by rewrite <- !app_assoc | split; [ | done ] ].
  rewrite !List.filter_app, (listing_touches_nothing evs Hevs). reflexivity.
Qed.

Lemma purgeNano_container_only_witness :
  exists evs s',
    purgeNano demoWorld "ceph-nano-" ["demo"] (startProc true false "ceph/daemon")
    = (Ret tt, s')
    /\ trace s' = evs
    /\ List.filter touchesCluster evs
       = [CallContainerRemove "ceph-nano-demo"
            {| types.RemoveLinks := false; types.RemoveVolumes := true;
               types.Force := true |}]
    /\ ImageName s' = "ceph/daemon".
Proof.
  apply (purgeNano_container_only demoWorld "ceph-nano-" "demo" []
           (startProc true false "ceph/daemon") [demoCluster] eq_refl eq_refl eq_refl).
  left. exists demoCluster. repeat split; by left.
Defined.

(** X7: [purgeNano] with both flags inspects the container before it
    removes anything.  When that inspection fails, the command ends through
    [log.Fatal] with the engine's error and status 1, and neither the
    container nor an image has been removed. *)
Theorem purgeNano_all_needs_inspection (W : World) (p n err : string)
    (rest : list string) (s : Proc) (containers : list types.Container) :
  IamSure s = true -> DeleteAll s = true ->
  ContainerList W false = Go.Ok containers ->
  listedIn containers (p ++ n) "running" \/ listedIn containers (p ++ n) "exited" ->
  ContainerInspect W (p ++ n) = Go.Err err ->
  exists evs,
    purgeNano W p (n :: rest) s
    = (Exit 1,
       advance (evs ++ [printed ("Purging cluster " ++ n ++ "...");
                        CallContainerInspect (p ++ n); logged err])%list 0 0 s)
    /\ Forall (fun e => e = CallContainerList false true) evs.
Proof.
  intros Hsure Hall Hlist Hlisted Hinspect.
  rewrite (purgeNano_confirmed W p n rest s Hsure).
  destruct (notExistCheck_listed W p n s containers Hlist Hlisted) as (evs & Hcheck & Hevs).
  exists evs. split; [ | done ].
  rewrite bind_run, Hcheck. cbv beta iota. step @run_Println. rewrite advance_advance.
  unfold removeContainer. rewrite bind_run, run_gets. cbv beta iota.
  change (DeleteAll (advance _ _ _ s)) with (DeleteAll s). rewrite Hall.
  rewrite !bind_run. unfold dockerInspect. rewrite bind_run, run_callContainerInspect.
  cbv beta iota. rewrite Hinspect. rewrite run_logFatal, !advance_advance.
  cbv beta iota. by rewrite <- !app_assoc.
Qed.

Lemma purgeNano_all_needs_inspection_witness :
  purgeNano brokenInspectWorld "ceph-nano-" ["demo"] (startProc true true "ceph/daemon")
  = (Exit 1,
     advance [CallContainerList false true; printed "Purging cluster demo...";
              CallContainerInspect "ceph-nano-demo"; logged "No such container"] 0 0
       (startProc true true "ceph/daemon")).
Proof.
  destruct (purgeNano_all_needs_inspection brokenInspectWorld "ceph-nano-" "demo"
              "No such container" [] (startProc true true "ceph/daemon") [demoCluster]
              eq_refl eq_refl eq_refl) as (evs & Hrun & _).
  - left. exists demoCluster. repeat split; by left.
  - reflexivity.
  - reflexivity.
Defined.

(** ** Fields of an inspected container *)

Lemma string_app_assoc (a b c : string) : (a ++ b) ++ c = a ++ b ++ c.
Proof.
  induction a as [| x a IH]; [ done | ].
  change (String x ((a ++ b) ++ c) = String x (a ++ b ++ c)). by rewrite IH.
Qed.

Lemma string_app_nil_r (a : string) : a ++ "" = a.
Proof.
  induction a as [| x a IH]; [ done | ].
  change (String x (a ++ "") = String x a). by rewrite IH.
Qed.

Lemma HasPrefix_single (c x : ascii) (r : string) :
  Go.HasPrefix (String x r) (String c "") = Ascii.eqb c x.
Proof. cbn. destruct r; apply andb_true_r. Qed.

Lemma splitFrom_plain (c : ascii) (b : string) :
  hasByte c b = false ->
  forall cur, Go.splitFrom (String c "") b 0 cur = [cur ++ b].
Proof.
  induction b as [| x b IH]; intros Hno cur.
  - by rewrite string_app_nil_r.
  - cbn in Hno. apply orb_false_iff in Hno as [Hx Hb].
    cbn [Go.splitFrom]. rewrite HasPrefix_single, Hx.
    rewrite (IH Hb). by rewrite string_app_assoc.
Qed.

Lemma splitFrom_at_separator (c : ascii) (a b : string) :
  hasByte c a = false ->
  forall cur,
    Go.splitFrom (String c "") (a ++ String c b) 0 cur
    = (cur ++ a) :: Go.splitFrom (String c "") b 0 "".
Proof.
  induction a as [| x a IH]; intros Hno cur.
  - change ("" ++ String c b) with (String c b).
    cbn [Go.splitFrom]. rewrite HasPrefix_single, Ascii.eqb_refl.
    by rewrite string_app_nil_r.
  - cbn in Hno. apply orb_false_iff in Hno as [Hx Ha].
    change (String x a ++ String c b) with (String x (a ++ String c b)).
    cbn [Go.splitFrom]. rewrite HasPrefix_single, Hx.
    rewrite (IH Ha). by rewrite string_app_assoc.
Qed.

Lemma splitFrom_nonempty (sep s : string) :
  forall skip cur, exists piece pieces, Go.splitFrom sep s skip cur = piece :: pieces.
Proof.
  induction s as [| x s IH]; intros skip cur; cbn [Go.splitFrom]; [ by eexists _, _ | ].
  destruct skip as [| k]; [ | apply IH ].
  destruct (Go.HasPrefix (String x s) sep); [ by eexists _, _ | apply IH ].
Qed.

Lemma dockerInspect_port (W : World) (name : string) (s : Proc)
    (inspect : types.ContainerJSON) (key value : string) (rest : list string) :
  ContainerInspect W name = Go.Ok inspect ->
  types.Env inspect = (key ++ "=" ++ value) :: rest ->
  hasByte "="%char key = false -> hasByte "="%char value = false ->
  dockerInspect W name "PortBindings" s
  = (Ret value, advance [CallContainerInspect name] 0 0 s).
Proof.
  intros Hinspect Henv Hkey Hvalue. unfold dockerInspect.
  rewrite bind_run, run_callContainerInspect, Hinspect. cbv beta iota.
  change (String.eqb "PortBindings" "Binds") with false.
  change (String.eqb "PortBindings" "PortBindings") with true. cbv iota.
  rewrite Henv, bind_run, run_index_head. cbv beta iota.
  unfold Go.Split.
  change (key ++ "=" ++ value) with (key ++ String "="%char value).
  rewrite (splitFrom_at_separator "="%char key value Hkey).
  by rewrite (splitFrom_plain "="%char value Hvalue).
Qed.

Lemma dockerInspect_bind (W : World) (name : string) (s : Proc)
    (inspect : types.ContainerJSON) (src dst : string) (rest : list string) :
  ContainerInspect W name = Go.Ok inspect ->
  types.Binds inspect = (src ++ ":" ++ dst) :: rest ->
  hasByte ":"%char src = false ->
  dockerInspect W name "Binds" s = (Ret src, advance [CallContainerInspect name] 0 0 s).
Proof.
  intros Hinspect Hbinds Hsrc. unfold dockerInspect.
  rewrite bind_run, run_callContainerInspect, Hinspect. cbv beta iota.
  change (String.eqb "Binds" "Binds") with true. cbv iota.
  rewrite Hbinds, bind_run, run_index_head. cbv beta iota.
  unfold Go.Split.
  change (src ++ ":" ++ dst) with (src ++ String ":"%char dst).
  by rewrite (splitFrom_at_separator ":"%char src dst Hsrc).
Qed.

Lemma upTo_plain (c : ascii) (b : string) : hasByte c b = false -> upTo c b = b.
Proof.
  induction b as [| x b IH]; [ done | ]. cbn. intros Hno.
  apply orb_false_iff in Hno as [-> Hb]. by rewrite (IH Hb).
Qed.

Lemma splitFrom_first (c : ascii) (b : string) :
  forall cur,
    exists pieces, Go.splitFrom (String c "") b 0 cur = (cur ++ upTo c b) :: pieces.
Proof.
  induction b as [| x b IH]; intros cur.
  - exists []. by rewrite string_app_nil_r.
  - cbn [Go.splitFrom upTo]. rewrite HasPrefix_single.
    destruct (Ascii.eqb c x).
    + eexists. by rewrite string_app_nil_r.
    + destruct (IH (cur ++ String x "")) as [pieces ->].
      exists pieces. by rewrite string_app_assoc.
Qed.

(** X8: what [dockerInspect] reads from an inspected container.  For
    ["PortBindings"] it is, of the first environment entry [KEY=REST], the
    part of [REST] before its first ["="]: all of it, the value, when there is
    no ["="] in it, and [b] for [A=b=c].  For ["Binds"] it is the host path of
    the first bind, the part before the first colon, whatever follows; for
    any other pattern it is the image reference. *)
Theorem dockerInspect_reads_fields (W : World) (name : string) (s : Proc)
    (inspect : types.ContainerJSON) :
  ContainerInspect W name = Go.Ok inspect ->
  let s' := advance [CallContainerInspect name] 0 0 s in
  (forall key value rest,
      types.Env inspect = (key ++ "=" ++ value) :: rest ->
      hasByte "="%char key = false ->
      dockerInspect W name "PortBindings" s = (Ret (upTo "="%char value), s')
      /\ (hasByte "="%char value = false -> upTo "="%char value = value))
  /\ (forall src dst rest,
        types.Binds inspect = (src ++ ":" ++ dst) :: rest ->
        hasByte ":"%char src = false ->
        dockerInspect W name "Binds" s = (Ret src, s'))
  /\ (forall pattern,
        pattern <> "Binds" -> pattern <> "PortBindings" ->
        dockerInspect W name pattern s = (Ret (types.Image inspect), s')).
Proof.
  intros Hinspect s'. split; [ | split ].
  - intros key value rest Henv Hkey. split; [ | apply upTo_plain ].
    unfold dockerInspect.
    rewrite bind_run, run_callContainerInspect, Hinspect. cbv beta iota.
    change (String.eqb "PortBindings" "Binds") with false.
    change (String.eqb "PortBindings" "PortBindings") with true. cbv iota.
    rewrite Henv, bind_run, run_index_head. cbv beta iota.
    unfold Go.Split.
    change (key ++ "=" ++ value) with (key ++ String "="%char value).
    rewrite (splitFrom_at_separator "="%char key value Hkey).
    by destruct (splitFrom_first "="%char value "") as [pieces ->].
  - intros src dst rest Hbinds Hsrc.
    by apply (dockerInspect_bind W name s inspect src dst rest).
  - intros pattern Hbinds Hport. unfold dockerInspect.
    rewrite bind_run, run_callContainerInspect, Hinspect. cbv beta iota.
    apply String.eqb_neq in Hbinds, Hport. by rewrite Hbinds, Hport.
Qed.

Lemma dockerInspect_reads_fields_witness :
  fst (dockerInspect demoWorld "ceph-nano-demo" "PortBindings" (startProc false false ""))
  = Ret "8000"
  /\ fst (dockerInspect optionsWorld "ceph-nano-demo" "PortBindings"
            (startProc false false ""))
     = Ret "debug"
  /\ fst (dockerInspect demoWorld "ceph-nano-demo" "Binds" (startProc false false ""))
     = Ret "/tmp/demo"
  /\ fst (dockerInspect demoWorld "ceph-nano-demo" "image" (startProc false false ""))
     = Ret "img:v1".
Proof.
  destruct (dockerInspect_reads_fields demoWorld "ceph-nano-demo" (startProc false false "")
              {| types.Binds := ["/tmp/demo:/tmp"]; types.Env := ["RGW_PORT=8000"];
                 types.Image := "img:v1" |} eq_refl) as (Hport & Hbinds & Himage).
  destruct (dockerInspect_reads_fields optionsWorld "ceph-nano-demo"
              (startProc false false "")
              {| types.Binds := ["/tmp/demo:/tmp"];
                 types.Env := ["CEPH_DAEMON_OPTS=debug=1"];
                 types.Image := "img:v1" |} eq_refl) as (Hoption & _).
  split; [ | split; [ | split ] ].
  - by rewrite (proj1 (Hport "RGW_PORT" "8000" [] eq_refl eq_refl)).
  - by rewrite (proj1 (Hoption "CEPH_DAEMON_OPTS" "debug=1" [] eq_refl eq_refl)).
  - by rewrite (Hbinds "/tmp/demo" "/tmp" [] eq_refl eq_refl).
  - rewrite (Himage "image"); [ done | discriminate | discriminate ].
Defined.

(** X9: the bounds [dockerInspect] relies on.  Without an environment entry,
    or with a first entry that has no ["="], the ["PortBindings"] lookup
    panics with an index out of range; without a bind the ["Binds"] lookup
    panics; with a bind it always returns, since splitting gives at least one
    piece. *)
Theorem dockerInspect_bounds (W : World) (name : string) (s : Proc)
    (inspect : types.ContainerJSON) :
  ContainerInspect W name = Go.Ok inspect ->
  let s' := advance [CallContainerInspect name] 0 0 s in
  (types.Env inspect = [] ->
   dockerInspect W name "PortBindings" s = (Panic "index out of range", s'))
  /\ (forall entry rest,
        types.Env inspect = entry :: rest -> hasByte "="%char entry = false ->
        dockerInspect W name "PortBindings" s = (Panic "index out of range", s'))
  /\ (types.Binds inspect = [] ->
      dockerInspect W name "Binds" s = (Panic "index out of range", s'))
  /\ (types.Binds inspect <> [] ->
      exists path, dockerInspect W name "Binds" s = (Ret path, s')).
Proof.
  intros Hinspect s'.
  assert (Hport : dockerInspect W name "PortBindings" s
                  = (env0 ← index (types.Env inspect) 0;
                     index (Go.Split env0 "=") 1) s').
  { unfold dockerInspect.
    by rewrite bind_run, run_callContainerInspect, Hinspect. }
  assert (Hbinds : dockerInspect W name "Binds" s
                   = (bind0 ← index (types.Binds inspect) 0;
                      index (Go.Split bind0 ":") 0) s').
  { unfold dockerInspect.
    by rewrite bind_run, run_callContainerInspect, Hinspect. }
  split; [ | split; [ | split ] ].
  - intros Henv. by rewrite Hport, Henv.
  - intros entry rest Henv Hno. rewrite Hport, Henv, bind_run, run_index_head.
    cbv beta iota. unfold Go.Split.
    by rewrite (splitFrom_plain "="%char entry Hno).
  - intros Hnone. by rewrite Hbinds, Hnone.
  - intros Hsome. rewrite Hbinds.
    destruct (types.Binds inspect) as [| bind0 rest]; [ done | ].
    rewrite bind_run, run_index_head. cbv beta iota. unfold Go.Split.
    destruct (splitFrom_nonempty ":" bind0 0 "") as (piece & pieces & ->).
    by exists piece.
Qed.

Lemma dockerInspect_bounds_witness :
  fst (dockerInspect bareWorld "ceph-nano-bare" "PortBindings" (startProc false false ""))
  = Panic "index out of range"
  /\ fst (dockerInspect bareWorld "ceph-nano-bare" "Binds" (startProc false false ""))
     = Panic "index out of range"
  /\ fst (dockerInspect bareWorld "ceph-nano-word" "PortBindings" (startProc false false ""))
     = Panic "index out of range"
  /\ fst (dockerInspect bareWorld "ceph-nano-word" "Binds" (startProc false false ""))
     = Ret "/tmp/demo".
Proof.
  destruct (dockerInspect_bounds bareWorld "ceph-nano-bare" (startProc false false "")
              {| types.Binds := []; types.Env := []; types.Image := "img:v1" |} eq_refl)
    as (Hnoenv & _ & Hnobind & _).
  destruct (dockerInspect_bounds bareWorld "ceph-nano-word" (startProc false false "")
              {| types.Binds := ["/tmp/demo"]; types.Env := ["DEBUG"];
                 types.Image := "img:v1" |} eq_refl)
    as (_ & Hword & _ & _).
  split; [ | split; [ | split ] ].
  - by rewrite (Hnoenv eq_refl).
  - by rewrite (Hnobind eq_refl).
  - by rewrite (Hword "DEBUG" [] eq_refl eq_refl).
  - reflexivity.
Defined.

(** ** Keys read from the container *)

Lemma run_callExecCreate (W : World) (name : string) (cmd : list string) (s : Proc) :
  callExecCreate W name cmd s
  = (Ret (ContainerExecCreate W name cmd), advance [CallExecCreate name cmd] 0 0 s).
Proof. reflexivity. Qed.

Lemma run_callExecAttach (W : World) (id : string) (s : Proc) :
  callExecAttach W id s
  = (Ret (ContainerExecAttach W id), advance [CallExecAttach id] 0 0 s).
Proof. reflexivity. Qed.

Lemma execContainer_framed (W : World) (name : string) (cmd : list string) (s : Proc)
    (id : string) (output : list Byte.byte) :
  ContainerExecCreate W name cmd = Go.Ok id ->
  ContainerExecAttach W id = Go.Ok (Go.Ok output) ->
  output = [] \/ (8 <= List.length output)%nat ->
  execContainer W name cmd s
  = (Ret (drop 8 output), advance [CallExecCreate name cmd; CallExecAttach id] 0 0 s).
Proof.
  intros Hcreate Hattach Hlen. unfold execContainer.
  rewrite bind_run, run_callExecCreate, Hcreate. cbv beta iota.
  rewrite bind_run, run_callExecAttach, Hattach. cbv beta iota.
  rewrite advance_advance. destruct Hlen as [-> | Hlen]; [ done | ].
  unfold Go.bytesFrom.
  destruct (Nat.leb_spec 8 (List.length output)) as [_ | Hlt]; [ | lia ].
  destruct output; cbn in *; [ lia | done ].
Qed.

(** X10: [getAwsKey] runs [cat /nano_user_details] in the container, hands
    the output without its 8-byte frame header to the JSON decoder and
    returns the first key pair only.  When the decoder finds no pair, as for
    an empty output, it panics with an index out of range. *)
Theorem getAwsKey_first_pair (W : World) (name : string) (s : Proc) (id : string)
    (output : list Byte.byte) :
  ContainerExecCreate W name ["cat"; "/nano_user_details"] = Go.Ok id ->
  ContainerExecAttach W id = Go.Ok (Go.Ok output) ->
  output = [] \/ (8 <= List.length output)%nat ->
  let s' := advance [CallExecCreate name ["cat"; "/nano_user_details"]; CallExecAttach id]
              0 0 s in
  (forall key others,
      jsonKeys W (drop 8 output) = key :: others ->
      getAwsKey W name s = (Ret (AccessKey key, SecretKey key), s'))
  /\ (jsonKeys W (drop 8 output) = [] ->
      getAwsKey W name s = (Panic "index out of range", s')).
Proof.
  intros Hcreate Hattach Hlen s'.
  assert (Hrun : getAwsKey W name s
                 = (key0 ← index (jsonKeys W (drop 8 output)) 0;
                    mret (AccessKey key0, SecretKey key0)) s').
  { unfold getAwsKey.
    by rewrite bind_run, (execContainer_framed W name _ s id output Hcreate Hattach Hlen). }
  split.
  - intros key others Hkeys. by rewrite Hrun, Hkeys.
  - intros Hkeys. by rewrite Hrun, Hkeys.
Qed.

Lemma getAwsKey_first_pair_witness :
  fst (getAwsKey keysWorld "ceph-nano-demo" (startProc false false "")) = Ret ("AK1", "SK1")
  /\ fst (getAwsKey keysWorld "ceph-nano-idle" (startProc false false ""))
     = Panic "index out of range".
Proof.
  destruct (getAwsKey_first_pair keysWorld "ceph-nano-demo" (startProc false false "")
              "ceph-nano-demo" (frameHeader ++ list_byte_of_string "{...}")%list
              eq_refl eq_refl) as (Hfirst & _); [ right; cbn; lia | ].
  destruct (getAwsKey_first_pair keysWorld "ceph-nano-idle" (startProc false false "")
              "ceph-nano-idle" [] eq_refl eq_refl) as (_ & Hnone); [ by left | ].
  split.
  - by rewrite (Hfirst {| AccessKey := "AK1"; SecretKey := "SK1" |}
                  [{| AccessKey := "AK2"; SecretKey := "SK2" |}] eq_refl).
  - by rewrite (Hnone eq_refl).
Defined.

(** ** The listing *)

Lemma inspectImage_field (W : World) (ImageID dataType : string) (s : Proc) :
  inspectImage W ImageID dataType s
  = (match imageField (ImageInspectWithRaw W ImageID) dataType with
     | Some field => Ret field
     | None => Panic "invalid memory address or nil pointer dereference"
     end,
     advance [CallImageInspect ImageID] 0 0 s).
Proof.
  unfold inspectImage, imageField. rewrite bind_run. unfold callImageInspect.
  step run_emit. unfold mret at 1, M_ret at 1. cbv beta iota.
  destruct (ImageInspectWithRaw W ImageID) as [i | err]; [ | done ].
  destruct (String.eqb dataType "tag");
    [ by destruct (List.length (types.RepoTags i) =? 0)%nat | ].
  destruct (String.eqb dataType "created"); [ done | ].
  destruct (types.ContainerConfig i) as [config |]; [ | done ].
  unfold deref, mbind, M_bind, option_bind, mret, M_ret.
  by destruct (String.length (label (types.Labels config) "RELEASE") =? 0)%nat.
Qed.

Lemma sliceFrom_in_range (str : string) :
  forall low, (low <= String.length str)%nat -> is_Some (Go.sliceFrom str low).
Proof.
  induction str as [| x str IH]; intros [| low] Hlow; cbn in *; try done; [ lia | ].
  apply IH. lia.
Qed.

Lemma slice_in_range (str : string) (low : nat) (s : Proc) :
  (low <= String.length str)%nat ->
  slice str low s = (Ret (dropBytes low str), s).
Proof.
  intros Hlow. unfold slice, dropBytes.
  by destruct (sliceFrom_in_range str low Hlow) as [r ->].
Qed.

Lemma sliceFrom_length (str : string) :
  forall low r,
    Go.sliceFrom str low = Some r -> (String.length r + low = String.length str)%nat.
Proof.
  induction str as [| x str IH]; intros [| low] r; cbn; try done.
  - by intros [= <-].
  - by intros [= <-].
  - intros Hr. apply IH in Hr. lia.
Qed.

Lemma rowName_in_range (p name : string) (s : Proc) :
  (String.length p + 1 <= String.length name)%nat ->
  rowName p name s = (Ret (displayName p name), s).
Proof.
  intros Hlen. unfold rowName, displayName.
  rewrite bind_run, slice_in_range by lia. cbv beta iota.
  apply slice_in_range. unfold dropBytes.
  destruct (sliceFrom_in_range name (String.length p)) as [r Hr]; [ lia | ].
  rewrite Hr. cbn. apply sliceFrom_length in Hr. lia.
Qed.

Lemma rowsOfNames_run (W : World) (p : string) (container : types.Container)
    (names : list string) :
  (7 <= String.length (types.ImageID container))%nat ->
  Forall (fun name =>
            regexpMatchString W p name = true ->
            (String.length p + 1 <= String.length name)%nat) names ->
  forall shown rows s,
    rowsOf W p container names = Some shown ->
    rowsOfNames W p container names rows s
    = (Ret (rows ++ shown)%list, advance (lookupsOf W p container names) 0 0 s).
Proof.
  intros Himage. induction 1 as [| name names Hname _ IH]; intros shown rows s Hshown.
  - injection Hshown as <-. cbn. by rewrite app_nil_r, advance_nil.
  - cbn [rowsOfNames rowsOf lookupsOf flat_map] in *.
    destruct (regexpMatchString W p name) eqn:Hmatch; [ | by rewrite (IH shown) ].
    unfold clusterRow in Hshown.
    destruct (imageField _ "tag") as [tag |] eqn:Htag; [ | done ].
    destruct (imageField _ "created") as [created |] eqn:Hcreated; [ | done ].
    destruct (imageField _ "release") as [release |] eqn:Hrelease; [ | done ].
    cbn in Hshown.
    destruct (rowsOf W p container names) as [more |]; [ | done ].
    injection Hshown as <-.
    rewrite bind_run, slice_in_range by done. cbv beta iota.
    step inspectImage_field. rewrite Htag.
    rewrite bind_run, slice_in_range by done. cbv beta iota.
    step inspectImage_field. rewrite Hcreated.
    rewrite bind_run, slice_in_range by done. cbv beta iota.
    step inspectImage_field. rewrite Hrelease.
    rewrite bind_run, rowName_in_range by auto. cbv beta iota.
    rewrite (IH more) by done. rewrite !advance_advance, <- app_assoc. reflexivity.
Qed.

Lemma rowsOfContainers_run (W : World) (p : string) (containers : list types.Container) :
  Forall (showable W p) containers ->
  forall table rows s,
    tableOf W p containers = Some table ->
    rowsOfContainers W p containers rows s
    = (Ret (rows ++ table)%list,
       advance (flat_map (fun c => lookupsOf W p c (types.Names c)) containers) 0 0 s).
Proof.
  induction 1 as [| c containers [Himage Hnames] _ IH]; intros table rows s Htable.
  - injection Htable as <-. cbn. by rewrite app_nil_r, advance_nil.
  - cbn [rowsOfContainers tableOf flat_map] in *.
    destruct (rowsOf W p c (types.Names c)) as [shown |] eqn:Hshown; [ | done ].
    destruct (tableOf W p containers) as [more |]; [ | done ].
    injection Htable as <-.
    rewrite bind_run, (rowsOfNames_run W p c _ Himage Hnames shown) by done.
    cbv beta iota.
    by rewrite (IH more), advance_advance, <- !app_assoc.
Qed.

Lemma rowsOf_shown (W : World) (p : string) (container : types.Container)
    (names : list string) :
  forall shown,
    rowsOf W p container names = Some shown ->
    List.map (firstn 2) shown
    = flat_map (fun name =>
          if regexpMatchString W p name
          then [[displayName p name; types.State container]] else [])
        names.
Proof.
  induction names as [| name names IH]; intros shown Hshown; cbn [rowsOf flat_map] in *.
  - by injection Hshown as <-.
  - destruct (regexpMatchString W p name); [ | by apply IH ].
    unfold clusterRow in Hshown.
    destruct (imageField _ "tag") as [tag |]; [ | done ].
    destruct (imageField _ "created") as [created |]; [ | done ].
    destruct (imageField _ "release") as [release |]; [ | done ].
    cbn in Hshown.
    destruct (rowsOf W p container names) as [more |]; [ | done ].
    injection Hshown as <-. cbn. by rewrite (IH more).
Qed.

Lemma tableOf_shown (W : World) (p : string) (containers : list types.Container) :
  forall table,
    tableOf W p containers = Some table ->
    List.map (firstn 2) table = shownClusters W p containers.
Proof.
  induction containers as [| c containers IH]; intros table Htable;
    cbn [tableOf shownClusters flat_map] in *.
  - by injection Htable as <-.
  - destruct (rowsOf W p c (types.Names c)) as [shown |] eqn:Hshown; [ | done ].
    destruct (tableOf W p containers) as [more |]; [ | done ].
    injection Htable as <-.
    rewrite List.map_app, (rowsOf_shown W p c _ shown Hshown), (IH more) by done.
    reflexivity.
Qed.

(** X11: [showNanoClusters] lists all containers, makes three image lookups
    for each name that matches the prefix and nothing else, and prints one
    table with one row for each matching name, in the engine's order;
    containers without a matching name give no row.  This is so when every
    image field of every row is returned: each image lookup fails, or its
    answer carries a container config.  The row of an engine name
    ["/" + prefix + n] starts with [n], and when the image of a cluster is
    gone the row is still made, with the not-present sentinel in its three
    image columns.  When the answer on the image of the first cluster carries
    no container config, the release lookup of its row panics on the nil
    pointer: the listing ends there, after the three lookups of that row and
    without a table. *)
Theorem showNanoClusters_rows (W : World) (p : string) (s : Proc) :
  (forall containers table,
      ContainerList W true = Go.Ok containers ->
      Forall (showable W p) containers ->
      tableOf W p containers = Some table ->
      showNanoClusters W p s
      = (Ret tt,
         advance (CallContainerList true true
                  :: flat_map (fun c => lookupsOf W p c (types.Names c)) containers
                  ++ [printed (Render W listingHeaders table)])%list 0 0 s)
      /\ List.map (firstn 2) table = shownClusters W p containers)
  /\ (forall n, displayName p ("/" ++ p ++ n) = n)
  /\ (forall c name err,
        ImageInspectWithRaw W (dropBytes 7 (types.ImageID c)) = Go.Err err ->
        clusterRow W p c name
        = Some [displayName p name; types.State c;
                "image is not present, did you remove it?";
                "image is not present, did you remove it?";
                "image is not present, did you remove it?"])
  /\ (forall c containers name names i,
        ContainerList W true = Go.Ok (c :: containers) ->
        types.Names c = name :: names ->
        regexpMatchString W p name = true ->
        (7 <= String.length (types.ImageID c))%nat ->
        ImageInspectWithRaw W (dropBytes 7 (types.ImageID c)) = Go.Ok i ->
        types.ContainerConfig i = None ->
        tableOf W p (c :: containers) = None
        /\ showNanoClusters W p s
           = (Panic "invalid memory address or nil pointer dereference",
              advance (CallContainerList true true
                       :: replicate 3 (CallImageInspect (dropBytes 7 (types.ImageID c))))
                0 0 s)).
Proof.
  split; [ | split; [ | split ] ].
  - intros containers table Hlist Hshow Htable.
    split; [ | by apply tableOf_shown ].
    unfold showNanoClusters. rewrite bind_run, run_callContainerList, Hlist.
    cbv beta iota.
    rewrite bind_run, (rowsOfContainers_run W p containers Hshow table) by done.
    cbv beta iota. rewrite run_Println, !advance_advance. reflexivity.
  - intros n. unfold displayName, dropBytes.
    pose proof (sliceFrom_add ("/" ++ p ++ n) (String.length p) 1) as Hadd.
    replace (String.length p + 1)%nat with (S (String.length p)) in Hadd by lia.
    assert (Hone : Go.sliceFrom ("/" ++ p ++ n) (S (String.length p)) = Some n)
      by exact (sliceFrom_app p n).
    rewrite Hone in Hadd.
    destruct (Go.sliceFrom ("/" ++ p ++ n) (String.length p)) as [r |];
      cbn in Hadd; [ | done ].
    cbn. by rewrite <- Hadd.
  - intros c name err Herr. unfold clusterRow. by rewrite Herr.
  - intros c containers name names i Hlist Hnames Hmatch Himage Hi Hconfig.
    assert (Hrelease : imageField (Go.Ok i) "release" = None).
    { unfold imageField.
      change (String.eqb "release" "tag") with false.
      change (String.eqb "release" "created") with false. cbv iota.
      by rewrite Hconfig. }
    assert (Htag : is_Some (imageField (Go.Ok i) "tag")).
    { unfold imageField. change (String.eqb "tag" "tag") with true. cbv iota.
      by destruct (List.length (types.RepoTags i) =? 0)%nat. }
    assert (Hcreated : is_Some (imageField (Go.Ok i) "created")).
    { unfold imageField.
      change (String.eqb "created" "tag") with false.
      change (String.eqb "created" "created") with true. done. }
    destruct Htag as [tag Htag]. destruct Hcreated as [created Hcreated].
    split.
    + cbn [tableOf]. rewrite Hnames. cbn [rowsOf]. rewrite Hmatch.
      unfold clusterRow. by rewrite Hi, Htag, Hcreated, Hrelease.
    + unfold showNanoClusters. rewrite bind_run, run_callContainerList, Hlist.
      cbv beta iota. rewrite bind_run. cbn [rowsOfContainers].
      rewrite bind_run, Hnames. cbn [rowsOfNames]. rewrite Hmatch.
      rewrite bind_run, slice_in_range by done. cbv beta iota.
      step inspectImage_field. rewrite Hi, Htag.
      rewrite bind_run, slice_in_range by done. cbv beta iota.
      step inspectImage_field. rewrite Hi, Hcreated.
      rewrite bind_run, slice_in_range by done. cbv beta iota.
      rewrite bind_run, inspectImage_field, Hi, Hrelease.
      by rewrite !advance_advance.
Qed.

Lemma showNanoClusters_rows_witness :
  showNanoClusters nsWorld "ns-" (startProc false false "")
  = (Ret tt,
     advance [CallContainerList true true;
              CallImageInspect "0a1b"; CallImageInspect "0a1b"; CallImageInspect "0a1b";
              printed (Render nsWorld listingHeaders
                         [["a"; "running"; "d1";
                           "unknown image release, are you running an official image?";
                           "2018-03-01T10:00:00Z"]])] 0 0 (startProc false false ""))
  /\ showNanoClusters nsConfiglessWorld "ns-" (startProc false false "")
     = (Panic "invalid memory address or nil pointer dereference",
        advance [CallContainerList true true;
                 CallImageInspect "0a1b"; CallImageInspect "0a1b"; CallImageInspect "0a1b"]
          0 0 (startProc false false "")).
Proof.
  split.
  - apply (proj1 (proj1 (showNanoClusters_rows nsWorld "ns-" (startProc false false ""))
                    [nsCluster; otherContainer] _ eq_refl
                    ltac:(repeat constructor; cbn; intros; first [ lia | discriminate ])
                    eq_refl)).
  - apply (proj2 (proj2 (proj2 (proj2
             (showNanoClusters_rows nsConfiglessWorld "ns-" (startProc false false ""))))
             nsCluster [otherContainer] "/ns-a" [] configlessImage
             eq_refl eq_refl eq_refl ltac:(cbn; lia) eq_refl eq_refl)).
Defined.

(** X12: an image ID shorter than the 7 bytes of ["sha256:"] on a container
    with a matching name makes the listing panic, before any image lookup and
    without a table. *)
Theorem showNanoClusters_short_image_id (W : World) (p : string) (s : Proc)
    (c : types.Container) (containers : list types.Container) (name : string)
    (names : list string) :
  ContainerList W true = Go.Ok (c :: containers) ->
  types.Names c = name :: names ->
  regexpMatchString W p name = true ->
  (String.length (types.ImageID c) < 7)%nat ->
  showNanoClusters W p s
  = (Panic "slice bounds out of range", advance [CallContainerList true true] 0 0 s).
Proof.
  intros Hlist Hnames Hmatch Hshort.
  unfold showNanoClusters. rewrite bind_run, run_callContainerList, Hlist.
  cbv beta iota. rewrite bind_run. cbn [rowsOfContainers].
  rewrite bind_run, Hnames. cbn [rowsOfNames]. rewrite Hmatch, bind_run.
  unfold slice at 1.
  destruct (Go.sliceFrom (types.ImageID c) 7) as [r |] eqn:Hslice; [ | done ].
  apply sliceFrom_length in Hslice. lia.
Qed.

Lemma showNanoClusters_short_image_id_witness :
  showNanoClusters truncatedWorld "ns-" (startProc false false "")
  = (Panic "slice bounds out of range",
     advance [CallContainerList true true] 0 0 (startProc false false "")).
Proof.
  apply (showNanoClusters_short_image_id truncatedWorld "ns-" (startProc false false "")
           {| types.Names := ["/ns-a"]; types.State := "running"; types.ImageID := "0a1b" |}
           [] "/ns-a" [] eq_refl eq_refl eq_refl).
  cbn. lia.
Defined.

(** ** Failures while polling and while choosing the address *)

Lemma grepForSuccess_unreadable (W : World) (name err : string) (s : Proc) :
  ContainerLogs W (logCalls s) name = Go.Err err ->
  grepForSuccess W name s
  = (Exit 1, advance [CallContainerLogs name; logged err] 1 0 s).
Proof.
  intros Hlogs. unfold grepForSuccess.
  rewrite bind_run, run_callContainerLogs, Hlogs. cbv beta iota.
  by rewrite run_logFatal, advance_advance.
Qed.

Lemma pollForSuccess_unreadable (W : World) (name err : string) (n : nat) :
  forall (j : nat) (s : Proc),
    (j < n)%nat ->
    (forall k, (k < j)%nat -> marker W (logCalls s + k) name = Some false) ->
    ContainerLogs W (logCalls s + j) name = Go.Err err ->
    pollForSuccess W name n s
    = (Exit 1,
       advance (idlePolls (CallContainerLogs name) j
                ++ [CallContainerLogs name; logged err])%list (S j) 0 s).
Proof.
  induction n as [| n IH]; intros j s Hj Hbefore Hat; [ lia | ].
  cbn [pollForSuccess]. rewrite bind_run. destruct j as [| j].
  - rewrite Nat.add_0_r in Hat. by rewrite (grepForSuccess_unreadable W name err s Hat).
  - rewrite (grepForSuccess_marker W name s false)
      by (rewrite <- (Nat.add_0_r (logCalls s)); apply Hbefore; lia).
    cbv beta iota. unfold timeSleep. rewrite bind_run, run_emit. cbv beta iota.
    rewrite advance_advance.
    rewrite (IH j); rewrite ?logCalls_advance.
    + rewrite advance_advance. f_equal. same_proc.
    + lia.
    + intros k Hk. replace (0 + 1 + logCalls s + k)%nat with (logCalls s + S k)%nat by lia.
      apply Hbefore. lia.
    + by replace (0 + 1 + logCalls s + j)%nat with (logCalls s + S j)%nat by lia.
Qed.

(** X13: a log request that fails ends [cephNanoHealth] at once.  During the
    polling the process exits through [log.Fatal] with the engine's error,
    without a further poll and without the banner; when the 60 polls found no
    marker and the request for the dump fails, the banner is printed but no
    logs are. *)
Theorem cephNanoHealth_log_failure (W : World) (ContainerName : string) (s : Proc) :
  (forall j err,
      (j < 60)%nat ->
      (forall k, (k < j)%nat -> marker W (logCalls s + k) ContainerName = Some false) ->
      ContainerLogs W (logCalls s + j) ContainerName = Go.Err err ->
      cephNanoHealth W ContainerName s
      = (Exit 1,
         advance (idlePolls (CallContainerLogs ContainerName) j
                  ++ [CallContainerLogs ContainerName; logged err])%list (S j) 0 s))
  /\ (forall err,
        (forall k, (k < 60)%nat -> marker W (logCalls s + k) ContainerName = Some false) ->
        ContainerLogs W (logCalls s + 60) ContainerName = Go.Err err ->
        cephNanoHealth W ContainerName s
        = (Exit 1,
           advance (idlePolls (CallContainerLogs ContainerName) 60
                    ++ [printed ("The container " ++ ContainerName
                           ++ " never reached a clean state. Showing the container logs now:");
                        CallContainerLogs ContainerName;
                        logged err])%list 61 0 s)).
Proof.
  split.
  - intros j err Hj Hbefore Hat. unfold cephNanoHealth. rewrite bind_run.
    by rewrite (pollForSuccess_unreadable W ContainerName err (60 - 0) j s).
  - intros err Hnever Hlogs. unfold cephNanoHealth. rewrite bind_run.
    rewrite (pollForSuccess_never W ContainerName (60 - 0) s) by done.
    cbv beta iota. step @run_Println. step run_callContainerLogs.
    rewrite !advance_advance, logCalls_advance.
    replace (0 + (60 - 0) + logCalls s)%nat with (logCalls s + 60)%nat by lia.
    rewrite Hlogs. rewrite run_logFatal, !advance_advance. reflexivity.
Qed.

Lemma cephNanoHealth_log_failure_witness :
  cephNanoHealth vanishingWorld "ceph-nano-demo" (startProc false false "")
  = (Exit 1,
     advance [CallContainerLogs "ceph-nano-demo"; Sleep 1;
              CallContainerLogs "ceph-nano-demo"; Sleep 1;
              CallContainerLogs "ceph-nano-demo"; logged "No such container"] 3 0
       (startProc false false ""))
  /\ fst (cephNanoHealth lateFailureWorld "ceph-nano-demo" (startProc false false ""))
     = Exit 1.
Proof.
  split.
  - apply (proj1 (cephNanoHealth_log_failure vanishingWorld "ceph-nano-demo"
                    (startProc false false "")) 2%nat "No such container").
    + lia.
    + intros k Hk. destruct k as [| [| k]]; [ reflexivity | reflexivity | lia ].
    + reflexivity.
  - rewrite (proj2 (cephNanoHealth_log_failure lateFailureWorld "ceph-nano-demo"
                      (startProc false false "")) "No such container");
      [ reflexivity | | reflexivity ].
    intros k Hk. unfold marker, lateFailureWorld, withContainerLogs. cbn.
    destruct (Nat.leb_spec k 59); [ reflexivity | lia ].
Defined.

Lemma collectIPv4s_unparsable (W : World) (addrs : list net.Addr) (bad : net.Addr) :
  In bad addrs ->
  net.Network bad = "ip+net" ->
  (exists err, ParseCIDR W (net.String_ bad) = Go.Err err) ->
  forall nips, exists msg, collectIPv4s W addrs nips = Go.Err msg.
Proof.
  intros Hin Hnet [err Hparse].
  induction addrs as [| addr rest IH]; intros nips; [ destruct Hin | ].
  cbn [collectIPv4s]. destruct Hin as [-> | Hin].
  - rewrite Hnet, Hparse. by eexists.
  - destruct (String.eqb (net.Network addr) "ip+net"); [ | by apply IH ].
    destruct (ParseCIDR W (net.String_ addr)) as [nip | err']; [ | by eexists ].
    destruct (Go.To4 nip); by apply IH.
Qed.

(** X14: [getInterfaceIPv4s] gives up on the first failure.  When the
    interfaces cannot be read it returns no address and an error that wraps
    the system's; when one [ip+net] address does not parse it returns no
    address at all, although others may be valid IPv4 addresses.
    [cephNanoS3Health] drops the error, and with the empty slice it panics
    with an index out of range instead of reporting it. *)
Theorem getInterfaceIPv4s_failures (W : World) (s : Proc) :
  let s' := advance [CallInterfaceAddrs] 0 0 s in
  (forall err,
      InterfaceAddrs W = Go.Err err ->
      getInterfaceIPv4s W s
      = (Ret ([], Some ("Unable to determine network interface address. " ++ err)), s'))
  /\ (forall addrs bad,
        InterfaceAddrs W = Go.Ok addrs ->
        In bad addrs -> net.Network bad = "ip+net" ->
        (exists err, ParseCIDR W (net.String_ bad) = Go.Err err) ->
        exists msg, getInterfaceIPv4s W s = (Ret ([], Some msg), s'))
  /\ (forall err ContainerName RgwPort,
        fst (getInterfaceIPv4s W s) = Ret ([], err) ->
        cephNanoS3Health W ContainerName RgwPort s = (Panic "index out of range", s')).
Proof.
  intros s'. split; [ | split ].
  - intros err Herr. unfold getInterfaceIPv4s.
    by rewrite bind_run, run_callInterfaceAddrs, Herr.
  - intros addrs bad Haddrs Hin Hnet Hparse. unfold getInterfaceIPv4s.
    rewrite bind_run, run_callInterfaceAddrs, Haddrs. cbv beta iota.
    destruct (collectIPv4s_unparsable W addrs bad Hin Hnet Hparse []) as [msg ->].
    by exists msg.
  - intros err ContainerName RgwPort Hfst.
    destruct (getInterfaceIPv4s_returns W s) as (ips & err' & Hget).
    rewrite Hget in Hfst. cbn [fst] in Hfst. injection Hfst as -> ->.
    unfold cephNanoS3Health. by rewrite bind_run, Hget.
Qed.

Lemma getInterfaceIPv4s_failures_witness :
  (exists msg,
      fst (getInterfaceIPv4s oddMaskWorld (startProc false false "")) = Ret ([], Some msg))
  /\ fst (cephNanoS3Health noInterfacesWorld "ceph-nano-demo" "8000"
            (startProc false false ""))
     = Panic "index out of range".
Proof.
  destruct (getInterfaceIPv4s_failures oddMaskWorld (startProc false false ""))
    as (_ & Hparse & _).
  destruct (getInterfaceIPv4s_failures noInterfacesWorld (startProc false false ""))
    as (Hread & _ & Hpanic).
  split.
  - destruct (Hparse [ipNet "192.168.1.200/24"; ipNet "10.0.0.1/ff00ff00"]
                (ipNet "10.0.0.1/ff00ff00") eq_refl) as [msg Hmsg].
    + right. by left.
    + reflexivity.
    + by exists "invalid CIDR address".
    + exists msg. by rewrite Hmsg.
  - rewrite (Hpanic (Some ("Unable to determine network interface address. "
                           ++ "route ip+net: netlinkrib: too many open files"))
               "ceph-nano-demo" "8000"); [ reflexivity | ].
    by rewrite (Hread "route ip+net: netlinkrib: too many open files" eq_refl).
Defined.

(** ** The port scan, on any host *)

Lemma checkPortInUsed_run (W : World) (port : Z) (s : Proc) :
  (occupied W port
   /\ checkPortInUsed W (Go.Sprint port) s = (Ret false, advance [dialOf port] 0 0 s))
  \/ (free W port
      /\ checkPortInUsed W (Go.Sprint port) s = (Ret true, advance [dialOf port] 0 0 s)).
Proof.
  destruct (DialTimeout W "tcp" (Go.JoinHostPort "0.0.0.0" (Go.Sprint port)) 1)
    as [[] | err] eqn:Hdial.
  - left. split; [ done | by apply checkPortInUsed_occupied ].
  - right. assert (Hfree : free W port) by by exists err.
    split; [ done | by apply checkPortInUsed_free ].
Qed.

Lemma scanPorts_outcome (W : World) (n : nat) :
  forall (i : Z) (s : Proc),
    (scanPorts W n i s = (Ret "notfound", advance (map dialOf (ports i n)) 0 0 s)
     /\ forall k, i <= k < i + Z.of_nat n -> occupied W k)
    \/ exists j,
         (j < n)%nat
         /\ scanPorts W n i s
            = (Ret (Go.Sprint (i + Z.of_nat j)),
               advance (map dialOf (ports i (S j))) 0 0 s)
         /\ free W (i + Z.of_nat j)
         /\ forall k, i <= k < i + Z.of_nat j -> occupied W k.
Proof.
  induction n as [| n IH]; intros i s.
  - left. split; [ by rewrite advance_nil | intros k Hk; lia ].
  - destruct (checkPortInUsed_run W i s) as [[Hocc Hrun] | [Hfree Hrun]].
    + destruct (IH (i + 1) (advance [dialOf i] 0 0 s)) as [[Hscan Hall] | (j & Hj & Hscan & Hfree & Hall)].
      * left. split.
        -- cbn [scanPorts]. rewrite bind_run, Hrun. cbv beta iota.
           by rewrite Hscan, advance_advance.
        -- intros k Hk. destruct (Z.eq_dec k i) as [-> | Hne]; [ done | ].
           apply Hall. lia.
      * right. exists (S j). split; [ lia | ].
        replace (i + Z.of_nat (S j)) with (i + 1 + Z.of_nat j) by lia.
        split; [ | split; [ done | ] ].
        -- cbn [scanPorts]. rewrite bind_run, Hrun. cbv beta iota.
           by rewrite Hscan, advance_advance.
        -- intros k Hk. destruct (Z.eq_dec k i) as [-> | Hne]; [ done | ].
           apply Hall. lia.
    + right. exists 0%nat. replace (i + Z.of_nat 0) with i by lia.
      split; [ lia | split; [ | split; [ done | intros k Hk; lia ] ] ].
      cbn [scanPorts]. by rewrite bind_run, Hrun.
Qed.

(** X15: on every host [generateRGWPortToUse] returns, after at most 101
    connection attempts.  Its answer is either ["notfound"], and then every
    port from 8000 to 8100 accepted the connection, or the decimal text of a
    port of that range whose attempt failed while all lower ports of the
    range accepted; it never names a port outside the range and never tries
    a port beyond the one it returns. *)
Theorem generateRGWPortToUse_outcome (W : World) (s : Proc) :
  (generateRGWPortToUse W s
   = (Ret "notfound", advance (map dialOf (ports 8000 101)) 0 0 s)
   /\ forall k, 8000 <= k <= 8100 -> occupied W k)
  \/ exists k,
       8000 <= k <= 8100
       /\ generateRGWPortToUse W s
          = (Ret (Go.Sprint k),
             advance (map dialOf (ports 8000 (Z.to_nat (k - 8000 + 1)))) 0 0 s)
       /\ free W k
       /\ forall i, 8000 <= i < k -> occupied W i.
Proof.
  unfold generateRGWPortToUse.
  destruct (scanPorts_outcome W (Z.to_nat (8100 + 1 - 8000)) 8000 s)
    as [[Hscan Hall] | (j & Hj & Hscan & Hfree & Hall)].
  - left. split; [ exact Hscan | intros k Hk; apply Hall; lia ].
  - right. exists (8000 + Z.of_nat j). split; [ lia | ].
    split; [ | split; [ done | intros i Hi; apply Hall; lia ] ].
    replace (Z.to_nat (8000 + Z.of_nat j - 8000 + 1)) with (S j) by lia. exact Hscan.
Qed.

(** ** File types *)

Lemma land_type_bits (type perm : Z) :
  0 <= perm < 4096 ->
  Z.land (Z.lor type perm) S_IFMT = Z.land type S_IFMT.
Proof.
  intros Hperm. rewrite Z.land_lor_distr_l.
  assert (Hlow : Z.land perm S_IFMT = 0).
  { rewrite <- (Z.mod_small perm (2 ^ 12)) by lia.
    rewrite <- Z.land_ones by lia. rewrite <- Z.land_assoc.
    change (Z.land (Z.ones 12) S_IFMT) with 0. apply Z.land_0_r. }
  rewrite Hlow. apply Z.lor_0_r.
Qed.

(** X16: [GetFileType] decides by the type bits of the mode that [os.Stat]
    reports, which is the mode of the target when the path is a symbolic
    link: a socket, block device, character device, directory or regular file
    is named whatever its permission, set-id and sticky bits are, and with no
    error; a FIFO gives ["error"] with the not-recognised error.  The error
    is [nil] exactly for the five recognised names, and ["notfound"] is
    answered exactly for a path that does not exist. *)
Theorem GetFileType_by_type_bits (osStat : string -> StatResult)
    (quote : string -> string) (pathname : string) :
  (forall type name perm,
      In (type, name) fileTypes -> 0 <= perm < 4096 ->
      osStat pathname = StatOk (Z.lor type perm) ->
      GetFileType osStat quote pathname = (name, None))
  /\ (forall perm,
        0 <= perm < 4096 ->
        osStat pathname = StatOk (Z.lor S_IFIFO perm) ->
        GetFileType osStat quote pathname
        = ("error",
           Some "only recognize file, directory, socket, block device and character device"))
  /\ (snd (GetFileType osStat quote pathname) = None
      <-> In (fst (GetFileType osStat quote pathname)) (List.map snd fileTypes))
  /\ (fst (GetFileType osStat quote pathname) = "notfound"
      <-> exists err, osStat pathname = StatNotExist err).
Proof.
  split; [ | split; [ | split ] ].
  - intros type name perm Hin Hperm Hstat. unfold GetFileType. rewrite Hstat.
    cbv zeta. rewrite (land_type_bits type perm Hperm).
    cbn in Hin.
    repeat (destruct Hin as [[= <- <-] | Hin]; [ reflexivity | ]). destruct Hin.
  - intros perm Hperm Hstat. unfold GetFileType. rewrite Hstat.
    cbv zeta. by rewrite (land_type_bits S_IFIFO perm Hperm).
  - unfold GetFileType. destruct (osStat pathname) as [mode | err | err]; cbv zeta.
    + repeat match goal with
             | |- context [if ?b then _ else _] => destruct b
             end; cbn; split; intros H; try done; auto 10.
      repeat (destruct H as [H | H]; [ discriminate | ]). destruct H.
    + cbn. split; intros H; [ done | ].
      repeat (destruct H as [H | H]; [ discriminate | ]). destruct H.
    + cbn. split; intros H; [ done | ].
      repeat (destruct H as [H | H]; [ discriminate | ]). destruct H.
  - unfold GetFileType. destruct (osStat pathname) as [mode | err | err]; cbv zeta.
    + repeat match goal with
             | |- context [if ?b then _ else _] => destruct b
             end; cbn; split; intros H; try done; by destruct H.
    + cbn. split; [ by exists err | done ].
    + cbn. split; intros H; [ done | by destruct H ].
Qed.

Lemma GetFileType_by_type_bits_witness :
  GetFileType sampleStat (fun s => s) "/var/lib/ceph" = ("directory", None)
  /\ GetFileType sampleStat (fun s => s) "/usr/bin/sudo" = ("file", None)
  /\ fst (GetFileType sampleStat (fun s => s) "/run/fifo") = "error"
  /\ fst (GetFileType sampleStat (fun s => s) "/nowhere") = "notfound".
Proof.
  destruct (GetFileType_by_type_bits sampleStat (fun s => s) "/var/lib/ceph")
    as (Hdir & _).
  destruct (GetFileType_by_type_bits sampleStat (fun s => s) "/usr/bin/sudo")
    as (Hfile & _).
  destruct (GetFileType_by_type_bits sampleStat (fun s => s) "/run/fifo")
    as (_ & Hfifo & _).
  destruct (GetFileType_by_type_bits sampleStat (fun s => s) "/nowhere")
    as (_ & _ & _ & Hnone).
  split; [ | split; [ | split ] ].
  - apply (Hdir S_IFDIR "directory" 0x1ed); [ cbn; auto 10 | lia | reflexivity ].
  - apply (Hfile S_IFREG "file" 0x9ed); [ cbn; auto 10 | lia | reflexivity ].
  - rewrite (Hfifo 0x1a4); [ reflexivity | lia | reflexivity ].
  - apply Hnone. by exists "no such file or directory".
Defined.

(** ** The registry lookup *)

(** X17: [curlURL] and [curlTestURL] send the same request and differ in the
    failure.  [curlURL] returns the body exactly when [curlTestURL] answers
    [true]; where [curlTestURL] answers [false], [curlURL] ends the process
    with status 1: for a failed request after naming the URL as unreachable,
    for a body that cannot be read with the read error alone. *)
Theorem curlURL_fatal_where_test_is_false (W : World) (url : string) (s : Proc) :
  (fst (curlTestURL W url s) = Ret true
   <-> exists content, fst (curlURL W url s) = Ret content)
  /\ (fst (curlTestURL W url s) = Ret false <-> fst (curlURL W url s) = Exit 1)
  /\ (forall err,
        httpGet W (getCalls s) url = Go.Err err ->
        curlURL W url s
        = (Exit 1,
           advance [HttpGet url; printed ("URL " ++ url ++ " is unreachable.");
                    logged err] 0 1 s))
  /\ (forall response err,
        httpGet W (getCalls s) url = Go.Ok response ->
        net.Body response = Go.Err err ->
        curlURL W url s = (Exit 1, advance [HttpGet url; logged err] 0 1 s))
  /\ (forall response content,
        httpGet W (getCalls s) url = Go.Ok response ->
        net.Body response = Go.Ok content ->
        curlURL W url s = (Ret content, advance [HttpGet url] 0 1 s)).
Proof.
  assert (Hrun : curlURL W url s
                 = match httpGet W (getCalls s) url with
                   | Go.Err err =>
                       (Exit 1,
                        advance [HttpGet url;
                                 printed ("URL " ++ url ++ " is unreachable.");
                                 logged err] 0 1 s)
                   | Go.Ok response =>
                       match net.Body response with
                       | Go.Err err => (Exit 1, advance [HttpGet url; logged err] 0 1 s)
                       | Go.Ok content => (Ret content, advance [HttpGet url] 0 1 s)
                       end
                   end).
  { unfold curlURL. rewrite bind_run, run_callHttpGet. cbv beta iota.
    destruct (httpGet W (getCalls s) url) as [response | err].
    - destruct (net.Body response) as [content | err]; [ done | ].
      by rewrite run_logFatal, advance_advance.
    - step @run_Println. by rewrite run_logFatal, !advance_advance. }
  rewrite curlTestURL_delivered, Hrun. unfold delivered. cbn [fst].
  destruct (httpGet W (getCalls s) url) as [response | err];
    [ destruct (net.Body response) as [content | err] eqn:Hbody | ];
    cbn [fst]; repeat split; intros;
    repeat match goal with
           | H : exists _, _ |- _ => destruct H
           | H : Go.Ok _ = Go.Ok _ |- _ => injection H as <-
           | H : Go.Err _ = Go.Err _ |- _ => injection H as <-
           end;
    try discriminate; try congruence; try (by eexists).
Qed.

(** X18: [pageCount] asks the registry once and answers the number of full
    pages of ten tags: ten times its answer is at most the tag count and
    falls short of it by less than ten, so with fewer than ten tags it is 0.
    When the registry cannot be reached the process ends with status 1. *)
Theorem pageCount_full_pages (W : World) (jsonCount : list Byte.byte -> Z) (s : Proc) :
  (forall response content,
      httpGet W (getCalls s) tagsURL = Go.Ok response ->
      net.Body response = Go.Ok content ->
      0 <= jsonCount content ->
      exists pages,
        pageCount W jsonCount s = (Ret pages, advance [HttpGet tagsURL] 0 1 s)
        /\ 10 * pages <= jsonCount content < 10 * pages + 10)
  /\ (forall err,
        httpGet W (getCalls s) tagsURL = Go.Err err ->
        fst (pageCount W jsonCount s) = Exit 1).
Proof.
  split.
  - intros response content Hget Hbody Hcount.
    exists (Z.quot (jsonCount content) 10). split.
    + unfold pageCount, countTags. rewrite !bind_run. fold tagsURL.
      unfold curlURL. rewrite bind_run, run_callHttpGet, Hget. cbv beta iota.
      by rewrite Hbody.
    + rewrite Z.quot_div_nonneg by lia.
      pose proof (Z.mod_pos_bound (jsonCount content) 10 ltac:(lia)) as Hmod.
      pose proof (Z.div_mod (jsonCount content) 10 ltac:(lia)) as Hdiv. lia.
  - intros err Hget. unfold pageCount, countTags. rewrite !bind_run. fold tagsURL.
    unfold curlURL. rewrite bind_run, run_callHttpGet, Hget. cbv beta iota.
    rewrite bind_run, run_Println. cbv beta iota. by rewrite run_logFatal.
Qed.

Lemma pageCount_full_pages_witness :
  fst (pageCount registryWorld (fun _ => 25) (startProc false false "")) = Ret 2
  /\ fst (pageCount emptyWorld (fun _ => 25) (startProc false false "")) = Exit 1.
Proof.
  destruct (pageCount_full_pages registryWorld (fun _ => 25) (startProc false false ""))
    as (Hpages & _).
  destruct (pageCount_full_pages emptyWorld (fun _ => 25) (startProc false false ""))
    as (_ & Hdown).
  split.
  - destruct (Hpages {| net.StatusCode := 200;
                        net.Body := Go.Ok (list_byte_of_string "{count: 25}") |}
                (list_byte_of_string "{count: 25}") eq_refl eq_refl) as (pages & -> & Hp);
      [ lia | ].
    cbn [fst]. f_equal. lia.
  - apply (Hdown "connection refused"). reflexivity.
Defined.

(** ** The status report *)

Lemma getInterfaceIPv4s_anywhere (W : World) (s s0 : Proc) :
  getInterfaceIPv4s W s0
  = (fst (getInterfaceIPv4s W s), advance [CallInterfaceAddrs] 0 0 s0).
Proof.
  unfold getInterfaceIPv4s. rewrite !bind_run, !run_callInterfaceAddrs. cbv beta iota.
  destruct (InterfaceAddrs W) as [addrs | err]; [ | done ].
  destruct (collectIPv4s W addrs []) as [nips | err]; [ | done ].
  by destruct (Go.Sort (Go.Reverse byLastOctetValue) nips).
Qed.

Lemma cephNanoHealth_returns (W : World) (name : string) (j : nat) (s : Proc) :
  (j < 60)%nat ->
  (forall k, (k < j)%nat -> marker W (logCalls s + k) name = Some false) ->
  marker W (logCalls s + j) name = Some true ->
  cephNanoHealth W name s
  = (Ret tt,
     advance (idlePolls (CallContainerLogs name) j ++ [CallContainerLogs name])%list
       (S j) 0 s).
Proof.
  intros Hj Hbefore Hat. unfold cephNanoHealth. rewrite bind_run.
  by rewrite (pollForSuccess_found W name (60 - 0) j s).
Qed.

Lemma cephNanoS3Health_returns (W : World) (name port : string) (j : nat) (s : Proc)
    (ip : Go.IP) (ips : list Go.IP) (err : option string) :
  fst (getInterfaceIPv4s W s) = Ret (ip :: ips, err) ->
  let url := "http://" ++ Go.IPString (IPv6String W) ip ++ ":" ++ port in
  (j < 30)%nat ->
  (forall k, (k < j)%nat -> delivered W (getCalls s + k) url = false) ->
  delivered W (getCalls s + j) url = true ->
  cephNanoS3Health W name port s
  = (Ret tt,
     advance (CallInterfaceAddrs :: idlePolls (HttpGet url) j ++ [HttpGet url])%list
       0 (S j) s).
Proof.
  intros Hips url Hj Hbefore Hat. unfold cephNanoS3Health.
  rewrite bind_run, (getInterfaceIPv4s_anywhere W s s), Hips. cbv beta iota.
  rewrite bind_run, run_index_head. cbv beta iota. fold url.
  rewrite bind_run, (pollURL_found W url (30 - 0) j); [ | lia | done | done ].
  cbv beta iota. unfold mret, M_ret. rewrite advance_advance. f_equal. same_proc.
Qed.

(** X19: the whole of [echoInfo] on a healthy cluster.  With the port read
    from the first environment entry, the marker in the logs at poll [j1 + 1],
    the gateway answering request [j2 + 1] at the first address of the
    selector, a key pair in the user file, the health text and the first
    bind, it returns after printing one report: the trimmed health text, the
    gateway's URL made of that address and port, the fixed user, the first
    key pair and the host path of the bind.  It has asked for the logs
    [j1 + 1] times and the gateway [j2 + 1] times. *)
Theorem echoInfo_report (W : World) (name : string) (s : Proc)
    (inspect : types.ContainerJSON) (key port src dst : string) (envs binds : list string)
    (j1 j2 : nat) (ip : Go.IP) (ips : list Go.IP) (err : option string)
    (id1 id2 : string) (out1 out2 : list Byte.byte) (pair : s3Details)
    (pairs : list s3Details) :
  ContainerInspect W name = Go.Ok inspect ->
  types.Env inspect = (key ++ "=" ++ port) :: envs ->
  hasByte "="%char key = false -> hasByte "="%char port = false ->
  types.Binds inspect = (src ++ ":" ++ dst) :: binds ->
  hasByte ":"%char src = false ->
  (j1 < 60)%nat ->
  (forall k, (k < j1)%nat -> marker W (logCalls s + k) name = Some false) ->
  marker W (logCalls s + j1) name = Some true ->
  fst (getInterfaceIPv4s W s) = Ret (ip :: ips, err) ->
  let address := Go.IPString (IPv6String W) ip in
  let url := "http://" ++ address ++ ":" ++ port in
  (j2 < 30)%nat ->
  (forall k, (k < j2)%nat -> delivered W (getCalls s + k) url = false) ->
  delivered W (getCalls s + j2) url = true ->
  ContainerExecCreate W name ["cat"; "/nano_user_details"] = Go.Ok id1 ->
  ContainerExecAttach W id1 = Go.Ok (Go.Ok out1) ->
  out1 = [] \/ (8 <= List.length out1)%nat ->
  jsonKeys W (drop 8 out1) = pair :: pairs ->
  ContainerExecCreate W name ["ceph"; "health"] = Go.Ok id2 ->
  ContainerExecAttach W id2 = Go.Ok (Go.Ok out2) ->
  out2 = [] \/ (8 <= List.length out2)%nat ->
  echoInfo W name s
  = (Ret tt,
     advance
       (CallContainerInspect name
        :: idlePolls (CallContainerLogs name) j1
        ++ CallContainerLogs name
        :: CallInterfaceAddrs
        :: idlePolls (HttpGet url) j2
        ++ [HttpGet url;
            CallExecCreate name ["cat"; "/nano_user_details"]; CallExecAttach id1;
            CallExecCreate name ["ceph"; "health"]; CallExecAttach id2;
            CallInterfaceAddrs;
            CallContainerInspect name;
            printed
              (Go.newline ++ TrimSpace W (string_of_list_byte (drop 8 out2))
               ++ " is the Ceph status " ++ Go.newline
               ++ "S3 object server address is: http://" ++ address
               ++ ":" ++ port ++ Go.newline
               ++ "S3 user is: nano " ++ Go.newline
               ++ "S3 access key is: " ++ AccessKey pair ++ Go.newline
               ++ "S3 secret key is: " ++ SecretKey pair ++ Go.newline
               ++ "Your working directory is: " ++ src ++ Go.newline)])%list
       (S j1) (S j2) s).
Proof.
  intros Hinspect Henv Hkey Hport Hbinds Hsrc Hj1 Hlogs Hmarker Hips address url
    Hj2 Hgets Hdelivered Hcreate1 Hattach1 Hlen1 Hkeys Hcreate2 Hattach2 Hlen2.
  unfold echoInfo.
  rewrite bind_run, (dockerInspect_port W name s inspect key port envs) by done.
  cbv beta iota.
  rewrite bind_run, (cephNanoHealth_returns W name j1) by done.
  cbv beta iota. rewrite advance_advance.
  rewrite bind_run.
  rewrite (cephNanoS3Health_returns W name port j2 _ ip ips err);
    [ | by rewrite (getInterfaceIPv4s_anywhere W s) | done | done | done ].
  cbv beta iota. fold address. fold url. rewrite advance_advance.
  rewrite bind_run. unfold getAwsKey.
  rewrite bind_run, (execContainer_framed W name _ _ id1 out1) by done.
  cbv beta iota. rewrite Hkeys, bind_run, run_index_head. cbv beta iota.
  unfold mret at 1, M_ret at 1. cbv beta iota. rewrite advance_advance.
  rewrite bind_run, (execContainer_framed W name _ _ id2 out2) by done.
  cbv beta iota. rewrite advance_advance.
  rewrite bind_run, (getInterfaceIPv4s_anywhere W s), Hips. cbv beta iota.
  rewrite advance_advance.
  rewrite bind_run, (dockerInspect_bind W name _ inspect src dst binds) by done.
  cbv beta iota. rewrite advance_advance.
  rewrite bind_run, run_index_head. cbv beta iota. fold address.
  rewrite run_Println, advance_advance.
  f_equal. unfold advance. cbn [trace logCalls getCalls IamSure DeleteAll ImageName].
  f_equal; [ | lia | lia ].
  f_equal. repeat (progress (rewrite <- ?app_assoc; cbn [app])). reflexivity.
Qed.

Lemma echoInfo_report_witness :
  exists report s',
    echoInfo healthyWorld "ceph-nano-demo" (startProc false false "") = (Ret tt, s')
    /\ last (trace s') = Some (printed report)
    /\ logCalls s' = 2%nat /\ getCalls s' = 3%nat.
Proof.
  eexists _, _. split.
  - apply (echoInfo_report healthyWorld "ceph-nano-demo" (startProc false false "")
             {| types.Binds := ["/tmp/demo:/tmp"]; types.Env := ["RGW_PORT=8000"];
                types.Image := "img:v1" |}
             "RGW_PORT" "8000" "/tmp/demo" "/tmp" [] [] 1 2 lanHigh [lanMid; loopback] None
             "cat /nano_user_details" "ceph health"
             (frameHeader ++ list_byte_of_string "{...}")%list
             (frameHeader ++ list_byte_of_string "HEALTH_OK")%list
             {| AccessKey := "AK1"; SecretKey := "SK1" |} []);
      try reflexivity; try lia.
    + intros k Hk. destruct k as [| k]; [ reflexivity | lia ].
    + intros k Hk. destruct k as [| [| k]]; [ reflexivity | reflexivity | lia ].
    + right. cbn. lia.
    + right. cbn. lia.
  - split; [ reflexivity | split; reflexivity ].
Defined.

(** ** Pulling the image *)

Lemma readLines_dots (stream : string) :
  forall s,
    readLines stream s
    = (Ret tt, advance (replicate (countLines stream) (Stdout ".")) 0 0 s).
Proof.
  induction stream as [| c rest IH]; intros s; cbn [readLines countLines].
  - by rewrite advance_nil.
  - destruct (Ascii.eqb c (ascii_of_nat 10)); [ | apply IH ].
    unfold Printf. step run_emit. by rewrite IH, advance_advance.
Qed.

(** X20: [pullImage] looks the image up under the global [ImageName].  When
    the image is there it returns [false] and the pull is not consulted.
    When it is not there, it announces the pull, prints one dot for each
    complete line of the progress stream, ends the line and returns [true];
    when the pull is refused the process ends with the error and status 1. *)
Theorem pullImage_pulls_when_absent (W : World) (ImagePull : string -> Go.Result string)
    (s : Proc) :
  (forall i otherPull,
      ImageInspectWithRaw W (ImageName s) = Go.Ok i ->
      pullImage W ImagePull s
      = (Ret false, advance [CallImageInspect (ImageName s)] 0 0 s)
      /\ pullImage W otherPull s = pullImage W ImagePull s)
  /\ (forall err stream,
        ImageInspectWithRaw W (ImageName s) = Go.Err err ->
        ImagePull (ImageName s) = Go.Ok stream ->
        pullImage W ImagePull s
        = (Ret true,
           advance (CallImageInspect (ImageName s) :: Stdout pullBanner
                    :: replicate (countLines stream) (Stdout ".")
                    ++ [printed ""])%list 0 0 s))
  /\ (forall err refusal,
        ImageInspectWithRaw W (ImageName s) = Go.Err err ->
        ImagePull (ImageName s) = Go.Err refusal ->
        pullImage W ImagePull s
        = (Exit 1,
           advance [CallImageInspect (ImageName s); Stdout pullBanner;
                    Stderr Go.newline; logged refusal] 0 0 s)).
Proof.
  assert (Hstart : forall pull,
            pullImage W pull s
            = match ImageInspectWithRaw W (ImageName s) with
              | Go.Ok _ => (Ret false, advance [CallImageInspect (ImageName s)] 0 0 s)
              | Go.Err _ =>
                  match pull (ImageName s) with
                  | Go.Ok stream =>
                      (Ret true,
                       advance (CallImageInspect (ImageName s) :: Stdout pullBanner
                                :: replicate (countLines stream) (Stdout ".")
                                ++ [printed ""])%list 0 0 s)
                  | Go.Err refusal =>
                      (Exit 1,
                       advance [CallImageInspect (ImageName s); Stdout pullBanner;
                                Stderr Go.newline; logged refusal] 0 0 s)
                  end
              end).
  { intros pull. unfold pullImage. rewrite bind_run, run_gets. cbv beta iota.
    rewrite bind_run. unfold callImageInspect. step run_emit.
    unfold mret at 1, M_ret at 1. cbv beta iota.
    destruct (ImageInspectWithRaw W (ImageName s)) as [i | err]; [ done | ].
    unfold Printf. step run_emit. rewrite bind_run, run_gets. cbv beta iota.
    change (ImageName (advance _ _ _ _)) with (ImageName s).
    destruct (pull (ImageName s)) as [stream | refusal].
    - rewrite bind_run, readLines_dots. cbv beta iota.
      step @run_Println. unfold mret, M_ret. rewrite !advance_advance.
      reflexivity.
    - step run_emit. by rewrite run_logFatal, !advance_advance. }
  split; [ | split ].
  - intros i otherPull Hthere. rewrite !Hstart, Hthere. done.
  - intros err stream Habsent Hpull. by rewrite Hstart, Habsent, Hpull.
  - intros err refusal Habsent Hpull. by rewrite Hstart, Habsent, Hpull.
Qed.

Lemma pullImage_pulls_when_absent_witness :
  pullImage emptyWorld twoLinePull (startProc false false "ceph/daemon")
  = (Ret true,
     advance [CallImageInspect "ceph/daemon"; Stdout pullBanner; Stdout "."; Stdout ".";
              printed ""] 0 0 (startProc false false "ceph/daemon"))
  /\ fst (pullImage emptyWorld twoLinePull (startProc false false "private/image"))
     = Exit 1
  /\ fst (pullImage untaggedWorld twoLinePull (startProc false false "0a1b")) = Ret false.
Proof.
  destruct (pullImage_pulls_when_absent emptyWorld twoLinePull
              (startProc false false "ceph/daemon")) as (_ & Hpull & _).
  destruct (pullImage_pulls_when_absent emptyWorld twoLinePull
              (startProc false false "private/image")) as (_ & _ & Hrefused).
  destruct (pullImage_pulls_when_absent untaggedWorld twoLinePull
              (startProc false false "0a1b")) as (Hthere & _).
  split; [ | split ].
  - apply (Hpull "No such image"
             ("layer 1" ++ Go.newline ++ "layer 2" ++ Go.newline ++ "rest"));
      reflexivity.
  - by rewrite (Hrefused "No such image" "pull access denied" eq_refl eq_refl).
  - by rewrite (proj1 (Hthere untaggedImage twoLinePull eq_refl)).
Defined.
